(** * pyutk: a shallow embedding of [src/pyutk/pyutk.py]

    The Python module is a thin wrapper around the executables of the UTK
    toolkit.  This development embeds its configuration functions, the
    discovery of sampler executables, the point readers and writers, the
    discrepancy reader and the two facades, and proves the properties the
    specification states about them.

    Conventions of the embedding.
    - A Python [str] is a [string]; only ASCII text is modelled, so a
      character is a byte.
    - A Python [int] is a [Z].
    - A double is its IEEE-754 binary64 bit pattern, a [Z] below [2^64].
      The decimal conversions [str(x)] and [np.double(s)] belong to numpy
      and are parameters of the development.
    - The interpreter state the module can observe (its three globals, the
      file system, the source of uuids) is a [world], threaded through a
      state-and-exception monad: an exception keeps the mutations made
      before it was raised, as in Python.
    - Paths follow [posixpath]. *)

From Stdlib Require Import ZArith Ascii String Lia.
From stdpp Require Import gmap strings list sorting pretty.

Local Open Scope Z_scope.

(** ** Python string operations *)

Module PyStr.

(** [c.isspace()] for an ASCII character. *)
Definition isspace (c : ascii) : bool :=
  let n := nat_of_ascii c in
  ((9 <=? n)%nat && (n <=? 13)%nat) ||
  ((28 <=? n)%nat && (n <=? 32)%nat).

(** [pat in s]. *)
Fixpoint contains (pat s : string) : bool :=
  String.prefix pat s ||
  match s with
  | EmptyString => false
  | String _ s' => contains pat s'
  end.

(** [s.endswith(suf)]. *)
Fixpoint endswith (suf s : string) : bool :=
  bool_decide (s = suf) ||
  match s with
  | EmptyString => false
  | String _ s' => endswith suf s'
  end.

(** [s[k:]] for [0 <= k]. *)
Fixpoint drop (k : nat) (s : string) : string :=
  match k, s with
  | O, _ => s
  | S _, EmptyString => EmptyString
  | S k', String _ s' => drop k' s'
  end.

(** [s[:k]] for [0 <= k]. *)
Fixpoint take (k : nat) (s : string) : string :=
  match k, s with
  | O, _ => EmptyString
  | S _, EmptyString => EmptyString
  | S k', String c s' => String c (take k' s')
  end.

(** [s[:-k]]: everything but the last [k] characters. *)
Definition drop_last (k : nat) (s : string) : string :=
  take (String.length s - k) s.

(** [s.lower()] on ASCII letters. *)
Definition lower_char (c : ascii) : ascii :=
  let n := nat_of_ascii c in
  if ((65 <=? n)%nat && (n <=? 90)%nat) then ascii_of_nat (n + 32) else c.

Fixpoint lower (s : string) : string :=
  match s with
  | EmptyString => EmptyString
  | String c s' => String (lower_char c) (lower s')
  end.

(** [s.lstrip()], [s.rstrip()] and [s.strip()] with no argument. *)
Fixpoint lstrip (s : string) : string :=
  match s with
  | EmptyString => EmptyString
  | String c s' => if isspace c then lstrip s' else s
  end.

Fixpoint rstrip (s : string) : string :=
  match s with
  | EmptyString => EmptyString
  | String c s' =>
      match rstrip s' with
      | EmptyString => if isspace c then EmptyString else String c EmptyString
      | r => String c r
      end
  end.

Definition strip (s : string) : string := rstrip (lstrip s).

(** [s.split(sep)] for a non-empty [sep]; [cur] is the field being read
    and [skip] counts the characters of a separator still to be passed. *)
Fixpoint split_go (sep : string) (skip : nat) (cur s : string) : list string :=
  match s with
  | EmptyString => [cur]
  | String c s' =>
      match skip with
      | S k => split_go sep k cur s'
      | O =>
          if String.prefix sep s
          then cur :: split_go sep (String.length sep - 1) EmptyString s'
          else split_go sep 0 (cur +:+ String c EmptyString) s'
      end
  end.

Definition split (sep s : string) : list string := split_go sep 0 EmptyString s.

(** [sep.join(l)]. *)
Definition join (sep : string) (l : list string) : string := String.concat sep l.

(** [s.rfind(c)] for a one-character needle: the index of the last
    occurrence, or [-1]. *)
Fixpoint rfind (c : ascii) (s : string) : Z :=
  match s with
  | EmptyString => -1
  | String a s' =>
      let r := rfind c s' in
      if 0 <=? r then r + 1 else if Ascii.eqb a c then 0 else -1
  end.

End PyStr.

(** ** Exceptions, the world and the monad *)

Inductive exn :=
  | FileNotFoundError
  | FileExistsError
  | NotADirectoryError
  | IsADirectoryError
  | ValueError
  | IndexError
  | KeyError
  | AttributeError
  | TypeError.

Inductive result (A : Type) :=
  | Ok (a : A)
  | Raise (e : exn).
Arguments Ok {A} a.
Arguments Raise {A} e.

(** The three module globals. *)
Record config := {
  __UTK__DIR__ : string;
  __UTK__WDIR__ : string;
  __UTK__SILENCE__ : bool
}.

(** A file-system entry.  A directory carries its listing, the names
    [os.listdir] returns; [x] is the execute (search) permission. *)
Inductive node :=
  | NDir (x : bool) (listing : list string)
  | NFile (x : bool) (data : string).

(** Paths are keys as they are written; [uuids] counts the calls made to
    [uuid.uuid4]. *)
Record world := {
  cfg : config;
  fs : gmap string node;
  uuids : nat
}.

Definition with_cfg (c : config) (w : world) : world :=
  {| cfg := c; fs := fs w; uuids := uuids w |}.
Definition with_fs (f : gmap string node) (w : world) : world :=
  {| cfg := cfg w; fs := f; uuids := uuids w |}.

(** State and exceptions: an exception keeps the state reached when it was
    raised.  [M] runs over the world; the local dictionary of
    [get_samplers] is threaded the same way. *)
Definition ST (S A : Type) : Type := S → result A * S.

Section ST.
Context {S : Type}.

Definition ret {A} (a : A) : ST S A := λ s, (Ok a, s).
Definition raise {A} (e : exn) : ST S A := λ s, (Raise e, s).
Definition bind {A B} (k : A → ST S B) (m : ST S A) : ST S B :=
  λ s, match m s with
       | (Ok a, s') => k a s'
       | (Raise e, s') => (Raise e, s')
       end.
Definition get_state : ST S S := λ s, (Ok s, s).
Definition put_state (s' : S) : ST S unit := λ _, (Ok tt, s').
Definition lift {A} (r : result A) : ST S A := λ s, (r, s).

(** try: [m] except Exception: pass *)
Definition try_pass (m : ST S unit) : ST S unit :=
  λ s, match m s with
       | (Ok _, s') | (Raise _, s') => (Ok tt, s')
       end.
End ST.

#[global] Instance ST_ret {S} : MRet (ST S) := @ret S.
#[global] Instance ST_bind {S} : MBind (ST S) := @bind S.

Abbreviation M := (ST world).
Abbreviation get_world := (get_state (S:=world)).
Abbreviation put_world := (put_state (S:=world)).

(** [for x in l: body x], stopping at the first exception. *)
Fixpoint for_each {S A} (l : list A) (body : A → ST S unit) : ST S unit :=
  match l with
  | [] => ret tt
  | x :: l' => body x ;; for_each l' body
  end.

(** ** [os] and [os.path] *)

Module os.

(** [posixpath.join(a, b)]. *)
Definition join (a b : string) : string :=
  if String.prefix "/" b then b
  else if bool_decide (a = "") || PyStr.endswith "/" a then a +:+ b
  else a +:+ "/" +:+ b.

(** [genericpath._splitext]: the loop that skips the leading dots of the
    file name, from [filenameIndex] up to [dotIndex]. *)
Fixpoint only_dots (s : string) : bool :=
  match s with
  | EmptyString => true
  | String c s' => Ascii.eqb c "." && only_dots s'
  end.

(** [posixpath.splitext(p)]. *)
Definition splitext (p : string) : string * string :=
  let sepIndex := PyStr.rfind "/" p in
  let dotIndex := PyStr.rfind "." p in
  if (sepIndex <? dotIndex)
     && negb (only_dots
                (PyStr.take (Z.to_nat (dotIndex - (sepIndex + 1)))
                            (PyStr.drop (Z.to_nat (sepIndex + 1)) p)))
  then (PyStr.take (Z.to_nat dotIndex) p, PyStr.drop (Z.to_nat dotIndex) p)
  else (p, EmptyString).

(** [posixpath.dirname(p)] and [posixpath.basename(p)]. *)
Fixpoint rstrip_slash (s : string) : string :=
  match s with
  | EmptyString => EmptyString
  | String c s' =>
      match rstrip_slash s' with
      | EmptyString => if Ascii.eqb c "/" then EmptyString else String c EmptyString
      | r => String c r
      end
  end.

Definition dirname (p : string) : string :=
  let head := PyStr.take (Z.to_nat (PyStr.rfind "/" p + 1)) p in
  match rstrip_slash head with
  | EmptyString => head
  | r => r
  end.

Definition basename (p : string) : string :=
  PyStr.drop (Z.to_nat (PyStr.rfind "/" p + 1)) p.

Definition exists_ (p : string) : M bool :=
  w ← get_world; ret (bool_decide (is_Some (fs w !! p))).

Definition isdir (p : string) : M bool :=
  w ← get_world;
  ret (match fs w !! p with Some (NDir _ _) => true | _ => false end).

(** [os.access(p, os.X_OK)]. *)
Definition access_x (p : string) : M bool :=
  w ← get_world;
  ret (match fs w !! p with
       | Some (NDir x _) | Some (NFile x _) => x
       | None => false
       end).

(** The error for a path that names nothing.  Looking a path up stops at
    the first component that is not a directory: the error is [ENOTDIR]
    when that component is a regular file and [ENOENT] when it is
    missing.  With the paths as keys, the ancestors of [p] are its
    prefixes that end at a slash, written with or without that slash; the
    nearest ancestor that the tree holds decides, and a path with no
    ancestor in the tree is looked up from a directory. *)
Definition holds_dir (f : gmap string node) (p : string) : bool :=
  match f !! p with Some (NDir _ _) => true | _ => false end.

Definition holds_file (f : gmap string node) (p : string) : bool :=
  match f !! p with Some (NFile _ _) => true | _ => false end.

Fixpoint below_file (fuel : nat) (f : gmap string node) (p : string) : bool :=
  match fuel with
  | O => false
  | S fuel' =>
      let i := PyStr.rfind "/" p in
      if i <? 0 then false
      else
        let with_slash := PyStr.take (Z.to_nat (i + 1)) p in
        let without := PyStr.take (Z.to_nat i) p in
        if holds_dir f with_slash || holds_dir f without then false
        else if holds_file f with_slash || holds_file f without then true
        else below_file fuel' f without
  end.

Definition under_file (f : gmap string node) (p : string) : bool :=
  below_file (String.length p) f p.

Definition missing (f : gmap string node) (p : string) : exn :=
  if under_file f p then NotADirectoryError else FileNotFoundError.

Definition listdir (p : string) : M (list string) :=
  w ← get_world;
  match fs w !! p with
  | Some (NDir _ l) => ret l
  | Some (NFile _ _) => raise NotADirectoryError
  | None => raise (missing (fs w) p)
  end.

(** Add entry [p] to the tree: its parent must be a directory. *)
Definition link (p : string) (n : node) : M unit :=
  w ← get_world;
  match fs w !! dirname p with
  | Some (NDir x l) =>
      put_world (with_fs (<[p := n]> (<[dirname p := NDir x (l ++ [basename p])]> (fs w))) w)
  | Some (NFile _ _) => raise NotADirectoryError
  | None => raise (missing (fs w) p)
  end.

Definition unlink (p : string) : M unit :=
  w ← get_world;
  let f := delete p (fs w) in
  put_world (with_fs
    (match f !! dirname p with
     | Some (NDir x l) =>
         <[dirname p := NDir x (filter (λ name, name ≠ basename p) l)]> f
     | _ => f
     end) w).

Definition mkdir (p : string) : M unit :=
  w ← get_world;
  match fs w !! p with
  | Some _ => raise FileExistsError
  | None => link p (NDir true [])
  end.

Definition remove (p : string) : M unit :=
  w ← get_world;
  match fs w !! p with
  | Some (NFile _ _) => unlink p
  | Some (NDir _ _) => raise IsADirectoryError
  | None => raise (missing (fs w) p)
  end.

End os.

(** ** Configuration *)

Definition set_dir (dir : string) : M unit :=
  e ← os.exists_ dir;
  if negb e then raise FileNotFoundError
  else
    w ← get_world;
    put_world (with_cfg {| __UTK__DIR__ := dir;
                           __UTK__WDIR__ := __UTK__WDIR__ (cfg w);
                           __UTK__SILENCE__ := __UTK__SILENCE__ (cfg w) |} w).

(** [set_wdir] has no [global] statement, so its assignment
    [__UTK__DIR__ = dir] binds a name local to the call, which is dropped
    when the function returns. *)
Definition set_wdir (dir : string) : M unit :=
  e ← os.exists_ dir;
  (if negb e then os.mkdir dir else ret tt) ;;
  let local__UTK__DIR__ := dir in
  ret tt.

Definition set_silence (silence : bool) : M unit :=
  w ← get_world;
  put_world (with_cfg {| __UTK__DIR__ := __UTK__DIR__ (cfg w);
                         __UTK__WDIR__ := __UTK__WDIR__ (cfg w);
                         __UTK__SILENCE__ := silence |} w).

Definition get_samplers_dir : M string :=
  w ← get_world; ret (os.join (__UTK__DIR__ (cfg w)) "samplers").

Definition get_discrepancy_dir : M string :=
  w ← get_world; ret (os.join (__UTK__DIR__ (cfg w)) "discrepancy").

Definition get_silence_args : M (list string) :=
  w ← get_world;
  if __UTK__SILENCE__ (cfg w) then ret ["--silent"] else ret [].

(** ** Discovery of the sampler executables *)

(** [int(s)] in base 10: surrounding whitespace, an optional sign, then
    digits, where single underscores may separate digits.  The whitespace
    [int] skips is that of C's [isspace], the characters 9 to 13 and 32:
    the separators 28 to 31, which [str.strip] takes off, are not part
    of it. *)
Definition int_space (c : ascii) : bool :=
  let n := nat_of_ascii c in
  ((9 <=? n)%nat && (n <=? 13)%nat) || (n =? 32)%nat.

Fixpoint int_lstrip (s : string) : string :=
  match s with
  | EmptyString => EmptyString
  | String c s' => if int_space c then int_lstrip s' else s
  end.

Fixpoint int_rstrip (s : string) : string :=
  match s with
  | EmptyString => EmptyString
  | String c s' =>
      match int_rstrip s' with
      | EmptyString => if int_space c then EmptyString else String c EmptyString
      | r => String c r
      end
  end.

Definition digit_of (c : ascii) : option Z :=
  let n := nat_of_ascii c in
  if ((48 <=? n)%nat && (n <=? 57)%nat) then Some (Z.of_nat n - 48) else None.

Fixpoint int_digits (acc : Z) (after_digit : bool) (s : string) : option Z :=
  match s with
  | EmptyString => if after_digit then Some acc else None
  | String c s' =>
      if Ascii.eqb c "_"
      then (if after_digit then int_digits acc false s' else None)
      else match digit_of c with
           | Some d => int_digits (10 * acc + d) true s'
           | None => None
           end
  end.

Definition int_of_str (s : string) : result Z :=
  let parsed :=
    match int_rstrip (int_lstrip s) with
    | String "+" r => int_digits 0 false r
    | String "-" r => Z.opp <$> int_digits 0 false r
    | t => int_digits 0 false t
    end in
  match parsed with
  | Some z => Ok z
  | None => Raise ValueError
  end.

(** A collection of dimensions: a [set] while the directory is scanned, a
    [list] once it has been sorted. *)
Inductive dims :=
  | DSet (s : gset Z)
  | DList (l : list Z).

(** [sorted(v)]. *)
Definition sorted (v : dims) : dims :=
  match v with
  | DSet s => DList (merge_sort Z.le (elements s))
  | DList l => DList (merge_sort Z.le l)
  end.

(** [v.add(dim)]: a method of [set] only. *)
Definition py_add (dim : Z) : ST dims unit :=
  v ← get_state;
  match v with
  | DSet s => put_state (DSet ({[dim]} ∪ s))
  | DList _ => raise AttributeError
  end.

(** [v.append(dim)]: a method of [list] only. *)
Definition py_append (dim : Z) : ST dims unit :=
  v ← get_state;
  match v with
  | DSet _ => raise AttributeError
  | DList l => put_state (DList (l ++ [dim]))
  end.

(** [d[k]] on a dictionary, and running a statement on the object [d[k]]
    refers to: the object is shared, so what the statement did to it before
    an exception stays done. *)
Definition getitem {V} (k : string) : ST (gmap string V) V :=
  d ← get_state;
  match d !! k with
  | Some v => ret v
  | None => raise KeyError
  end.

Definition at_item {V A} (k : string) (op : ST V A) : ST (gmap string V) A :=
  λ d, match d !! k with
       | Some v => let '(r, v') := op v in (r, <[k := v']> d)
       | None => (Raise KeyError, d)
       end.

(** [l[i]] and [l[-1]] on a list. *)
Definition list_item {A} (l : list A) (i : nat) : result A :=
  match l !! i with
  | Some a => Ok a
  | None => Raise IndexError
  end.

Definition list_last {A} (l : list A) : result A :=
  match last l with
  | Some a => Ok a
  | None => Raise IndexError
  end.

(** What [samplers] maps a name to: the dimensions when [split_i_d] is
    false, a dictionary from ["d"] and ["i"] to dimensions when it is
    true. *)
Definition entry (split_i_d : bool) : Type :=
  if split_i_d then gmap string dims else dims.

(** The initial value of [samplers[sampler_name]]. *)
Definition new_entry (split_i_d : bool) : entry split_i_d :=
  match split_i_d with
  | true => (∅ : gmap string dims)
  | false => DSet ∅
  end.

(** The [if split_i_d: ... else: ...] statement of the loop, run on
    [samplers[sampler_name]]. *)
Definition record_split (sampler_info : list string) (dim : Z)
  : ST (gmap string dims) unit :=
  d ← get_state;
  (if bool_decide (d !! "d" = None) then put_state (<["d" := DSet ∅]> d) else ret tt) ;;
  d ← get_state;
  (if bool_decide (d !! "i" = None) then put_state (<["i" := DSet ∅]> d) else ret tt) ;;
  tok ← lift (list_item sampler_info 1);
  (if PyStr.endswith "dd" tok then at_item "d" (py_append dim) else ret tt) ;;
  tok ← lift (list_item sampler_info 1);
  (if PyStr.endswith "di" tok then at_item "i" (py_append dim) else ret tt).

Definition record_dim (split_i_d : bool) (sampler_info : list string) (dim : Z)
  : ST (entry split_i_d) unit :=
  match split_i_d with
  | true => record_split sampler_info dim
  | false => py_add dim
  end.

(** The body of the [try] statement. *)
Definition try_body (split_i_d : bool) (sampler_info : list string)
    (sampler_name : string) : ST (gmap string (entry split_i_d)) unit :=
  tok ← lift (list_last sampler_info);
  dim ← lift (int_of_str (PyStr.drop_last 2 tok));
  samplers ← get_state;
  (if bool_decide (samplers !! sampler_name = None)
   then put_state (<[sampler_name := new_entry split_i_d]> samplers)
   else ret tt) ;;
  at_item sampler_name (record_dim split_i_d sampler_info dim).

(** The test [is_sampler] of one directory entry. *)
Definition is_sampler (filepath : string) : M bool :=
  x ← os.access_x filepath;
  d ← os.isdir filepath;
  ret (x && negb d &&
       (PyStr.contains "dd" filepath || PyStr.contains "di" filepath)).

(** One turn of the loop over the directory. *)
Definition scan_file (split_i_d : bool) (file : string)
    (samplers : gmap string (entry split_i_d)) : M (gmap string (entry split_i_d)) :=
  dir ← get_samplers_dir;
  let filepath := os.join dir file in
  ok ← is_sampler filepath;
  if ok : bool then
    let sampler_info := PyStr.split "_" file in
    let sampler_name := PyStr.join "_" (removelast sampler_info) in
    ret (snd (try_pass (try_body split_i_d sampler_info sampler_name) samplers))
  else ret samplers.

Fixpoint scan (split_i_d : bool) (files : list string)
    (samplers : gmap string (entry split_i_d)) : M (gmap string (entry split_i_d)) :=
  match files with
  | [] => ret samplers
  | file :: files' =>
      samplers' ← scan_file split_i_d file samplers;
      scan split_i_d files' samplers'
  end.

(** The loops that sort once the scan is over: every value when
    [split_i_d] is false, only the value under ["d"] when it is true. *)
Definition sort_split : ST (gmap string dims) unit :=
  v ← getitem "d"; d ← get_state; put_state (<["d" := sorted v]> d).

Definition sort_merged : ST dims unit :=
  v ← get_state; put_state (sorted v).

Definition sort_entry (split_i_d : bool) : ST (entry split_i_d) unit :=
  match split_i_d with
  | true => sort_split
  | false => sort_merged
  end.

Definition get_samplers (split_i_d : bool) : M (gmap string (entry split_i_d)) :=
  dir ← get_samplers_dir;
  files ← os.listdir dir;
  samplers ← scan split_i_d files ∅;
  let '(r, samplers') :=
    for_each (map_to_list samplers).*1
             (λ name, at_item name (sort_entry split_i_d)) samplers in
  lift r ;; ret samplers'.

(** ** Text files *)

(** Reading in text mode translates the line endings ["\r\n"] and ["\r"]
    to ["\n"] (universal newlines). *)
Fixpoint universal_newlines (s : string) : string :=
  match s with
  | EmptyString => EmptyString
  | String c s' =>
      if Ascii.eqb c "013" then
        match s' with
        | String c' s'' =>
            if Ascii.eqb c' "010" then String "010" (universal_newlines s'')
            else String "010" (universal_newlines s')
        | EmptyString => String "010" EmptyString
        end
      else String c (universal_newlines s')
  end.

(** The lines a file object yields, each with its ["\n"] but possibly the
    last. *)
Fixpoint lines_go (cur s : string) : list string :=
  match s with
  | EmptyString => if bool_decide (cur = "") then [] else [cur]
  | String c s' =>
      if Ascii.eqb c "010" then (cur +:+ String c EmptyString) :: lines_go EmptyString s'
      else lines_go (cur +:+ String c EmptyString) s'
  end.

Definition readlines (data : string) : list string :=
  lines_go EmptyString (universal_newlines data).

(** An open file object: its path, its position, and whether it was
    opened for appending.  The module never removes a file it holds open,
    so the data are found under the path. *)
Record pyfile := {
  f_path : string;
  f_pos : nat;
  f_append : bool
}.

Definition file_data (p : string) : M string :=
  w ← get_world;
  match fs w !! p with
  | Some (NFile _ data) => ret data
  | Some (NDir _ _) => raise IsADirectoryError
  | None => raise (os.missing (fs w) p)
  end.

Definition set_file_data (p data : string) : M unit :=
  w ← get_world;
  match fs w !! p with
  | Some (NFile x _) => put_world (with_fs (<[p := NFile x data]> (fs w)) w)
  | Some (NDir _ _) => raise IsADirectoryError
  | None => raise (os.missing (fs w) p)
  end.

(** [open(p, "r")]: the whole content, for the readers. *)
Definition open_read (p : string) : M string := file_data p.

(** [open(p, "a+")] and [open(p, "w+")]: both create a missing file; the
    first starts at the end of the data, the second empties the file. *)
Definition open_write (p : string) (append : bool) : M pyfile :=
  w ← get_world;
  (match fs w !! p with
   | Some (NFile _ _) => if append then ret tt else set_file_data p ""
   | Some (NDir _ _) => raise IsADirectoryError
   | None => os.link p (NFile false "")
   end) ;;
  data ← file_data p;
  ret {| f_path := p; f_pos := String.length data; f_append := append |}.

Definition file_tell (f : pyfile) : nat := f_pos f.

Definition file_seek (f : pyfile) (pos : nat) : pyfile :=
  {| f_path := f_path f; f_pos := pos; f_append := f_append f |}.

(** [f.read(1)]: one character of the translated text, which uses up two
    bytes when they are ["\r\n"]. *)
Definition file_read1 (f : pyfile) : M (string * pyfile) :=
  data ← file_data (f_path f);
  let rest := PyStr.drop (f_pos f) data in
  match universal_newlines rest with
  | EmptyString => ret (EmptyString, f)
  | String c _ =>
      let used :=
        if String.prefix (String "013" (String "010" EmptyString)) rest
        then 2%nat else 1%nat in
      ret (String c EmptyString, file_seek f (f_pos f + used))
  end.

(** [f.write(s)]: at the end of the data when appending, at the position
    otherwise (past the end, the gap reads as zero bytes).  The data of a
    file in the world are the data as its writer has them, what it has
    written included: Python keeps that in a buffer until [tell],
    [flush] or [close], so another reader of the file finds it there
    only once the writer has been closed. *)
Fixpoint zeros (k : nat) : string :=
  match k with
  | O => EmptyString
  | S k' => String "000" (zeros k')
  end.

Definition file_write (f : pyfile) (s : string) : M pyfile :=
  data ← file_data (f_path f);
  let data' :=
    if f_append f then data +:+ s
    else PyStr.take (f_pos f) data +:+ zeros (f_pos f - String.length data)
         +:+ s +:+ PyStr.drop (f_pos f + String.length s) data in
  set_file_data (f_path f) data' ;;
  ret (file_seek f (if f_append f then String.length data'
                    else (f_pos f + String.length s)%nat)).

(** [obj.attr] where [obj] may be [None]. *)
Definition not_none {S A} (o : option A) : ST S A :=
  match o with
  | Some a => ret a
  | None => raise AttributeError
  end.

(** ** Arrays *)

(** The arrays the module handles: point sets, of two dimensions, and
    sequences of point sets, of three. *)
Inductive ndarray :=
  | Arr2 (rows : list (list Z))
  | Arr3 (sets : list (list (list Z))).

Definition ndim (a : ndarray) : nat :=
  match a with Arr2 _ => 2 | Arr3 _ => 3 end.

(** [a.reshape((n, d))] of a flat array. *)
Definition reshape (n d : nat) (l : list Z) : result (list (list Z)) :=
  if bool_decide (length l = (n * d)%nat)
  then Ok ((λ i, take d (drop (i * d) l)) <$> seq 0 n)
  else Raise ValueError.

(** Eight bytes, most significant first, as a 64-bit pattern. *)
Definition be_word (bytes : string) : Z :=
  fold_left (λ acc c, Z.lor (Z.shiftl acc 8) (Z.of_nat (nat_of_ascii c)))
            (list_ascii_of_string bytes) 0.

Fixpoint be_words (count : nat) (bytes : string) : list Z :=
  match count with
  | O => []
  | S k => be_word (PyStr.take 8 bytes) :: be_words k (PyStr.drop 8 bytes)
  end.

(** [np.fromfile(p, dtype=">d", offset=4)]: as many whole items as the
    bytes after the offset hold. *)
Definition fromfile_be_double (p : string) (offset : nat) : M (list Z) :=
  data ← open_read p;
  let numbytes := Z.of_nat (String.length data) - Z.of_nat offset in
  ret (be_words (Z.to_nat (numbytes ÷ 8)) (PyStr.drop offset data)).

(** ** Readers, writers and facades *)

Section pyutk.

(** numpy's conversions between doubles and decimal text: [str(x)] as
    [astype(str)] applies it, and [np.double(s)], which may fail. *)
Variable np_str : Z → string.
Variable np_double : string → option Z.
(** What the cells of [np.empty((n, d))] hold before they are written. *)
Variable np_garbage : nat → nat → Z.
(** The hexadecimal form of the [k]-th uuid drawn. *)
Variable uuid4_hex : nat → string.
(** [subprocess.run(args)]: what the child process does to the files. *)
Variable subprocess_run : list string → ST (gmap string node) unit.

Definition np_empty (n d : nat) : list (list Z) :=
  (λ i, np_garbage i <$> seq 0 d) <$> seq 0 n.

Definition parse_double (s : string) : result Z :=
  match np_double s with
  | Some x => Ok x
  | None => Raise ValueError
  end.

(** [s.split(sep)], which rejects an empty separator. *)
Definition py_split (sep s : string) : result (list string) :=
  if bool_decide (sep = "") then Raise ValueError else Ok (PyStr.split sep s).

(** [list(map(f, l))]. *)
Fixpoint map_result {A B} (f : A → result B) (l : list A) : result (list B) :=
  match l with
  | [] => Ok []
  | a :: l' =>
      match f a with
      | Ok b =>
          match map_result f l' with
          | Ok bs => Ok (b :: bs)
          | Raise e => Raise e
          end
      | Raise e => Raise e
      end
  end.

(** *** PointReader *)

Record PointReader := {
  pr_n : nat;
  pr_d : nat;
  pr_sep : string
}.

Definition PointReader_init (n d : nat) (sep : option string) : PointReader :=
  {| pr_n := n; pr_d := d; pr_sep := default (String "009" EmptyString) sep |}.

(** [points[i] = coords]: the row must exist, and [coords] must have the
    length of a row or be a single value, which is then broadcast. *)
Definition set_row (d i : nat) (coords : list Z) (points : list (list Z))
  : result (list (list Z)) :=
  if bool_decide (length points ≤ i)%nat then Raise IndexError
  else if bool_decide (length coords = d) then Ok (<[i := coords]> points)
  else match coords with
       | [x] => Ok (<[i := replicate d x]> points)
       | _ => Raise ValueError
       end.

Fixpoint read_text_loop (self : PointReader) (i : nat) (lines : list string)
    (points : list (list Z)) : result (list (list Z)) :=
  match lines with
  | [] => Ok points
  | point :: lines' =>
      match py_split (pr_sep self) (PyStr.strip point) with
      | Ok fields =>
          match map_result parse_double fields with
          | Ok coords =>
              match set_row (pr_d self) i coords points with
              | Ok points' => read_text_loop self (S i) lines' points'
              | Raise e => Raise e
              end
          | Raise e => Raise e
          end
      | Raise e => Raise e
      end
  end.

Definition PointReader_read_text (self : PointReader) (filepath : string)
  : M (list (list Z)) :=
  let points := np_empty (pr_n self) (pr_d self) in
  data ← open_read filepath;
  lift (read_text_loop self 0 (readlines data) points).

Definition PointReader_read_bin (self : PointReader) (filepath : string)
  : M (list (list Z)) :=
  points ← fromfile_be_double filepath 4;
  lift (reshape (pr_n self) (pr_d self) points).

Definition PointReader_read (self : PointReader) (filepath : string)
  : M (list (list Z)) :=
  if bool_decide (snd (os.splitext filepath) = ".dat")
  then PointReader_read_text self filepath
  else PointReader_read_bin self filepath.

(** *** PointWriter *)

Record PointWriter := {
  pw_sep : string;
  pw_pointset_sep : string;
  pw_append : bool;
  pw_file : option pyfile
}.

Definition with_file (f : option pyfile) (self : PointWriter) : PointWriter :=
  {| pw_sep := pw_sep self; pw_pointset_sep := pw_pointset_sep self;
     pw_append := pw_append self; pw_file := f |}.

Definition PointWriter_close (self : PointWriter) : M PointWriter :=
  _ ← not_none (pw_file self);
  ret (with_file None self).

Definition PointWriter_open (self : PointWriter) (outFile : string) : M PointWriter :=
  self ← (if bool_decide (pw_file self = None) then ret self
          else PointWriter_close self);
  f ← open_write outFile (pw_append self);
  ret (with_file (Some f) self).

(** [PointWriter(file, sep, pointset_sep, append)]; the open mode is
    ["a+"] when [append] holds and ["w+"] otherwise. *)
Definition PointWriter_init (file : option string) (sep pointset_sep : option string)
    (append : option bool) : M PointWriter :=
  let self := {| pw_sep := default (String "009" EmptyString) sep;
                 pw_pointset_sep := default "#" pointset_sep;
                 pw_append := default true append;
                 pw_file := None |} in
  match file with
  | Some path => PointWriter_open self path
  | None => ret self
  end.

(** A file argument that may be [None]: writing to it. *)
Definition write_to (file : option pyfile) (s : string) : M (option pyfile) :=
  f ← not_none file;
  f' ← file_write f s;
  ret (Some f').

Fixpoint write_points (self : PointWriter) (file : option pyfile)
    (points : list (list Z)) : M (option pyfile) :=
  match points with
  | [] => ret file
  | point :: points' =>
      file ← write_to file (PyStr.join (pw_sep self) (np_str <$> point));
      file ← write_to file (String "010" EmptyString);
      write_points self file points'
  end.

Definition process_header (self : PointWriter) : M PointWriter :=
  if pw_append self then
    f ← not_none (pw_file self);
    let current := file_tell f in
    if bool_decide (current = 0%nat) then ret self
    else
      '(current_char, f) ← file_read1 (file_seek f (current - 1));
      let f := file_seek f current in
      f ← (if bool_decide (current_char ≠ String "010" EmptyString)
           then file_write f (String "010" EmptyString) else ret f);
      f ← file_write f (pw_pointset_sep self);
      f ← file_write f (String "010" EmptyString);
      ret (with_file (Some f) self)
  else ret self.

Fixpoint write_sets (self : PointWriter) (sets : list (list (list Z)))
  : M PointWriter :=
  match sets with
  | [] => ret self
  | p :: sets' =>
      file ← write_points self (pw_file self) p;
      file ← write_to file (pw_pointset_sep self);
      file ← write_to file (String "010" EmptyString);
      write_sets (with_file file self) sets'
  end.

Definition PointWriter_write (self : PointWriter) (points : ndarray) : M PointWriter :=
  match points with
  | Arr2 rows =>
      self ← process_header self;
      file ← write_points self (pw_file self) rows;
      ret (with_file file self)
  | Arr3 sets => write_sets self sets
  end.

(** The positional arguments a caller passes, and how a call binds
    them to [write(self, points=np.asarray([[]]))]: more than one is a
    [TypeError], and a string has no attribute [ndim]. *)
Inductive pyarg :=
  | AStr (s : string)
  | AArr (a : ndarray).

Definition call_PointWriter_write (self : PointWriter) (args : list pyarg)
  : M PointWriter :=
  match args with
  | [] => PointWriter_write self (Arr2 [[]])
  | [AArr a] => PointWriter_write self a
  | [AStr _] => raise AttributeError
  | _ :: _ :: _ => raise TypeError
  end.

(** *** DiscrepancyReader *)

Record DiscrepancyReader := {
  dr_sep : string;
  dr_exclude : nat
}.

Definition DiscrepancyReader_init (sep : option string) (exculde_char : option nat)
  : DiscrepancyReader :=
  {| dr_sep := default (String "009" EmptyString) sep;
     dr_exclude := default 1%nat exculde_char |}.

Definition nonempty (s : string) : bool := negb (bool_decide (s = "")).

(** The loop [for name, value in zip(names, splitted)] filling [result]. *)
Fixpoint fill_result (pairs : list (string * string)) (res : gmap string Z)
  : result (gmap string Z) :=
  match pairs with
  | [] => Ok res
  | (name, value) :: pairs' =>
      match parse_double value with
      | Ok x => fill_result pairs' (<[name := x]> res)
      | Raise e => Raise e
      end
  end.

Fixpoint read_results (self : DiscrepancyReader) (names lines : list string)
  : result (list (gmap string Z)) :=
  match lines with
  | [] => Ok []
  | line :: lines' =>
      match py_split (dr_sep self) (PyStr.strip line) with
      | Ok splitted =>
          let splitted := filter (λ s, nonempty s) splitted in
          match fill_result (zip names splitted) ∅ with
          | Ok res =>
              match read_results self names lines' with
              | Ok results => Ok (res :: results)
              | Raise e => Raise e
              end
          | Raise e => Raise e
          end
      | Raise e => Raise e
      end
  end.

Definition DiscrepancyReader_read (self : DiscrepancyReader) (filepath : string)
  : M (list (gmap string Z)) :=
  data ← open_read filepath;
  let lines := readlines data in
  let names := default EmptyString (head lines) in
  names ← lift (py_split (dr_sep self) (PyStr.strip names));
  let names := (λ name, PyStr.lower (PyStr.drop (dr_exclude self) name))
                 <$> filter (λ s, nonempty s) names in
  lift (read_results self names (tail lines)).

(** *** The facades *)

(** A keyword argument's value and its [str]. *)
Inductive kwval :=
  | KInt (z : Z)
  | KStr (s : string).

Definition py_str (v : kwval) : string :=
  match v with
  | KInt z => pretty z
  | KStr s => s
  end.

Definition flatten_kwargs (kwargs : list (string * kwval)) : list string :=
  kwargs ≫= λ items, [fst items; py_str (snd items)].

Definition uuid4 : M string :=
  w ← get_world;
  put_world {| cfg := cfg w; fs := fs w; uuids := S (uuids w) |} ;;
  ret (uuid4_hex (uuids w)).

Definition run (args : list string) : M unit :=
  w ← get_world;
  let '(r, f) := subprocess_run args (fs w) in
  put_world (with_fs f w) ;; lift r.

Record Sampler := {
  s_name : string;
  s_d : nat;
  s_exename : string;
  s_args : list string
}.

Definition Sampler_init (name : string) (d : nat) (index : option string)
    (kwargs : list (string * kwval)) : Sampler :=
  {| s_name := name; s_d := d;
     s_exename := name +:+ "_" +:+ pretty d +:+ "d" +:+ default "d" index;
     s_args := flatten_kwargs kwargs |}.

Definition Sampler_sample_to (self : Sampler) (outfile : string) (n : nat)
  : M (list (list Z)) :=
  dir ← get_samplers_dir;
  silence ← get_silence_args;
  let args := [os.join dir (s_exename self);
               "-o"; outfile; "-n"; pretty n; "-m"; pretty 1%nat]
              ++ silence ++ s_args self in
  run args ;;
  let reader := PointReader_init n (s_d self) None in
  PointReader_read reader outfile.

Definition Sampler_sample (self : Sampler) (n : nat) (clean : bool)
  : M (list (list Z)) :=
  w ← get_world;
  hex ← uuid4;
  let outfile := os.join (__UTK__WDIR__ (cfg w)) (hex +:+ ".dat") in
  points ← Sampler_sample_to self outfile n;
  (if clean then os.remove outfile else ret tt) ;;
  ret points.

Record Discrepancy := {
  d_name : string;
  d_d : nat;
  d_exename : string;
  d_args : list string
}.

Definition Discrepancy_init (name : string) (d : nat) (index : option string)
    (kwargs : list (string * kwval)) : Discrepancy :=
  {| d_name := name; d_d := d;
     d_exename := name +:+ "_fromfile_" +:+ pretty d +:+ "d" +:+ default "d" index;
     d_args := flatten_kwargs kwargs |}.

Definition Discrepancy_compute_to (self : Discrepancy) (outfile input : string) (s : Z)
  : M (list (gmap string Z)) :=
  dir ← get_discrepancy_dir;
  let args := [os.join dir (d_exename self); "-i"; input; "-o"; outfile] in
  let args := if bool_decide (-1 < s) then args ++ ["-s"; pretty s] else args in
  silence ← get_silence_args;
  let args := args ++ silence ++ d_args self in
  run args ;;
  let reader := DiscrepancyReader_init None None in
  DiscrepancyReader_read reader outfile.

Definition Discrepancy_compute_from_file (self : Discrepancy) (input : string) (s : Z)
    (clean : bool) : M (list (gmap string Z)) :=
  w ← get_world;
  hex ← uuid4;
  let outfile := os.join (__UTK__WDIR__ (cfg w)) (hex +:+ ".dat") in
  discrepancy ← Discrepancy_compute_to self outfile input s;
  (if clean then os.remove outfile else ret tt) ;;
  ret discrepancy.

(** [compute] calls [writer.write(tmpfile, points)] on a writer built
    with no file. *)
Definition Discrepancy_compute (self : Discrepancy) (points : ndarray) (s : Z)
    (clean : bool) : M (list (gmap string Z)) :=
  w ← get_world;
  hex ← uuid4;
  let tmpfile := os.join (__UTK__WDIR__ (cfg w)) (hex +:+ ".dat") in
  writer ← PointWriter_init None None None None;
  _ ← call_PointWriter_write writer [AStr tmpfile; AArr points];
  res ← Discrepancy_compute_from_file self tmpfile s clean;
  (if clean then os.remove tmpfile else ret tt) ;;
  ret res.

End pyutk.

(** ** Concrete worlds, for the examples *)

Definition tmp_world : world :=
  {| cfg := {| __UTK__DIR__ := ""; __UTK__WDIR__ := "/tmp"; __UTK__SILENCE__ := true |};
     fs := {[ "/" := NDir true ["tmp"; "data"];
              "/tmp" := NDir true [];
              "/data" := NDir true [] ]};
     uuids := 0 |}.


(** A build directory with the samplers [foo_2dd], [foo_3dd] and
    [foo_3di], and a helper program [list_dir]. *)
Definition samplers_world : world :=
  {| cfg := {| __UTK__DIR__ := ""; __UTK__WDIR__ := "/tmp"; __UTK__SILENCE__ := true |};
     fs := {[ "samplers" := NDir true ["foo_2dd"; "foo_3dd"; "foo_3di"; "list_dir"];
              "samplers/foo_2dd" := NFile true "";
              "samplers/foo_3dd" := NFile true "";
              "samplers/foo_3di" := NFile true "";
              "samplers/list_dir" := NFile true "" ]};
     uuids := 0 |}.

(** The directory of the specification's example. *)
Definition foo_world : world :=
  {| cfg := {| __UTK__DIR__ := ""; __UTK__WDIR__ := "/tmp"; __UTK__SILENCE__ := true |};
     fs := {[ "samplers" := NDir true ["foo_2dd"; "foo_3dd"];
              "samplers/foo_2dd" := NFile true "";
              "samplers/foo_3dd" := NFile true "" ]};
     uuids := 0 |}.

(** ** The layout of a binary point file *)

(** Byte [k] of a 64-bit pattern, byte 0 being the least significant, and
    the eight bytes of the pattern, most significant first. *)
Definition byte_at (x : Z) (k : nat) : ascii :=
  ascii_of_nat (Z.to_nat (Z.land (Z.shiftr x (8 * Z.of_nat k)) 255)).

Definition be_bytes (x : Z) : string :=
  string_of_list_ascii (byte_at x <$> [7; 6; 5; 4; 3; 2; 1; 0]%nat).

Fixpoint be_doubles (values : list Z) : string :=
  match values with
  | [] => EmptyString
  | v :: values' => be_bytes v +:+ be_doubles values'
  end.

(** [render sep rows]: the text of a point set, one line per point. *)
Fixpoint render (np_str : Z → string) (sep : string) (rows : list (list Z)) : string :=
  match rows with
  | [] => EmptyString
  | row :: rows' =>
      PyStr.join sep (np_str <$> row) +:+ String "010" EmptyString
      +:+ render np_str sep rows'
  end.

(** The decimal conversions of numpy on the doubles 0.0, 1.0 and 0.5, by
    their bit patterns; enough to run the examples. *)
Definition bits_1_0 : Z := 4607182418800017408.
Definition bits_0_5 : Z := 4602678819172646912.

Definition toy_str (x : Z) : string :=
  if x =? 0 then "0.0"
  else if x =? bits_1_0 then "1.0"
  else if x =? bits_0_5 then "0.5"
  else "nan".

Definition toy_double (s : string) : option Z :=
  if bool_decide (s = "0.0") then Some 0
  else if bool_decide (s = "1.0") then Some bits_1_0
  else if bool_decide (s = "0.5") then Some bits_0_5
  else None.

Definition toy_garbage (i j : nat) : Z := 0.

(** A working directory holding an empty text file and a binary file with
    the points (1.0, 0.0) and (0.5, 1.0). *)
Definition files_world : world :=
  {| cfg := {| __UTK__DIR__ := ""; __UTK__WDIR__ := "/tmp"; __UTK__SILENCE__ := true |};
     fs := {[ "/tmp" := NDir true ["pts.dat"; "pts.bin"];
              "/tmp/pts.dat" := NFile false "";
              "/tmp/pts.bin" :=
                NFile false (String "000" (String "000" (String "000" (String "002" "")))
                             +:+ be_doubles [bits_1_0; 0; bits_0_5; bits_1_0]) ]};
     uuids := 0 |}.

(** ** Auxiliary notions for the statements *)

(** The world in which the file at [p] holds [data]. *)
Definition put_data (p : string) (x : bool) (data : string) (w : world) : world :=
  with_fs (<[p := NFile x data]> (fs w)) w.

(** A file object opened for appending on [p], standing at [pos]. *)
Definition appending (p : string) (pos : nat) : pyfile :=
  {| f_path := p; f_pos := pos; f_append := true |}.

(** The character [read(1)] gives for the byte [c]. *)
Definition as_read (c : ascii) : ascii :=
  if Ascii.eqb c "013" then "010"%char else c.

(** The writer once its file object stands at the end of [data]. *)
Definition reopened (p : string) (self : PointWriter) (data : string) : PointWriter :=
  with_file (Some (appending p (String.length data))) self.

(** A writer in append mode on the empty file of [files_world]. *)
Definition pts_writer : PointWriter :=
  {| pw_sep := String "009" EmptyString; pw_pointset_sep := "#";
     pw_append := true; pw_file := Some (appending "/tmp/pts.dat" 0) |}.

(** Two successive writes through a writer opened on [/tmp/pts.dat] with
    the default arguments, and the content of the file afterwards. *)
Definition write_twice (first second : ndarray) : M string :=
  writer ← PointWriter_init (Some "/tmp/pts.dat") None None None;
  writer ← PointWriter_write toy_str writer first;
  writer ← PointWriter_write toy_str writer second;
  file_data "/tmp/pts.dat".

(** Every character of [s] passes the test [P]. *)
Fixpoint all_chars (P : ascii → bool) (s : string) : bool :=
  match s with
  | EmptyString => true
  | String c s' => P c && all_chars P s'
  end.

Definition not_cr (c : ascii) : bool := negb (Ascii.eqb c "013").
Definition not_lf (c : ascii) : bool := negb (Ascii.eqb c "010").
Definition not_tab (c : ascii) : bool := negb (Ascii.eqb c "009").
Definition not_space (c : ascii) : bool := negb (PyStr.isspace c).

(** What the round trip needs of the text numpy prints for a double: it is
    not empty and holds no white space, and the value comes back from
    it. *)
Definition token_ok (s : string) : bool :=
  nonempty s && all_chars not_space s.

Definition prints_well (np_str : Z → string) (np_double : string → option Z)
    (v : Z) : Prop :=
  np_double (np_str v) = Some v ∧ token_ok (np_str v) = true.

(** The line written for one point. *)
Definition line_of (np_str : Z → string) (row : list Z) : string :=
  PyStr.join (String "009" EmptyString) (np_str <$> row) +:+ String "010" EmptyString.

(** A writer with the default arguments writes the points to the file at
    [p] and is closed, so that what it wrote has reached the file; then a
    reader with the default separator reads the file back. *)
Definition write_then_read (np_str : Z → string) (np_double : string → option Z)
    (np_garbage : nat → nat → Z) (p : string) (n d : nat) (rows : list (list Z))
  : M (list (list Z)) :=
  writer ← PointWriter_init (Some p) None None None;
  writer ← PointWriter_write np_str writer (Arr2 rows);
  _ ← PointWriter_close writer;
  PointReader_read_text np_double np_garbage (PointReader_init n d None) p.

(** The file at [p] is empty, or is missing from a directory that
    exists. *)
Definition empty_or_new (p : string) (w : world) : Prop :=
  (∃ x, fs w !! p = Some (NFile x "")) ∨
  (fs w !! p = None ∧ ∃ y l, fs w !! os.dirname p = Some (NDir y l)).

(** The column names of a header line, and the values of a data line, as
    a [DiscrepancyReader] takes them. *)
Definition header_names (self : DiscrepancyReader) (line : string) : list string :=
  (λ name, PyStr.lower (PyStr.drop (dr_exclude self) name))
    <$> filter (λ s, nonempty s) (PyStr.split (dr_sep self) (PyStr.strip line)).

Definition line_values (self : DiscrepancyReader) (line : string) : list string :=
  filter (λ s, nonempty s) (PyStr.split (dr_sep self) (PyStr.strip line)).

(** The mapping [res] holds what a line with the tokens [values] gives
    under the names [names]: its keys are the names, and under a name
    stands the number read from the token of the same rank (of the last
    such rank, should the name occur twice). *)
Definition reads_as (np_double : string → option Z) (names values : list string)
    (res : gmap string Z) : Prop :=
  dom res = list_to_set names ∧
  ∀ j name value,
    names !! j = Some name → values !! j = Some value →
    (∀ j', (j < j')%nat → names !! j' ≠ Some name) →
    ∃ x, np_double value = Some x ∧ res !! name = Some x.

(** A line is aligned with the names: as many values, all numbers. *)
Definition aligned (np_double : string → option Z) (names values : list string) : Prop :=
  length values = length names ∧ Forall (λ v, is_Some (np_double v)) values.

(** A discrepancy file in the world. *)
Definition discrepancy_text : string :=
  "#Nbpts" +:+ String "009" (String "009" "#Mean") +:+ String "009" "#Var"
  +:+ String "010" ("1.0" +:+ String "009" (String "009" "0.5") +:+ String "009" "0.0")
  +:+ String "010" EmptyString.

Definition discrepancy_world : world :=
  put_data "/tmp/out.dat" false discrepancy_text files_world.

(** ** What discovery is expected to find *)

(** The entry at [path] is executable and is not a directory. *)
Definition executable_file (w : world) (path : string) : bool :=
  match fs w !! path with
  | Some (NFile x _) => x
  | _ => false
  end.

(** The name of a sampler file, the part before its last underscore, and
    its dimension, read from the part after it less its last two
    characters. *)
Definition sampler_name (file : string) : string :=
  PyStr.join "_" (removelast (PyStr.split "_" file)).

Definition sampler_dim (file : string) : option Z :=
  match last (PyStr.split "_" file) with
  | Some tok =>
      match int_of_str (PyStr.drop_last 2 tok) with
      | Ok z => Some z
      | Raise _ => None
      end
  | None => None
  end.

(** The entry [file] of the directory [dir] qualifies by the stated policy:
    executable, not a directory, and ["dd"] or ["di"] in its name. *)
Definition qualifies (w : world) (dir file : string) : bool :=
  executable_file w (dir +:+ "/" +:+ file)
  && (PyStr.contains "dd" file || PyStr.contains "di" file).

(** Among [files], an entry that passes the test [ok] and is named [name]
    has the dimension [z]. *)
Definition has_dim_by (ok : string → bool) (files : list string)
    (name : string) (z : Z) : Prop :=
  ∃ file, file ∈ files ∧ ok file = true ∧
          sampler_name file = name ∧ sampler_dim file = Some z.

Definition has_dim (w : world) (dir : string) : list string → string → Z → Prop :=
  has_dim_by (qualifies w dir).

(** The state of [samplers] once the entries [done] have been scanned. *)
Definition scanned (ok : string → bool) (done : list string)
    (samplers : gmap string dims) : Prop :=
  ∀ name,
    match samplers !! name with
    | Some v =>
        ∃ s, v = DSet s ∧ (∀ z, z ∈ s ↔ has_dim_by ok done name z) ∧
             (∃ z, has_dim_by ok done name z)
    | None => ∀ z, ¬ has_dim_by ok done name z
    end.

(** A file name as a directory lists it: no slash in it. *)
Definition plain_name (file : string) : bool :=
  negb (PyStr.contains "/" file).

(** The test of the loop as the code makes it, on the joined path. *)
Definition passes_test (w : world) (filepath : string) : bool :=
  executable_file w filepath
  && (PyStr.contains "dd" filepath || PyStr.contains "di" filepath).

(** What one turn of the loop does to [samplers] when [split_i_d] is
    false. *)
Definition add_dim (name : string) (z : Z) (samplers : gmap string dims)
  : gmap string dims :=
  match samplers !! name with
  | None => <[name := DSet ({[z]} ∪ ∅)]> samplers
  | Some (DSet s) => <[name := DSet ({[z]} ∪ s)]> samplers
  | Some (DList _) => samplers
  end.

Definition scan_step (w : world) (dir : string) (samplers : gmap string dims)
    (file : string) : gmap string dims :=
  if passes_test w (os.join dir file) then
    match sampler_dim file with
    | Some z => add_dim (sampler_name file) z samplers
    | None => samplers
    end
  else samplers.

(** A build directory under [/opt/dist], holding one executable whose
    name has neither ["dd"] nor ["di"]. *)
Definition dist_world : world :=
  {| cfg := {| __UTK__DIR__ := "/opt/dist"; __UTK__WDIR__ := "/tmp";
               __UTK__SILENCE__ := true |};
     fs := {[ "/opt/dist/samplers" := NDir true ["tool_3xx"];
              "/opt/dist/samplers/tool_3xx" := NFile true "" ]};
     uuids := 0 |}.

(** The value every name has while the directory is scanned with
    [split_i_d] true, and the one it has once the loop that sorts is
    over. *)
Definition unfilled : gmap string dims := {[ "d" := DSet ∅; "i" := DSet ∅ ]}.
Definition half_sorted : gmap string dims := {[ "d" := DList []; "i" := DSet ∅ ]}.

Definition all_are (e : gmap string dims) (samplers : gmap string (gmap string dims)) : Prop :=
  ∀ name e', samplers !! name = Some e' → e' = e.

(** ** Auxiliary notions for the further properties *)

(** What [points[i] = coords] stores in a row of [d] columns. *)
Definition stored (d : nat) (coords : list Z) : result (list Z) :=
  if bool_decide (length coords = d) then Ok coords
  else match coords with
       | [x] => Ok (replicate d x)
       | _ => Raise ValueError
       end.

(** The rows of [points] once the lines of [rows] have been stored in
    them, one after the other from the first. *)
Fixpoint fill (d : nat) (rows points : list (list Z)) : result (list (list Z)) :=
  match rows with
  | [] => Ok points
  | row :: rows' =>
      match points with
      | [] => Raise IndexError
      | _ :: points' =>
          match stored d row with
          | Ok r =>
              match fill d rows' points' with
              | Ok l => Ok (r :: l)
              | Raise e => Raise e
              end
          | Raise e => Raise e
          end
      end
  end.

(** Two point sets written one after the other through a writer with the
    default arguments; the writer is closed, then the file is read back
    as one point set. *)
Definition write_two_then_read (np_str : Z → string) (np_double : string → option Z)
    (np_garbage : nat → nat → Z) (p : string) (n d : nat)
    (first second : list (list Z)) : M (list (list Z)) :=
  writer ← PointWriter_init (Some p) None None None;
  writer ← PointWriter_write np_str writer (Arr2 first);
  writer ← PointWriter_write np_str writer (Arr2 second);
  _ ← PointWriter_close writer;
  PointReader_read_text np_double np_garbage (PointReader_init n d None) p.

(** A file object opened with ["w+"] on [p], standing at [pos]. *)
Definition overwriting (p : string) (pos : nat) : pyfile :=
  {| f_path := p; f_pos := pos; f_append := false |}.

(** The text of a sequence of point sets, each followed by its sentinel
    line. *)
Fixpoint render_sets (np_str : Z → string) (sep pointset_sep : string)
    (sets : list (list (list Z))) : string :=
  match sets with
  | [] => EmptyString
  | rows :: sets' =>
      render np_str sep rows +:+ pointset_sep +:+ String "010" EmptyString
      +:+ render_sets np_str sep pointset_sep sets'
  end.

(** A writer opened on [p] with [append=False], two point sets written
    through it, and the content of the file afterwards. *)
Definition overwrite_twice (np_str : Z → string) (p : string)
    (first second : list (list Z)) : M string :=
  writer ← PointWriter_init (Some p) None None (Some false);
  writer ← PointWriter_write np_str writer (Arr2 first);
  writer ← PointWriter_write np_str writer (Arr2 second);
  file_data p.

(** The same writer, one point set, the writer closed and the file read
    back. *)
Definition overwrite_then_read (np_str : Z → string) (np_double : string → option Z)
    (np_garbage : nat → nat → Z) (p : string) (n d : nat) (rows : list (list Z))
  : M (list (list Z)) :=
  writer ← PointWriter_init (Some p) None None (Some false);
  writer ← PointWriter_write np_str writer (Arr2 rows);
  _ ← PointWriter_close writer;
  PointReader_read_text np_double np_garbage (PointReader_init n d None) p.

(** The character [a] is not [c]. *)
Definition not_char (c : ascii) (a : ascii) : bool := negb (Ascii.eqb a c).

(** A character that is neither a slash nor a dot, and a file stem made of
    such characters, as the hexadecimal form of a uuid is. *)
Definition stem_char (c : ascii) : bool :=
  negb (Ascii.eqb c "/") && negb (Ascii.eqb c ".").

Definition temp_stem (s : string) : bool := nonempty s && all_chars stem_char s.

(** The temporary file drawn in the world [w]. *)
Definition temp_file (uuid4_hex : nat → string) (w : world) : string :=
  os.join (__UTK__WDIR__ (cfg w)) (uuid4_hex (uuids w) +:+ ".dat").

(** The world once a uuid has been drawn and the child process has left
    the files [f]. *)
Definition after_child (f : gmap string node) (w : world) : world :=
  {| cfg := cfg w; fs := f; uuids := S (uuids w) |}.

(** The argument vectors of the two kinds of child process. *)
Definition sampler_args (self : Sampler) (outfile : string) (n : nat) (w : world)
  : list string :=
  [os.join (os.join (__UTK__DIR__ (cfg w)) "samplers") (s_exename self);
   "-o"; outfile; "-n"; pretty n; "-m"; "1"]
  ++ (if __UTK__SILENCE__ (cfg w) then ["--silent"] else [])
  ++ s_args self.

Definition discrepancy_args (self : Discrepancy) (outfile input : string) (s : Z)
    (w : world) : list string :=
  [os.join (os.join (__UTK__DIR__ (cfg w)) "discrepancy") (d_exename self);
   "-i"; input; "-o"; outfile]
  ++ (if bool_decide (-1 < s) then ["-s"; pretty s] else [])
  ++ (if __UTK__SILENCE__ (cfg w) then ["--silent"] else [])
  ++ d_args self.

(** The names discovery finds among [files]: those of the entries that
    pass the test and whose dimension reads as an integer. *)
Definition found_names (w : world) (dir : string) (files : list string) : gset string :=
  list_to_set
    (sampler_name <$>
       filter (λ file, passes_test w (os.join dir file) = true
                       ∧ is_Some (sampler_dim file)) files).

(** The world in which the directory [dir] lists [files]. *)
Definition relisted (dir : string) (x : bool) (files : list string) (w : world) : world :=
  with_fs (<[dir := NDir x files]> (fs w)) w.

(** A decimal digit. *)
Definition is_digit (c : ascii) : bool :=
  match digit_of c with
  | Some _ => true
  | None => false
  end.

(** ** Concrete data for the further properties *)

(** Point sets of the doubles 1.0, 0.0 and 0.5, and the world in which
    [/tmp/pts.dat] holds the text of a point set. *)
Definition one_row : list (list Z) := [[bits_1_0; 0]].
Definition two_rows : list (list Z) := [[bits_1_0; 0]; [bits_0_5; bits_1_0]].

Definition holding (rows : list (list Z)) : world :=
  put_data "/tmp/pts.dat" false (render toy_str (String "009" "") rows) files_world.

(** Discrepancy files: a data line shorter than the header, and one with
    a token that is no number. *)
Definition short_header : string :=
  "#Nbpts" +:+ String "009" "#Mean" +:+ String "010" "".
Definition short_line : string := "1.0" +:+ String "010" "".
Definition bad_line : string := "1.0" +:+ String "009" "abc" +:+ String "010" "".

(** Stand-ins for [uuid4().hex] and for the child processes: a sampler
    that writes one point to the file named after ["-o"], a discrepancy
    program that writes one result there, a program that writes nothing,
    and a program that is not found. *)
Definition toy_hex (k : nat) : string := "f" +:+ pretty k.

Definition toy_sampler (args : list string) : ST (gmap string node) unit :=
  λ f, match args !! 2%nat with
       | Some out =>
           (Ok tt, <[out := NFile false (render toy_str (String "009" "") one_row)]> f)
       | None => (Raise IndexError, f)
       end.

Definition toy_discrepancy (args : list string) : ST (gmap string node) unit :=
  λ f, match args !! 4%nat with
       | Some out => (Ok tt, <[out := NFile false discrepancy_text]> f)
       | None => (Raise IndexError, f)
       end.

Definition toy_idle (args : list string) : ST (gmap string node) unit :=
  λ f, (Ok tt, f).

Definition toy_absent (args : list string) : ST (gmap string node) unit :=
  λ f, (Raise FileNotFoundError, f).

(** The files of [files_world], with the regular file [/tmp/pts.dat]
    given both as the directory of the build and as the working
    directory. *)
Definition misdirected_world : world :=
  with_cfg {| __UTK__DIR__ := "/tmp/pts.dat"; __UTK__WDIR__ := "/tmp/pts.dat";
              __UTK__SILENCE__ := true |} files_world.

(** A samplers directory with one executable, whose dimension is written
    after the separator character 28. *)
Definition separator_world : world :=
  {| cfg := {| __UTK__DIR__ := ""; __UTK__WDIR__ := "/tmp"; __UTK__SILENCE__ := true |};
     fs := {[ "samplers" := NDir true ["foo_" +:+ String "028" "4dd"];
              "samplers/foo_" +:+ String "028" "4dd" := NFile true "" ]};
     uuids := 0 |}.

(** The directory of [foo_world], listed the other way round. *)
Definition oof_world : world :=
  relisted "samplers" true ["foo_3dd"; "foo_2dd"] foo_world.
(** * Properties *)

(** ** The Python primitives on examples *)

Example split_underscore : PyStr.split "_" "foo_bar_2dd" = ["foo"; "bar"; "2dd"].
Proof. reflexivity. Qed.

Example split_wide_sep : PyStr.split "ab" "xabyabab" = ["x"; "y"; ""; ""].
Proof. reflexivity. Qed.

Example strip_line : PyStr.strip "  a b
" = "a b".
Proof. reflexivity. Qed.

Example rfind_ex : PyStr.rfind "." "a.b.c" = 3.
Proof. reflexivity. Qed.

Example drop_last_ex : PyStr.drop_last 2 "12dd" = "12" ∧ PyStr.drop_last 2 "d" = "".
Proof. split; reflexivity. Qed.

Example join_ex :
  os.join "" "samplers" = "samplers" ∧
  os.join "/opt/utk" "samplers" = "/opt/utk/samplers" ∧
  os.join "/opt/utk/" "samplers" = "/opt/utk/samplers" ∧
  os.join "/opt/utk" "/abs" = "/abs".
Proof. repeat split; reflexivity. Qed.

Example splitext_ex :
  os.splitext "/tmp/a.b/pts.dat" = ("/tmp/a.b/pts", ".dat") ∧
  os.splitext "/tmp/a.dat/pts" = ("/tmp/a.dat/pts", "") ∧
  os.splitext "/tmp/.dat" = ("/tmp/.dat", "") ∧
  os.splitext "..dat" = ("..dat", "") ∧
  os.splitext "x..dat" = ("x.", ".dat").
Proof. repeat split; reflexivity. Qed.

Example dirname_ex :
  os.dirname "/tmp/work" = "/tmp" ∧ os.dirname "/work" = "/" ∧
  os.dirname "work" = "" ∧ os.basename "/tmp/work" = "work".
Proof. repeat split; reflexivity. Qed.

Example int_of_str_ex :
  int_of_str "12" = Ok 12 ∧ int_of_str " -3 " = Ok (-3) ∧
  int_of_str "" = Raise ValueError ∧ int_of_str "2d" = Raise ValueError ∧
  int_of_str "1_0" = Ok 10 ∧ int_of_str "1__0" = Raise ValueError.
Proof. repeat split; reflexivity. Qed.

(** [int] does not skip the separators 28 to 31, which [strip] takes
    off. *)
Example int_of_str_separator :
  PyStr.strip (String "028" "4") = "4" ∧
  int_of_str (String "028" "4") = Raise ValueError ∧
  int_of_str (String "009" "4" +:+ String "012" "") = Ok 4.
Proof. repeat split; reflexivity. Qed.

(** ** Running the monad *)

Lemma run_bind {S A B} (m : ST S A) (k : A → ST S B) (s : S) :
  (m ≫= k) s = match m s with
               | (Ok a, s') => k a s'
               | (Raise e, s') => (Raise e, s')
               end.
Proof. reflexivity. Qed.

Lemma run_bind_ok {S A B} (m : ST S A) (k : A → ST S B) (s s' : S) (a : A) :
  m s = (Ok a, s') → (m ≫= k) s = k a s'.
Proof. intros H. rewrite run_bind, H. reflexivity. Qed.

Lemma run_bind_raise {S A B} (m : ST S A) (k : A → ST S B) (s s' : S) (e : exn) :
  m s = (Raise e, s') → (m ≫= k) s = (Raise e, s').
Proof. intros H. rewrite run_bind, H. reflexivity. Qed.

Lemma with_fs_same (w : world) : with_fs (fs w) w = w.
Proof. destruct w; reflexivity. Qed.

Lemma with_cfg_same (w : world) : with_cfg (cfg w) w = w.
Proof. destruct w; reflexivity. Qed.

(** ** Configuration *)

Lemma exists_run (p : string) (w : world) :
  os.exists_ p w = (Ok (bool_decide (is_Some (fs w !! p))), w).
Proof. reflexivity. Qed.

Lemma link_keeps_cfg (p : string) (n : node) (w : world) :
  cfg (snd (os.link p n w)) = cfg w.
Proof.
  unfold os.link. rewrite run_bind. cbn.
  destruct (fs w !! os.dirname p) as [[x l|x data]|]; reflexivity.
Qed.

Lemma mkdir_keeps_cfg (p : string) (w : world) :
  cfg (snd (os.mkdir p w)) = cfg w.
Proof.
  unfold os.mkdir. rewrite run_bind. cbn.
  destruct (fs w !! p); [reflexivity|]. apply link_keeps_cfg.
Qed.

(** Something that exists is left alone by [set_wdir], and so is the
    world. *)
Lemma set_wdir_existing (dir : string) (w : world) :
  is_Some (fs w !! dir) → set_wdir dir w = (Ok tt, w).
Proof.
  intros H. unfold set_wdir. rewrite run_bind, exists_run.
  rewrite bool_decide_true by exact H. reflexivity.
Qed.

(** C8: whatever the path, [set_wdir] leaves the three globals as they
    were; in particular [__UTK__WDIR__], which [Sampler.sample] and
    [Discrepancy.compute] read to place their temporary files, does not
    become the path given. *)
Theorem set_wdir_keeps_config (dir : string) (w : world) :
  cfg (snd (set_wdir dir w)) = cfg w.
Proof.
  unfold set_wdir. rewrite run_bind, exists_run.
  destruct (bool_decide (is_Some (fs w !! dir))); cbn [negb].
  - reflexivity.
  - rewrite run_bind. pose proof (mkdir_keeps_cfg dir w) as H.
    destruct (os.mkdir dir w) as [[[]|e] w']; exact H.
Qed.

(** C8 at a concrete world: after [set_wdir "/data"], with [/data] an
    existing directory, the working directory is still [/tmp]. *)
Example set_wdir_data :
  fs tmp_world !! "/data" = Some (NDir true []) ∧
  set_wdir "/data" tmp_world = (Ok tt, tmp_world) ∧
  __UTK__WDIR__ (cfg (snd (set_wdir "/data" tmp_world))) = "/tmp".
Proof. repeat split; vm_compute; reflexivity. Qed.

Lemma set_dir_missing (dir : string) (w : world) :
  fs w !! dir = None → set_dir dir w = (Raise FileNotFoundError, w).
Proof.
  intros H. unfold set_dir. rewrite run_bind, exists_run.
  rewrite bool_decide_false by (rewrite H; apply is_Some_None). reflexivity.
Qed.

Lemma set_dir_existing (dir : string) (w : world) :
  is_Some (fs w !! dir) →
  set_dir dir w =
    (Ok tt, with_cfg {| __UTK__DIR__ := dir;
                        __UTK__WDIR__ := __UTK__WDIR__ (cfg w);
                        __UTK__SILENCE__ := __UTK__SILENCE__ (cfg w) |} w).
Proof.
  intros H. unfold set_dir. rewrite run_bind, exists_run.
  rewrite bool_decide_true by exact H. reflexivity.
Qed.

Lemma dirname_ne (p : string) (f : gmap string node) (n : node) :
  f !! p = None → f !! os.dirname p = Some n → os.dirname p ≠ p.
Proof. intros H1 H2 E. rewrite E in H2. congruence. Qed.

Lemma set_wdir_missing (dir : string) (w : world) (x : bool) (l : list string) :
  fs w !! dir = None →
  fs w !! os.dirname dir = Some (NDir x l) →
  set_wdir dir w =
    (Ok tt, with_fs (<[dir := NDir true []]>
                     (<[os.dirname dir := NDir x (l ++ [os.basename dir])]> (fs w))) w).
Proof.
  intros Hdir Hpar. unfold set_wdir. rewrite run_bind, exists_run.
  rewrite bool_decide_false by (rewrite Hdir; apply is_Some_None). cbn [negb].
  rewrite run_bind. unfold os.mkdir. rewrite run_bind. cbn.
  rewrite Hdir. unfold os.link. rewrite run_bind. cbn. rewrite Hpar. reflexivity.
Qed.

(** C9, as the code has it: for a path that does not exist, [set_dir]
    raises [FileNotFoundError] and leaves the world, hence the
    configuration, as it was; [set_wdir] does not raise when the parent
    of the path is a directory: it creates the directory and returns. *)
Theorem missing_directory (dir : string) (w : world) :
  fs w !! dir = None →
  set_dir dir w = (Raise FileNotFoundError, w) ∧
  ∀ x l, fs w !! os.dirname dir = Some (NDir x l) →
    ∃ w', set_wdir dir w = (Ok tt, w') ∧ fs w' !! dir = Some (NDir true []).
Proof.
  intros Hdir. split; [by apply set_dir_missing|].
  intros x l Hpar. eexists. split; [by eapply set_wdir_missing|].
  cbn. apply lookup_insert_eq.
Qed.

Lemma missing_directory_witness :
  fs tmp_world !! "/tmp/work" = None ∧
  set_dir "/tmp/work" tmp_world = (Raise FileNotFoundError, tmp_world) ∧
  ∃ w', set_wdir "/tmp/work" tmp_world = (Ok tt, w') ∧
        fs w' !! "/tmp/work" = Some (NDir true []).
Proof.
  assert (H : fs tmp_world !! "/tmp/work" = None) by (vm_compute; reflexivity).
  destruct (missing_directory "/tmp/work" tmp_world H) as [H1 H2].
  split; [exact H|]. split; [exact H1|].
  apply (H2 true []). vm_compute; reflexivity.
Defined.

(** C9 as stated fails for [set_wdir]: on the missing path [/tmp/work] it
    raises nothing, and the file system is not left as it was. *)
Lemma set_wdir_missing_no_error :
  fs tmp_world !! "/tmp/work" = None ∧
  fst (set_wdir "/tmp/work" tmp_world) = Ok tt ∧
  fst (set_wdir "/tmp/work" tmp_world) ≠ Raise FileNotFoundError ∧
  fs (snd (set_wdir "/tmp/work" tmp_world)) !! "/tmp/work" = Some (NDir true []).
Proof. repeat split; try (vm_compute; reflexivity). vm_compute. discriminate. Qed.

(** ** The facades *)

Section facades.
Variable np_str : Z → string.
Variable np_double : string → option Z.
Variable np_garbage : nat → nat → Z.
Variable uuid4_hex : nat → string.
Variable subprocess_run : list string → ST (gmap string node) unit.

(** C10: [read] is [read_text] when [os.path.splitext] gives the
    extension [".dat"], and [read_bin] for every other extension, the
    empty one included. *)
Theorem PointReader_read_dispatch (self : PointReader) (filepath : string) :
  (snd (os.splitext filepath) = ".dat" →
     PointReader_read np_double np_garbage self filepath
     = PointReader_read_text np_double np_garbage self filepath) ∧
  (snd (os.splitext filepath) ≠ ".dat" →
     PointReader_read np_double np_garbage self filepath
     = PointReader_read_bin self filepath).
Proof.
  unfold PointReader_read. split; intros H.
  - rewrite bool_decide_true by exact H. reflexivity.
  - rewrite bool_decide_false by exact H. reflexivity.
Qed.

(** C7: [compute] draws the name of its temporary file and then fails:
    the call [writer.write(tmpfile, points)] passes two arguments to a
    method that takes one, so nothing is written, no process is run
    and no result is returned. *)
Theorem Discrepancy_compute_raises (self : Discrepancy) (points : ndarray)
    (s : Z) (clean : bool) (w : world) :
  Discrepancy_compute np_str np_double uuid4_hex subprocess_run self points s clean w
  = (Raise TypeError, {| cfg := cfg w; fs := fs w; uuids := S (uuids w) |}).
Proof. reflexivity. Qed.

End facades.

(** ** Discovery, with [split_i_d] true *)

(** C6 on the directory holding [foo_2dd], [foo_3dd], [foo_3di] and
    [list_dir]: nothing is collected, neither under ["d"] nor under ["i"],
    and the value under ["i"] is still a set. *)
Theorem get_samplers_split_collects_nothing :
  get_samplers true samplers_world
  = (Ok {[ "foo" := {[ "d" := DList []; "i" := DSet ∅ ]} ]}, samplers_world).
Proof. vm_compute. reflexivity. Qed.

(** ** Strings *)

Section strings.
Implicit Types s t u : string.

Lemma app_cons c s t : String c s +:+ t = String c (s +:+ t).
Proof. reflexivity. Qed.

Lemma app_empty_l s : "" +:+ s = s.
Proof. reflexivity. Qed.

Lemma app_empty_r s : s +:+ "" = s.
Proof. induction s as [|c s IH]; [reflexivity|]. by rewrite app_cons, IH. Qed.

Lemma app_assoc_str s t u : (s +:+ t) +:+ u = s +:+ (t +:+ u).
Proof. induction s as [|c s IH]; [reflexivity|]. by rewrite !app_cons, IH. Qed.

Lemma length_app_str s t :
  String.length (s +:+ t) = (String.length s + String.length t)%nat.
Proof. induction s as [|c s IH]; [reflexivity|]. rewrite app_cons. cbn. by rewrite IH. Qed.

Lemma drop_app_length s t : PyStr.drop (String.length s) (s +:+ t) = t.
Proof. induction s as [|c s IH]; [by destruct t|]. exact IH. Qed.

Lemma take_app_length s t : PyStr.take (String.length s) (s +:+ t) = s.
Proof.
  induction s as [|c s IH]; [by destruct t|]. rewrite app_cons. cbn. by rewrite IH.
Qed.

Lemma drop_0 s : PyStr.drop 0 s = s.
Proof. by destruct s. Qed.

Lemma take_length s : PyStr.take (String.length s) s = s.
Proof. induction s as [|c s IH]; [reflexivity|]. cbn. by rewrite IH. Qed.

Lemma drop_length s : PyStr.drop (String.length s) s = "".
Proof. induction s as [|c s IH]; [reflexivity|]. exact IH. Qed.
End strings.

(** ** Binary point files *)

Lemma lor_shiftl_byte (acc b : Z) :
  0 ≤ b < 256 → Z.lor (Z.shiftl acc 8) b = acc * 256 + b.
Proof.
  intros Hb. rewrite Z.shiftl_mul_pow2 by lia.
  assert (Hland : Z.land (acc * 2 ^ 8) b = 0).
  { rewrite <- (Z.mod_small b (2 ^ 8)) by (change (2 ^ 8) with 256; lia).
    apply Z.bits_inj'. intros n Hn. rewrite Z.land_spec, Z.bits_0.
    destruct (decide (n < 8)).
    - by rewrite Z.mul_pow2_bits_low.
    - rewrite Z.mod_pow2_bits_high by lia. apply andb_false_r. }
  pose proof (Z.add_lor_land (acc * 2 ^ 8) b) as H.
  rewrite Hland in H. change (2 ^ 8) with 256 in *. lia.
Qed.

Lemma byte_at_value (x : Z) (k : nat) :
  Z.of_nat (nat_of_ascii (byte_at x k)) = (x / 256 ^ Z.of_nat k) mod 256.
Proof.
  unfold byte_at. change 255 with (Z.ones 8). rewrite Z.land_ones by lia.
  rewrite Z.shiftr_div_pow2 by lia.
  rewrite Z.pow_mul_r by lia. change (2 ^ 8) with 256.
  pose proof (Z.mod_pos_bound (x / 256 ^ Z.of_nat k) 256 eq_refl).
  rewrite nat_ascii_embedding by lia. lia.
Qed.

Lemma be_word_be_bytes (x : Z) : 0 ≤ x < 2 ^ 64 → be_word (be_bytes x) = x.
Proof.
  intros Hx. unfold be_word, be_bytes.
  rewrite list_ascii_of_string_of_list_ascii. cbn [fmap list_fmap fold_left].
  rewrite !byte_at_value.
  change (Z.of_nat 0) with 0. change (Z.of_nat 1) with 1.
  change (Z.of_nat 2) with 2. change (Z.of_nat 3) with 3.
  change (Z.of_nat 4) with 4. change (Z.of_nat 5) with 5.
  change (Z.of_nat 6) with 6. change (Z.of_nat 7) with 7.
  repeat (rewrite lor_shiftl_byte by (apply Z.mod_pos_bound; lia)).
  change (256 ^ 0) with 1. rewrite Z.div_1_r.
  change (256 ^ 1) with 256.
  change (256 ^ 2) with (256 * 256).
  change (256 ^ 3) with (256 * 256 * 256).
  change (256 ^ 4) with (256 * 256 * 256 * 256).
  change (256 ^ 5) with (256 * 256 * 256 * 256 * 256).
  change (256 ^ 6) with (256 * 256 * 256 * 256 * 256 * 256).
  change (256 ^ 7) with (256 * 256 * 256 * 256 * 256 * 256 * 256).
  change (2 ^ 64) with (256 * 256 * 256 * 256 * 256 * 256 * 256 * 256) in Hx.
  rewrite <- !Z.div_div by lia.
  Z.div_mod_to_equations. lia.
Qed.

Lemma length_be_bytes (x : Z) : String.length (be_bytes x) = 8%nat.
Proof. reflexivity. Qed.

Lemma length_be_doubles (values : list Z) :
  String.length (be_doubles values) = (8 * length values)%nat.
Proof.
  induction values as [|v values IH]; [reflexivity|].
  cbn [be_doubles length]. rewrite length_app_str, length_be_bytes, IH. lia.
Qed.

Lemma be_words_be_doubles (values : list Z) :
  Forall (λ v, 0 ≤ v < 2 ^ 64) values →
  be_words (length values) (be_doubles values) = values.
Proof.
  induction 1 as [|v values Hv _ IH]; [reflexivity|].
  cbn [be_doubles length be_words].
  change (PyStr.take 8) with (PyStr.take (String.length (be_bytes v))).
  change (PyStr.drop 8) with (PyStr.drop (String.length (be_bytes v))).
  rewrite take_app_length, drop_app_length, be_word_be_bytes, IH by exact Hv.
  reflexivity.
Qed.

Lemma file_data_file (p data : string) (x : bool) (w : world) :
  fs w !! p = Some (NFile x data) → file_data p w = (Ok data, w).
Proof. intros H. unfold file_data. rewrite run_bind. cbn. by rewrite H. Qed.

Lemma fromfile_be_doubles (p header : string) (values : list Z) (x : bool) (w : world) :
  String.length header = 4%nat →
  Forall (λ v, 0 ≤ v < 2 ^ 64) values →
  fs w !! p = Some (NFile x (header +:+ be_doubles values)) →
  fromfile_be_double p 4 w = (Ok values, w).
Proof.
  intros Hh Hv Hp. unfold fromfile_be_double, open_read.
  erewrite run_bind_ok by (by eapply file_data_file). unfold mret, ST_ret, ret.
  rewrite length_app_str, length_be_doubles, Hh.
  replace (Z.of_nat (4 + 8 * length values) - Z.of_nat 4)
    with (Z.of_nat (length values) * 8) by lia.
  rewrite Z.quot_mul by lia. rewrite Nat2Z.id.
  rewrite <- Hh, drop_app_length. by rewrite be_words_be_doubles.
Qed.

Lemma reshape_lookup (n d : nat) (l : list Z) (i j : nat) :
  (i < n)%nat → (j < d)%nat →
  ((λ i, take d (drop (i * d) l)) <$> seq 0 n) !! i ≫= (λ r, r !! j)
  = l !! (i * d + j)%nat.
Proof.
  intros Hi Hj. rewrite list_lookup_fmap, lookup_seq_lt by exact Hi.
  cbn. rewrite lookup_take_lt by exact Hj. by rewrite lookup_drop.
Qed.

Lemma reshape_row_length (n d : nat) (l : list Z) (i : nat) (r : list Z) :
  length l = (n * d)%nat →
  ((λ i, take d (drop (i * d) l)) <$> seq 0 n) !! i = Some r → length r = d.
Proof.
  intros Hl Hr. rewrite list_lookup_fmap in Hr.
  destruct (seq 0 n !! i) as [k|] eqn:Hk; [|discriminate].
  apply lookup_seq in Hk as [-> Hi]. cbn in Hr. injection Hr as <-.
  rewrite length_take, length_drop. nia.
Qed.

Section read_bin.
Variable self : PointReader.

(** C5: on a file made of a 4-byte header followed by [n * d] doubles,
    most significant byte first, [read_bin] returns [n] rows of [d]
    values, the value in row [i] and column [j] being the double number
    [i * d + j] of the file; the header is not looked at. *)
Theorem read_bin_layout (p header : string) (values : list Z) (x : bool) (w : world) :
  String.length header = 4%nat →
  Forall (λ v, 0 ≤ v < 2 ^ 64) values →
  length values = (pr_n self * pr_d self)%nat →
  fs w !! p = Some (NFile x (header +:+ be_doubles values)) →
  ∃ rows,
    PointReader_read_bin self p w = (Ok rows, w) ∧
    length rows = pr_n self ∧
    (∀ i r, rows !! i = Some r → length r = pr_d self) ∧
    (∀ i j, (i < pr_n self)%nat → (j < pr_d self)%nat →
       rows !! i ≫= (λ r, r !! j) = values !! (i * pr_d self + j)%nat).
Proof.
  intros Hh Hv Hl Hp. eexists. split; [|split; [|split]].
  - unfold PointReader_read_bin.
    erewrite run_bind_ok by (eapply fromfile_be_doubles; eassumption).
    unfold reshape. rewrite bool_decide_true by exact Hl. reflexivity.
  - by rewrite length_fmap, length_seq.
  - intros i r. by apply reshape_row_length.
  - intros i j. apply reshape_lookup.
Qed.
End read_bin.

Lemma read_bin_layout_witness :
  ∃ rows,
    PointReader_read_bin (PointReader_init 2 2 None) "/tmp/pts.bin" files_world
    = (Ok rows, files_world) ∧
    length rows = 2%nat ∧
    (∀ i r, rows !! i = Some r → length r = 2%nat) ∧
    (∀ i j, (i < 2)%nat → (j < 2)%nat →
       rows !! i ≫= (λ r, r !! j) = [bits_1_0; 0; bits_0_5; bits_1_0] !! (i * 2 + j)%nat).
Proof.
  apply (read_bin_layout (PointReader_init 2 2 None) "/tmp/pts.bin"
           (String "000" (String "000" (String "000" (String "002" ""))))
           [bits_1_0; 0; bits_0_5; bits_1_0] false files_world).
  - reflexivity.
  - repeat constructor; vm_compute; congruence.
  - reflexivity.
  - vm_compute. reflexivity.
Defined.

Example read_bin_ex :
  PointReader_read_bin (PointReader_init 2 2 None) "/tmp/pts.bin" files_world
  = (Ok [[bits_1_0; 0]; [bits_0_5; bits_1_0]], files_world).
Proof. vm_compute. reflexivity. Qed.

Lemma PointReader_read_dispatch_witness :
  PointReader_read toy_double toy_garbage (PointReader_init 2 2 None) "/tmp/pts.dat"
  = PointReader_read_text toy_double toy_garbage (PointReader_init 2 2 None) "/tmp/pts.dat" ∧
  PointReader_read toy_double toy_garbage (PointReader_init 2 2 None) "/tmp/pts.bin"
  = PointReader_read_bin (PointReader_init 2 2 None) "/tmp/pts.bin" ∧
  PointReader_read toy_double toy_garbage (PointReader_init 2 2 None) "/tmp/pts"
  = PointReader_read_bin (PointReader_init 2 2 None) "/tmp/pts".
Proof.
  split; [|split].
  - apply (PointReader_read_dispatch toy_double toy_garbage
             (PointReader_init 2 2 None) "/tmp/pts.dat"). reflexivity.
  - apply (PointReader_read_dispatch toy_double toy_garbage
             (PointReader_init 2 2 None) "/tmp/pts.bin"). vm_compute. congruence.
  - apply (PointReader_read_dispatch toy_double toy_garbage
             (PointReader_init 2 2 None) "/tmp/pts"). vm_compute. congruence.
Defined.

(** ** Writing point sets *)

Lemma put_data_lookup (p : string) (x : bool) (data : string) (w : world) :
  fs (put_data p x data w) !! p = Some (NFile x data).
Proof. apply lookup_insert_eq. Qed.

Lemma put_data_twice (p : string) (x y : bool) (d1 d2 : string) (w : world) :
  put_data p x d2 (put_data p y d1 w) = put_data p x d2 w.
Proof. unfold put_data, with_fs. cbn. by rewrite insert_insert_eq. Qed.

Lemma put_data_same (p : string) (x : bool) (data : string) (w : world) :
  fs w !! p = Some (NFile x data) → put_data p x data w = w.
Proof. intros H. unfold put_data. rewrite insert_id by exact H. apply with_fs_same. Qed.

Lemma set_file_data_file (p data data' : string) (x : bool) (w : world) :
  fs w !! p = Some (NFile x data) →
  set_file_data p data' w = (Ok tt, put_data p x data' w).
Proof. intros H. unfold set_file_data. rewrite run_bind. cbn. by rewrite H. Qed.

Lemma file_write_append (p s data : string) (pos : nat) (x : bool) (w : world) :
  fs w !! p = Some (NFile x data) →
  file_write (appending p pos) s w
  = (Ok (appending p (String.length (data +:+ s))), put_data p x (data +:+ s) w).
Proof.
  intros H. unfold file_write.
  erewrite run_bind_ok by (by eapply file_data_file).
  cbn [f_append f_path appending].
  erewrite run_bind_ok by (by eapply set_file_data_file).
  reflexivity.
Qed.

Lemma write_to_append (p s data : string) (pos : nat) (x : bool) (w : world) :
  fs w !! p = Some (NFile x data) →
  write_to (Some (appending p pos)) s w
  = (Ok (Some (appending p (String.length (data +:+ s)))), put_data p x (data +:+ s) w).
Proof.
  intros H. unfold write_to, not_none.
  erewrite run_bind_ok by reflexivity.
  erewrite run_bind_ok by (by eapply file_write_append).
  reflexivity.
Qed.

Section writer.
Variable np_str : Z → string.
Variable self : PointWriter.

Lemma write_points_append (rows : list (list Z)) (p data : string) (x : bool) (w : world) :
  fs w !! p = Some (NFile x data) →
  write_points np_str self (Some (appending p (String.length data))) rows w
  = (Ok (Some (appending p (String.length (data +:+ render np_str (pw_sep self) rows)))),
     put_data p x (data +:+ render np_str (pw_sep self) rows) w).
Proof.
  revert data w. induction rows as [|row rows IH]; intros data w H.
  - cbn [write_points render]. rewrite app_empty_r, put_data_same by exact H. reflexivity.
  - cbn [write_points render].
    erewrite run_bind_ok by (by eapply write_to_append).
    erewrite run_bind_ok by (eapply write_to_append, put_data_lookup).
    rewrite put_data_twice, IH by apply put_data_lookup.
    by rewrite put_data_twice, !app_assoc_str.
Qed.

(** In append mode nothing is written ahead of the points when the file
    is empty. *)
Lemma process_header_empty (p : string) (x : bool) (w : world) :
  pw_append self = true →
  pw_file self = Some (appending p 0) →
  process_header self w = (Ok self, w).
Proof.
  intros Ha Hf. unfold process_header. rewrite Ha, Hf. reflexivity.
Qed.

(** On a file that is not empty, a line end is added unless the file ends
    with one, and then the sentinel line. *)
Lemma process_header_nonempty (p data : string) (c : ascii) (x : bool) (w : world) :
  pw_append self = true →
  pw_file self = Some (appending p (String.length (data +:+ String c ""))) →
  fs w !! p = Some (NFile x (data +:+ String c "")) →
  let data' :=
    (data +:+ String c "")
    +:+ (if Ascii.eqb (as_read c) "010" then "" else String "010" "")
    +:+ pw_pointset_sep self +:+ String "010" "" in
  process_header self w
  = (Ok (with_file (Some (appending p (String.length data'))) self),
     put_data p x data' w).
Proof.
  intros Ha Hf H data'. unfold process_header. rewrite Ha, Hf.
  erewrite run_bind_ok by reflexivity.
  unfold file_tell. cbn [f_pos appending].
  rewrite bool_decide_false.
  2:{ rewrite length_app_str. cbn. lia. }
  assert (Hread : file_read1 (file_seek (appending p (String.length (data +:+ String c "")))
                              (String.length (data +:+ String c "") - 1)) w
                  = (Ok (String (as_read c) "",
                         appending p (String.length (data +:+ String c ""))), w)).
  { unfold file_read1. cbn [file_seek f_path f_pos f_append appending].
    erewrite run_bind_ok by (by eapply file_data_file).
    replace (String.length (data +:+ String c "") - 1)%nat with (String.length data)
      by (rewrite length_app_str; cbn; lia).
    rewrite drop_app_length.
    assert (String.prefix (String "013" (String "010" "")) (String c "") = false) as ->.
    { cbn [String.prefix]. by destruct (ascii_dec "013" c). }
    replace (String.length data + 1)%nat with (String.length (data +:+ String c ""))
      by (rewrite length_app_str; cbn; lia).
    unfold as_read. cbn [universal_newlines].
    by destruct (Ascii.eqb c "013"). }
  erewrite run_bind_ok by exact Hread.
  cbn [file_seek f_path f_pos f_append appending].
  change {| f_path := p; f_pos := String.length (data +:+ String c ""); f_append := true |}
    with (appending p (String.length (data +:+ String c ""))).
  subst data'. destruct (Ascii.eqb (as_read c) "010") eqn:E.
  - apply Ascii.eqb_eq in E. rewrite E.
    rewrite bool_decide_false by (intros ?; congruence).
    erewrite run_bind_ok by reflexivity.
    erewrite run_bind_ok by (by eapply file_write_append).
    erewrite run_bind_ok by (eapply file_write_append, put_data_lookup).
    rewrite put_data_twice. by rewrite !app_assoc_str.
  - apply Ascii.eqb_neq in E.
    rewrite bool_decide_true by (intros ?; congruence).
    erewrite run_bind_ok by (by eapply file_write_append).
    erewrite run_bind_ok by (eapply file_write_append, put_data_lookup).
    erewrite run_bind_ok by (eapply file_write_append, put_data_lookup).
    rewrite !put_data_twice. by rewrite !app_assoc_str.
Qed.

End writer.

Lemma render_app (np_str : Z → string) (sep : string) (rows1 rows2 : list (list Z)) :
  render np_str sep (rows1 ++ rows2)
  = render np_str sep rows1 +:+ render np_str sep rows2.
Proof.
  induction rows1 as [|row rows1 IH]; [reflexivity|].
  cbn [app render]. by rewrite IH, !app_assoc_str.
Qed.

(** The text of a point set with at least one point ends with a line
    end. *)
Lemma render_ends_with_newline (np_str : Z → string) (sep : string)
    (rows : list (list Z)) :
  rows ≠ [] → ∃ text, render np_str sep rows = text +:+ String "010" "".
Proof.
  intros Hne. destruct (exists_last Hne) as (rows' & row & ->).
  exists (render np_str sep rows' +:+ PyStr.join sep (np_str <$> row)).
  rewrite render_app. cbn [render]. by rewrite app_empty_r, !app_assoc_str.
Qed.

Lemma open_write_append (p data : string) (x : bool) (w : world) :
  fs w !! p = Some (NFile x data) →
  open_write p true w = (Ok (appending p (String.length data)), w).
Proof.
  intros H. unfold open_write.
  erewrite run_bind_ok by reflexivity. cbn [fs]. rewrite H.
  erewrite run_bind_ok by reflexivity.
  erewrite run_bind_ok by (by eapply file_data_file).
  reflexivity.
Qed.

Section append_mode.
Variable np_str : Z → string.
Variable p : string.
Variable x : bool.

Lemma write_on_empty (self : PointWriter) (rows : list (list Z)) (w : world) :
  pw_append self = true →
  pw_file self = Some (appending p 0) →
  fs w !! p = Some (NFile x "") →
  PointWriter_write np_str self (Arr2 rows) w
  = (Ok (reopened p self (render np_str (pw_sep self) rows)),
     put_data p x (render np_str (pw_sep self) rows) w).
Proof.
  intros Ha Hf H. cbn [PointWriter_write].
  erewrite run_bind_ok by (by eapply process_header_empty).
  rewrite Hf.
  erewrite run_bind_ok by (by apply (write_points_append np_str self rows p "" x w)).
  reflexivity.
Qed.

Lemma write_on_nonempty (self : PointWriter) (rows : list (list Z)) (data : string)
    (c : ascii) (w : world) :
  pw_append self = true →
  pw_file self = Some (appending p (String.length (data +:+ String c ""))) →
  fs w !! p = Some (NFile x (data +:+ String c "")) →
  let data' :=
    (data +:+ String c "")
    +:+ (if Ascii.eqb (as_read c) "010" then "" else String "010" "")
    +:+ pw_pointset_sep self +:+ String "010" ""
    +:+ render np_str (pw_sep self) rows in
  PointWriter_write np_str self (Arr2 rows) w
  = (Ok (reopened p self data'), put_data p x data' w).
Proof.
  intros Ha Hf H data'. cbn [PointWriter_write].
  erewrite run_bind_ok by (by eapply process_header_nonempty).
  cbn [pw_file with_file].
  erewrite run_bind_ok by (eapply write_points_append, put_data_lookup).
  rewrite put_data_twice. subst data'. unfold reopened.
  by rewrite !app_assoc_str.
Qed.

(** C4, as the code has it.  In append mode: on an empty file the points
    are written with no sentinel ahead of them; on a file that is not
    empty a line end is added unless the file ends with one, then one
    sentinel line, then the points; so two point sets written in a row to
    a file that was empty, the first with at least one point, are
    separated by exactly one sentinel line. *)
Theorem append_mode_sentinel (self : PointWriter) :
  pw_append self = true →
  (∀ rows w,
     pw_file self = Some (appending p 0) →
     fs w !! p = Some (NFile x "") →
     PointWriter_write np_str self (Arr2 rows) w
     = (Ok (reopened p self (render np_str (pw_sep self) rows)),
        put_data p x (render np_str (pw_sep self) rows) w)) ∧
  (∀ rows data c w,
     pw_file self = Some (appending p (String.length (data +:+ String c ""))) →
     fs w !! p = Some (NFile x (data +:+ String c "")) →
     ∃ data',
       PointWriter_write np_str self (Arr2 rows) w
       = (Ok (reopened p self data'), put_data p x data' w) ∧
       data' = (data +:+ String c "")
               +:+ (if Ascii.eqb (as_read c) "010" then "" else String "010" "")
               +:+ pw_pointset_sep self +:+ String "010" ""
               +:+ render np_str (pw_sep self) rows) ∧
  (∀ first second w,
     pw_file self = Some (appending p 0) →
     fs w !! p = Some (NFile x "") →
     first ≠ [] →
     ∃ data',
       (PointWriter_write np_str self (Arr2 first) ≫= λ self',
          PointWriter_write np_str self' (Arr2 second)) w
       = (Ok (reopened p self data'), put_data p x data' w) ∧
       data' = render np_str (pw_sep self) first
               +:+ pw_pointset_sep self +:+ String "010" ""
               +:+ render np_str (pw_sep self) second).
Proof.
  intros Ha. split; [|split].
  - intros rows w. by apply write_on_empty.
  - intros rows data c w Hf H. eexists. split; [|reflexivity].
    by apply write_on_nonempty.
  - intros first second w Hf H Hne. eexists. split; [|reflexivity].
    erewrite run_bind_ok by (by apply write_on_empty).
    destruct (render_ends_with_newline np_str (pw_sep self) first Hne) as [text Ht].
    rewrite Ht.
    rewrite (write_on_nonempty (reopened p self (text +:+ String "010" "")) second text
               "010" (put_data p x (text +:+ String "010" "") w));
      [|exact Ha|reflexivity|apply put_data_lookup].
    rewrite put_data_twice. unfold reopened. cbn [as_read Ascii.eqb Bool.eqb with_file pw_sep pw_pointset_sep].
    reflexivity.
Qed.
End append_mode.

Lemma append_mode_sentinel_witness :
  PointWriter_write toy_str pts_writer (Arr2 [[bits_1_0; 0]]) files_world
  = (Ok (reopened "/tmp/pts.dat" pts_writer
           (render toy_str (String "009" "") [[bits_1_0; 0]])),
     put_data "/tmp/pts.dat" false
       (render toy_str (String "009" "") [[bits_1_0; 0]]) files_world) ∧
  (∃ data',
     PointWriter_write toy_str (reopened "/tmp/pts.dat" pts_writer "1.0")
       (Arr2 [[bits_0_5]]) (put_data "/tmp/pts.dat" false "1.0" files_world)
     = (Ok (reopened "/tmp/pts.dat" (reopened "/tmp/pts.dat" pts_writer "1.0") data'),
        put_data "/tmp/pts.dat" false data'
          (put_data "/tmp/pts.dat" false "1.0" files_world)) ∧
     data' = "1.0" +:+ String "010" "" +:+ "#" +:+ String "010" ""
             +:+ render toy_str (String "009" "") [[bits_0_5]]) ∧
  (∃ data',
     (PointWriter_write toy_str pts_writer (Arr2 [[bits_1_0; 0]]) ≫= λ self',
        PointWriter_write toy_str self' (Arr2 [[bits_0_5; bits_1_0]])) files_world
     = (Ok (reopened "/tmp/pts.dat" pts_writer data'),
        put_data "/tmp/pts.dat" false data' files_world) ∧
     data' = render toy_str (String "009" "") [[bits_1_0; 0]]
             +:+ "#" +:+ String "010" ""
             +:+ render toy_str (String "009" "") [[bits_0_5; bits_1_0]]).
Proof.
  split; [|split].
  - apply (append_mode_sentinel toy_str "/tmp/pts.dat" false pts_writer eq_refl);
      reflexivity.
  - apply (proj1 (proj2 (append_mode_sentinel toy_str "/tmp/pts.dat" false
                           (reopened "/tmp/pts.dat" pts_writer "1.0") eq_refl))
             [[bits_0_5]] "1." "0"%char); reflexivity.
  - apply (append_mode_sentinel toy_str "/tmp/pts.dat" false pts_writer eq_refl);
      [reflexivity|reflexivity|discriminate].
Defined.

(** C4 as stated fails when the first point set has no point: the file is
    still empty at the second write, and no sentinel line is written. *)
Lemma empty_first_set_no_sentinel :
  fst (write_twice (Arr2 []) (Arr2 [[bits_0_5; bits_1_0]]) files_world)
  = Ok ("0.5" +:+ String "009" "" +:+ "1.0" +:+ String "010" "") ∧
  ∀ data, fst (write_twice (Arr2 []) (Arr2 [[bits_0_5; bits_1_0]]) files_world) = Ok data →
          PyStr.contains "#" data = false.
Proof.
  split; [vm_compute; reflexivity|].
  intros data H. vm_compute in H. injection H as <-. reflexivity.
Qed.

Example two_sets_one_sentinel :
  fst (write_twice (Arr2 [[bits_1_0; 0]]) (Arr2 [[bits_0_5; bits_1_0]]) files_world)
  = Ok ("1.0" +:+ String "009" "" +:+ "0.0" +:+ String "010" ""
        +:+ "#" +:+ String "010" ""
        +:+ "0.5" +:+ String "009" "" +:+ "1.0" +:+ String "010" "").
Proof. vm_compute. reflexivity. Qed.

(** ** The round trip through a text file *)

Section chars.
Implicit Types s t : string.
Implicit Types P Q : ascii → bool.

Lemma all_chars_app P s t : all_chars P (s +:+ t) = all_chars P s && all_chars P t.
Proof.
  induction s as [|c s IH]; [reflexivity|].
  rewrite app_cons. cbn [all_chars]. by rewrite IH, andb_assoc.
Qed.

Lemma all_chars_impl P Q s :
  (∀ c, P c = true → Q c = true) → all_chars P s = true → all_chars Q s = true.
Proof.
  intros HPQ. induction s as [|c s IH]; [done|]. cbn [all_chars].
  rewrite !andb_true_iff. intros [H1 H2]. auto.
Qed.

Lemma all_chars_join P (sep : string) (l : list string) :
  all_chars P sep = true → Forall (λ s, all_chars P s = true) l →
  all_chars P (PyStr.join sep l) = true.
Proof.
  intros Hsep. unfold PyStr.join. induction 1 as [|s l Hs Hl IH]; [reflexivity|].
  destruct l as [|s' l]; [exact Hs|].
  change (String.concat sep (s :: s' :: l))
    with (s +:+ sep +:+ String.concat sep (s' :: l)).
  by rewrite !all_chars_app, Hs, Hsep, IH.
Qed.
End chars.

(** *** Lines *)

Lemma universal_newlines_id (s : string) :
  all_chars not_cr s = true → universal_newlines s = s.
Proof.
  induction s as [|c s IH]; [reflexivity|]. cbn [all_chars universal_newlines].
  unfold not_cr at 1. rewrite andb_true_iff, negb_true_iff. intros [Hc Hs].
  by rewrite Hc, IH.
Qed.

Lemma lines_go_line (cur line rest : string) :
  all_chars not_lf line = true →
  lines_go cur (line +:+ String "010" rest)
  = (cur +:+ line +:+ String "010" "") :: lines_go "" rest.
Proof.
  revert cur. induction line as [|c line IH]; intros cur.
  - intros _. reflexivity.
  - cbn [all_chars]. unfold not_lf at 1. rewrite andb_true_iff, negb_true_iff.
    intros [Hc Hl]. rewrite app_cons. cbn [lines_go]. rewrite Hc, IH by exact Hl.
    by rewrite !app_assoc_str.
Qed.

(** *** Stripping and splitting a line *)

Lemma not_space_not_tab (c : ascii) : not_space c = true → not_tab c = true.
Proof.
  unfold not_space, not_tab. destruct (Ascii.eqb c "009") eqn:E; [|done].
  apply Ascii.eqb_eq in E as ->. done.
Qed.

Lemma not_space_not_lf (c : ascii) : not_space c = true → not_lf c = true.
Proof.
  unfold not_space, not_lf. destruct (Ascii.eqb c "010") eqn:E; [|done].
  apply Ascii.eqb_eq in E as ->. done.
Qed.

Lemma not_space_not_cr (c : ascii) : not_space c = true → not_cr c = true.
Proof.
  unfold not_space, not_cr. destruct (Ascii.eqb c "013") eqn:E; [|done].
  apply Ascii.eqb_eq in E as ->. done.
Qed.

Lemma lstrip_nonspace (c : ascii) (s : string) :
  not_space c = true → PyStr.lstrip (String c s) = String c s.
Proof.
  unfold not_space. rewrite negb_true_iff. intros H. cbn [PyStr.lstrip]. by rewrite H.
Qed.

Lemma rstrip_newline (s : string) :
  PyStr.rstrip (s +:+ String "010" "") = PyStr.rstrip s.
Proof.
  induction s as [|c s IH]; [reflexivity|].
  rewrite app_cons. cbn [PyStr.rstrip]. by rewrite IH.
Qed.

Lemma rstrip_nonspace (s : string) (c : ascii) :
  not_space c = true → PyStr.rstrip (s +:+ String c "") = s +:+ String c "".
Proof.
  unfold not_space. rewrite negb_true_iff. intros H.
  induction s as [|a s IH].
  - rewrite app_empty_l. cbn [PyStr.rstrip]. by rewrite H.
  - rewrite app_cons. cbn [PyStr.rstrip]. rewrite IH.
    destruct s; reflexivity.
Qed.

(** A string that is not empty has a first and a last character. *)
Lemma string_snoc (s : string) :
  s ≠ "" → ∃ t c, s = t +:+ String c "".
Proof.
  induction s as [|a s IH]; [done|]. intros _.
  destruct s as [|b s].
  - by exists "", a.
  - destruct IH as (t & c & ->); [done|]. by exists (String a t), c.
Qed.

Lemma strip_line_of (body : string) (a c : ascii) (mid : string) :
  body = String a mid → (∃ t, body = t +:+ String c "") →
  not_space a = true → not_space c = true →
  PyStr.strip (body +:+ String "010" "") = body.
Proof.
  intros Ha [t Ht] Hna Hnc. unfold PyStr.strip.
  rewrite Ha, app_cons, lstrip_nonspace by exact Hna.
  rewrite <- app_cons, <- Ha, rstrip_newline, Ht.
  by apply rstrip_nonspace.
Qed.

Lemma split_go_tab_token (cur tok rest : string) :
  all_chars not_tab tok = true →
  PyStr.split_go (String "009" "") 0 cur (tok +:+ rest)
  = PyStr.split_go (String "009" "") 0 (cur +:+ tok) rest.
Proof.
  revert cur. induction tok as [|c tok IH]; intros cur.
  - intros _. by rewrite app_empty_r.
  - cbn [all_chars]. unfold not_tab at 1. rewrite andb_true_iff, negb_true_iff.
    intros [Hc Ht]. rewrite app_cons. cbn [PyStr.split_go String.prefix].
    destruct (ascii_dec "009" c) as [<-|_]; [done|].
    rewrite IH by exact Ht. by rewrite app_assoc_str.
Qed.

Lemma split_go_tab_sep (cur rest : string) :
  PyStr.split_go (String "009" "") 0 cur (String "009" rest)
  = cur :: PyStr.split_go (String "009" "") 0 "" rest.
Proof.
  cbn [PyStr.split_go String.prefix].
  destruct (ascii_dec "009" "009") as [_|?]; [|done].
  by destruct rest.
Qed.

Lemma split_join_tab (toks : list string) :
  toks ≠ [] → Forall (λ s, all_chars not_tab s = true) toks →
  PyStr.split (String "009" "") (PyStr.join (String "009" "") toks) = toks.
Proof.
  intros Hne Hall. unfold PyStr.split, PyStr.join.
  induction Hall as [|tok toks Htok Htoks IH]; [done|]. clear Hne.
  destruct toks as [|tok' toks].
  - cbn [String.concat]. rewrite <- (app_empty_r tok) at 1.
    by rewrite split_go_tab_token.
  - change (String.concat (String "009" "") (tok :: tok' :: toks))
      with (tok +:+ String "009" (String.concat (String "009" "") (tok' :: toks))).
    rewrite split_go_tab_token, split_go_tab_sep by exact Htok.
    by rewrite IH.
Qed.

Lemma token_ok_chars (s : string) :
  token_ok s = true → s ≠ "" ∧ all_chars not_space s = true.
Proof.
  unfold token_ok, nonempty. rewrite andb_true_iff, negb_true_iff.
  intros [H1 H2]. split; [|exact H2]. by apply bool_decide_eq_false in H1.
Qed.

(** The line of a point with at least one coordinate begins and ends with
    a character that is not white space. *)
Lemma join_tokens_ends (toks : list string) :
  toks ≠ [] → Forall (λ s, token_ok s = true) toks →
  ∃ a mid t c,
    PyStr.join (String "009" "") toks = String a mid ∧
    PyStr.join (String "009" "") toks = t +:+ String c "" ∧
    not_space a = true ∧ not_space c = true.
Proof.
  intros Hne Hall. unfold PyStr.join.
  induction Hall as [|tok toks Htok Htoks IH]; [done|]. clear Hne.
  apply token_ok_chars in Htok as [Hne Hchars].
  destruct tok as [|a mid]; [done|]. clear Hne.
  destruct toks as [|tok' toks].
  - destruct (string_snoc (String a mid)) as (t & c & Ht); [done|].
    exists a, mid, t, c. cbn [String.concat]. split; [done|]. split; [done|].
    cbn [all_chars] in Hchars. apply andb_true_iff in Hchars as [Ha Hmid].
    split; [done|].
    assert (Hc : all_chars not_space (t +:+ String c "") = true).
    { rewrite <- Ht. cbn [all_chars]. by rewrite Ha, Hmid. }
    rewrite all_chars_app in Hc. cbn [all_chars] in Hc.
    by repeat (apply andb_true_iff in Hc as [? Hc] || apply andb_true_iff in Hc as [Hc ?]).
  - destruct IH as (a' & mid' & t & c & _ & Hlast & _ & Hc); [done|].
    change (String.concat (String "009" "") (String a mid :: tok' :: toks))
      with (String a mid +:+ String "009" ""
            +:+ String.concat (String "009" "") (tok' :: toks)).
    exists a, (mid +:+ String "009" "" +:+ String.concat (String "009" "") (tok' :: toks)),
      (String a mid +:+ String "009" "" +:+ t), c.
    split; [by rewrite app_cons|]. split; [by rewrite Hlast, !app_assoc_str|].
    cbn [all_chars] in Hchars. apply andb_true_iff in Hchars as [Ha _]. done.
Qed.

Section round_trip.
Variable np_str : Z → string.
Variable np_double : string → option Z.
Variable np_garbage : nat → nat → Z.

Lemma map_result_parse (row : list Z) :
  Forall (prints_well np_str np_double) row →
  map_result (parse_double np_double) (np_str <$> row) = Ok row.
Proof.
  induction 1 as [|v row [Hv _] _ IH]; [reflexivity|].
  cbn [fmap list_fmap map_result]. unfold parse_double at 1. rewrite Hv.
  change (list_fmap Z string np_str row) with (np_str <$> row). by rewrite IH.
Qed.

Lemma tokens_ok (row : list Z) :
  Forall (prints_well np_str np_double) row → Forall (λ s, token_ok s = true) (np_str <$> row).
Proof. intros H. apply Forall_fmap. eapply Forall_impl; [exact H|]. by intros v [_ ?]. Qed.

Lemma tokens_chars (P : ascii → bool) (row : list Z) :
  (∀ c, not_space c = true → P c = true) →
  Forall (prints_well np_str np_double) row → Forall (λ s, all_chars P s = true) (np_str <$> row).
Proof.
  intros HP H. apply Forall_fmap. eapply Forall_impl; [exact H|].
  intros v [_ Hv]. apply token_ok_chars in Hv as [_ Hv].
  by eapply all_chars_impl.
Qed.

Lemma fields_of_line (row : list Z) :
  row ≠ [] → Forall (prints_well np_str np_double) row →
  PyStr.split (String "009" "") (PyStr.strip ((line_of np_str) row)) = np_str <$> row.
Proof.
  intros Hne Hrow. unfold line_of.
  destruct (join_tokens_ends (np_str <$> row)) as (a & mid & t & c & H1 & H2 & Ha & Hc).
  { by destruct row. }
  { by apply tokens_ok. }
  rewrite (strip_line_of _ a c mid) by eauto.
  apply split_join_tab; [by destruct row|].
  apply tokens_chars; [apply not_space_not_tab|done].
Qed.

Lemma line_chars (P : ascii → bool) (row : list Z) :
  (∀ c, not_space c = true → P c = true) → P "009"%char = true →
  Forall (prints_well np_str np_double) row →
  all_chars P (PyStr.join (String "009" "") (np_str <$> row)) = true.
Proof.
  intros HP Htab Hrow. apply all_chars_join.
  - cbn [all_chars]. by rewrite Htab.
  - by apply tokens_chars.
Qed.

Lemma render_chars (P : ascii → bool) (rows : list (list Z)) :
  (∀ c, not_space c = true → P c = true) → P "009"%char = true →
  P "010"%char = true →
  Forall (Forall (prints_well np_str np_double)) rows →
  all_chars P (render np_str (String "009" "") rows) = true.
Proof.
  intros HP Htab Hlf. induction 1 as [|row rows Hrow _ IH]; [reflexivity|].
  cbn [render]. rewrite !all_chars_app, line_chars, IH by done.
  cbn [all_chars]. by rewrite Hlf.
Qed.

Lemma readlines_render (rows : list (list Z)) :
  Forall (Forall (prints_well np_str np_double)) rows →
  readlines (render np_str (String "009" "") rows) = (line_of np_str) <$> rows.
Proof.
  intros Hrows. unfold readlines.
  rewrite universal_newlines_id
    by (apply render_chars; [apply not_space_not_cr|done..]).
  induction Hrows as [|row rows Hrow _ IH]; [reflexivity|].
  cbn [render fmap list_fmap].
  change (String "010" "" +:+ render np_str (String "009" "") rows)
    with (String "010" (render np_str (String "009" "") rows)).
  rewrite lines_go_line by (apply line_chars; [apply not_space_not_lf|done..]).
  rewrite app_empty_l. unfold line_of at 1. f_equal. exact IH.
Qed.

Lemma set_row_done (d : nat) (done rest : list (list Z)) (old row : list Z) :
  length row = d →
  set_row d (length done) row (done ++ old :: rest) = Ok (done ++ row :: rest).
Proof.
  intros Hrow. unfold set_row.
  rewrite bool_decide_false by (rewrite length_app; cbn; lia).
  rewrite bool_decide_true by exact Hrow.
  rewrite insert_app_r_alt by lia. by rewrite Nat.sub_diag.
Qed.

Lemma read_text_loop_rows (n d : nat) (rest done garbage : list (list Z)) :
  (0 < d)%nat →
  length garbage = length rest →
  Forall (λ row, length row = d) rest →
  Forall (Forall (prints_well np_str np_double)) rest →
  read_text_loop np_double (PointReader_init n d None) (length done)
    ((line_of np_str) <$> rest) (done ++ garbage)
  = Ok (done ++ rest).
Proof.
  intros Hd. revert done garbage.
  induction rest as [|row rest IH]; intros done garbage Hlen Hshape Hgood.
  - destruct garbage; [reflexivity|discriminate].
  - destruct garbage as [|old garbage]; [discriminate|].
    apply Forall_cons in Hshape as [Hrow Hshape].
    apply Forall_cons in Hgood as [Hgrow Hgood].
    cbn [fmap list_fmap read_text_loop PointReader_init pr_sep pr_d default].
    unfold py_split. rewrite bool_decide_false by done.
    rewrite fields_of_line; [|by destruct row; [cbn in Hrow; lia|]|done].
    rewrite map_result_parse, set_row_done by done.
    replace (S (length done)) with (length (done ++ [row]))
      by (rewrite length_app; cbn; lia).
    replace (done ++ row :: garbage) with ((done ++ [row]) ++ garbage)
      by (by rewrite <- app_assoc).
    change (list_fmap (list Z) string (line_of np_str) rest) with ((line_of np_str) <$> rest).
    rewrite (IH (done ++ [row]) garbage) by (done || (cbn in Hlen; lia)).
    by rewrite <- app_assoc.
Qed.

Lemma length_np_empty (n d : nat) : length (np_empty np_garbage n d) = n.
Proof. unfold np_empty. by rewrite length_fmap, length_seq. Qed.

Lemma read_text_rendered (p : string) (x : bool) (n d : nat) (rows : list (list Z))
    (w : world) :
  (0 < d)%nat → length rows = n →
  Forall (λ row, length row = d) rows →
  Forall (Forall (prints_well np_str np_double)) rows →
  fs w !! p = Some (NFile x (render np_str (String "009" "") rows)) →
  PointReader_read_text np_double np_garbage (PointReader_init n d None) p w
  = (Ok rows, w).
Proof.
  intros Hd Hn Hshape Hgood Hp. unfold PointReader_read_text, open_read.
  erewrite run_bind_ok by (by eapply file_data_file).
  rewrite readlines_render by done.
  pose proof (read_text_loop_rows n d rows [] (np_empty np_garbage n d) Hd) as H.
  cbn [length app] in H. cbn [PointReader_init pr_n pr_d].
  rewrite H; [reflexivity| |done..].
  by rewrite length_np_empty.
Qed.

Lemma init_on_empty_file (p : string) (x : bool) (w : world) :
  fs w !! p = Some (NFile x "") →
  PointWriter_init (Some p) None None None w
  = (Ok {| pw_sep := String "009" ""; pw_pointset_sep := "#";
           pw_append := true; pw_file := Some (appending p 0) |}, w).
Proof.
  intros Hp. unfold PointWriter_init, PointWriter_open. cbn [default pw_file pw_append].
  rewrite bool_decide_true by done.
  erewrite run_bind_ok by reflexivity.
  erewrite run_bind_ok by (by eapply open_write_append).
  reflexivity.
Qed.

Lemma link_new (p : string) (node : node) (y : bool) (l : list string) (w : world) :
  fs w !! os.dirname p = Some (NDir y l) →
  os.link p node w
  = (Ok tt, with_fs (<[p := node]>
                       (<[os.dirname p := NDir y (l ++ [os.basename p])]> (fs w))) w).
Proof.
  intros Hdir. unfold os.link.
  erewrite run_bind_ok by reflexivity. cbn [fs]. by rewrite Hdir.
Qed.

Lemma open_write_new (p : string) (y : bool) (l : list string) (w : world) :
  fs w !! p = None →
  fs w !! os.dirname p = Some (NDir y l) →
  open_write p true w
  = (Ok (appending p 0),
     with_fs (<[p := NFile false ""]>
                (<[os.dirname p := NDir y (l ++ [os.basename p])]> (fs w))) w).
Proof.
  intros Hp Hdir. unfold open_write.
  erewrite run_bind_ok by reflexivity. cbn [fs]. rewrite Hp.
  erewrite run_bind_ok by (by eapply link_new).
  erewrite run_bind_ok by (eapply file_data_file, lookup_insert_eq).
  reflexivity.
Qed.

Lemma init_on_new_file (p : string) (y : bool) (l : list string) (w : world) :
  fs w !! p = None →
  fs w !! os.dirname p = Some (NDir y l) →
  ∃ w', PointWriter_init (Some p) None None None w
        = (Ok {| pw_sep := String "009" ""; pw_pointset_sep := "#";
                 pw_append := true; pw_file := Some (appending p 0) |}, w') ∧
        fs w' !! p = Some (NFile false "").
Proof.
  intros Hp Hdir. eexists. split.
  - unfold PointWriter_init, PointWriter_open. cbn [default pw_file pw_append].
    rewrite bool_decide_true by done.
    erewrite run_bind_ok by reflexivity.
    erewrite run_bind_ok by (by eapply open_write_new).
    reflexivity.
  - apply lookup_insert_eq.
Qed.

Lemma write_read_after_open (p : string) (x : bool) (n d : nat) (rows : list (list Z))
    (w : world) :
  (0 < d)%nat → length rows = n →
  Forall (λ row, length row = d) rows →
  Forall (Forall (prints_well np_str np_double)) rows →
  fs w !! p = Some (NFile x "") →
  (PointWriter_write np_str
     {| pw_sep := String "009" ""; pw_pointset_sep := "#";
        pw_append := true; pw_file := Some (appending p 0) |} (Arr2 rows) ≫= λ writer,
   PointWriter_close writer ≫= λ _,
   PointReader_read_text np_double np_garbage (PointReader_init n d None) p) w
  = (Ok rows, put_data p x (render np_str (String "009" "") rows) w).
Proof.
  intros Hd Hn Hshape Hgood Hp.
  erewrite run_bind_ok by (by eapply (write_on_empty np_str p x)).
  erewrite run_bind_ok by reflexivity.
  cbn [pw_sep].
  by erewrite read_text_rendered by (done || apply put_data_lookup).
Qed.

(** C2, as the code has it: a point set whose points have at least one
    coordinate, written with the default arguments to a file that is
    empty or new and, once the writer is closed, read back in text mode
    with the matching [n] and [d], comes back as it was, as far as every
    value comes back from the text numpy prints for it; the file then
    holds one line per point. *)
Theorem text_round_trip (p : string) (n d : nat) (rows : list (list Z)) (w : world) :
  (0 < d)%nat → length rows = n →
  Forall (λ row, length row = d) rows →
  Forall (Forall (prints_well np_str np_double)) rows →
  empty_or_new p w →
  ∃ w' x,
    write_then_read np_str np_double np_garbage p n d rows w = (Ok rows, w') ∧
    fs w' !! p = Some (NFile x (render np_str (String "009" "") rows)).
Proof.
  intros Hd Hn Hshape Hgood [[x Hp]|[Hp (y & l & Hdir)]]; unfold write_then_read.
  - exists (put_data p x (render np_str (String "009" "") rows) w), x.
    split; [|apply put_data_lookup].
    erewrite run_bind_ok by (by eapply init_on_empty_file).
    by apply write_read_after_open.
  - destruct (init_on_new_file p y l w Hp Hdir) as (w1 & Hinit & Hp1).
    exists (put_data p false (render np_str (String "009" "") rows) w1), false.
    split; [|apply put_data_lookup].
    erewrite run_bind_ok by exact Hinit.
    by apply write_read_after_open.
Qed.
End round_trip.

Lemma text_round_trip_witness :
  ∃ w' x,
    write_then_read toy_str toy_double toy_garbage "/tmp/pts.dat" 2 2
      [[bits_1_0; 0]; [bits_0_5; bits_1_0]] files_world
    = (Ok [[bits_1_0; 0]; [bits_0_5; bits_1_0]], w') ∧
    fs w' !! "/tmp/pts.dat"
    = Some (NFile x (render toy_str (String "009" "")
                       [[bits_1_0; 0]; [bits_0_5; bits_1_0]])).
Proof.
  apply (text_round_trip toy_str toy_double toy_garbage "/tmp/pts.dat" 2 2
           [[bits_1_0; 0]; [bits_0_5; bits_1_0]] files_world).
  - lia.
  - reflexivity.
  - repeat constructor.
  - repeat constructor.
  - left. exists false. reflexivity.
Defined.

Example text_round_trip_ex :
  fst (write_then_read toy_str toy_double toy_garbage "/tmp/pts.dat" 2 2
         [[bits_1_0; 0]; [bits_0_5; bits_1_0]] files_world)
  = Ok [[bits_1_0; 0]; [bits_0_5; bits_1_0]].
Proof. vm_compute. reflexivity. Qed.

(** C2 as stated fails on a file that already holds a point set: the
    writer, in append mode by default, puts a sentinel line ahead of the
    points, and reading the file back fails on that line. *)
Lemma used_file_breaks_round_trip :
  fs (holding one_row) !! "/tmp/pts.dat"
  = Some (NFile false (render toy_str (String "009" "") one_row)) ∧
  fst (write_then_read toy_str toy_double toy_garbage "/tmp/pts.dat" 1 2 one_row
         (holding one_row))
  = Raise ValueError ∧
  fst (write_then_read toy_str toy_double toy_garbage "/tmp/pts.dat" 1 2 one_row
         (holding one_row))
  ≠ Ok one_row.
Proof.
  split; [reflexivity|]. split; [vm_compute; reflexivity|].
  vm_compute. discriminate.
Qed.

(** With no coordinate the line of a point is empty, and reading it back
    fails on the empty field. *)
Example no_coordinate_fails :
  fst (write_then_read toy_str toy_double toy_garbage "/tmp/pts.dat" 1 0
         [[]] files_world)
  = Raise ValueError.
Proof. vm_compute. reflexivity. Qed.

(** ** Discrepancy results *)

Section discrepancy.
Variable np_double : string → option Z.

(** What the loop over [zip(names, splitted)] leaves in [result]: every
    name is a key, and the value under a name is the one of its last
    column. *)
Lemma fill_result_spec (pairs : list (string * string)) (res : gmap string Z) :
  Forall (λ nv, is_Some (np_double nv.2)) pairs →
  ∃ res',
    fill_result np_double pairs res = Ok res' ∧
    dom res' = dom res ∪ list_to_set pairs.*1 ∧
    (∀ k, k ∉ pairs.*1 → res' !! k = res !! k) ∧
    (∀ j name value,
       pairs !! j = Some (name, value) →
       (∀ j', (j < j')%nat → pairs.*1 !! j' ≠ Some name) →
       ∃ x, np_double value = Some x ∧ res' !! name = Some x).
Proof.
  intros Hall. revert res.
  induction Hall as [|[n v] pairs [x Hx] _ IH]; intros res.
  - exists res. split; [reflexivity|]. split; [set_solver|].
    split; [done|]. intros j ?? Hj. by rewrite lookup_nil in Hj.
  - cbn [snd] in Hx. destruct (IH (<[n := x]> res)) as (res' & Hrun & Hdom & Hout & Hin).
    exists res'. split; [|split; [|split]].
    + cbn [fill_result]. unfold parse_double. by rewrite Hx.
    + rewrite Hdom, dom_insert_L. cbn [fmap list_fmap fst list_to_set]. set_solver.
    + intros k Hk. cbn [fmap list_fmap fst] in Hk.
      apply not_elem_of_cons in Hk as [Hne Hk].
      rewrite Hout by exact Hk. by rewrite lookup_insert_ne.
    + intros [|j] name value Hj Hlast.
      * cbn in Hj. injection Hj as <- <-. exists x. split; [exact Hx|].
        rewrite Hout; [apply lookup_insert_eq|].
        intros [j' Hj']%list_elem_of_lookup. by apply (Hlast (S j')); [lia|].
      * cbn in Hj. apply (Hin j name value Hj).
        intros j' Hlt. apply (Hlast (S j')). lia.
Qed.

Lemma fill_result_zip (names values : list string) :
  aligned np_double names values →
  ∃ res, fill_result np_double (zip names values) ∅ = Ok res ∧
         reads_as np_double names values res.
Proof.
  intros [Hlen Hvals].
  destruct (fill_result_spec (zip names values) ∅) as (res & Hrun & Hdom & _ & Hin).
  { apply Forall_lookup. intros j [name value] Hj.
    apply lookup_zip_with_Some in Hj as (? & ? & [= <- <-] & _ & Hv).
    by eapply (Forall_lookup_1 _ _ _ _ Hvals). }
  rewrite fst_zip in Hdom, Hin by lia.
  exists res. split; [exact Hrun|]. split; [set_solver|].
  intros j name value Hn Hv Hlast. apply (Hin j name value); [|exact Hlast].
  apply lookup_zip_with_Some. eauto.
Qed.

Lemma read_results_spec (self : DiscrepancyReader) (names lines : list string) :
  dr_sep self ≠ "" →
  Forall (λ line, aligned np_double names (line_values self line)) lines →
  ∃ results,
    read_results np_double self names lines = Ok results ∧
    Forall2 (λ line res, reads_as np_double names (line_values self line) res) lines results.
Proof.
  intros Hsep. induction 1 as [|line lines Hline _ (results & Hrun & Hres)].
  - exists []. split; [reflexivity|constructor].
  - destruct (fill_result_zip names (line_values self line) Hline) as (res & Hfill & Hreads).
    exists (res :: results). split; [|by constructor].
    cbn [read_results]. unfold py_split. rewrite bool_decide_false by exact Hsep.
    unfold line_values in Hfill. by rewrite Hfill, Hrun.
Qed.

(** C3: on a file whose first line gives the column names and whose
    other lines each give as many values as there are names, all of them
    numbers, [read] returns one mapping per line of values; the keys of
    each are the names, each name being a token of the first line without
    its first [exclude] characters and in lower case, empty tokens left
    out; and under a name stands the number read from the token of the
    same rank among the tokens of the line that are not empty (of the last
    such rank, should a name occur twice). *)
Theorem discrepancy_read (self : DiscrepancyReader) (p data header : string)
    (lines : list string) (x : bool) (w : world) :
  dr_sep self ≠ "" →
  fs w !! p = Some (NFile x data) →
  readlines data = header :: lines →
  Forall (λ line, aligned np_double (header_names self header) (line_values self line)) lines →
  ∃ results,
    DiscrepancyReader_read np_double self p w = (Ok results, w) ∧
    length results = length lines ∧
    ∀ i line res,
      lines !! i = Some line → results !! i = Some res →
      reads_as np_double (header_names self header) (line_values self line) res.
Proof.
  intros Hsep Hp Hlines Hal.
  destruct (read_results_spec self (header_names self header) lines Hsep Hal)
    as (results & Hrun & Hres).
  exists results. split; [|split].
  - unfold DiscrepancyReader_read, open_read.
    erewrite run_bind_ok by (by eapply file_data_file).
    rewrite Hlines. cbn [head tail default].
    unfold py_split. rewrite bool_decide_false by exact Hsep.
    erewrite run_bind_ok by reflexivity.
    unfold header_names in Hrun. unfold lift, id. by rewrite Hrun.
  - symmetry. by eapply Forall2_length.
  - intros i line res Hl Hr.
    exact (Forall2_lookup_lr (λ line res, reads_as np_double (header_names self header) (line_values self line) res)
             lines results i line res Hres Hl Hr).
Qed.
End discrepancy.

Lemma discrepancy_read_witness :
  ∃ results,
    DiscrepancyReader_read toy_double (DiscrepancyReader_init None None)
      "/tmp/out.dat" discrepancy_world
    = (Ok results, discrepancy_world) ∧
    length results = 1%nat ∧
    ∀ i line res,
      [("1.0" +:+ String "009" (String "009" "0.5") +:+ String "009" "0.0"
        +:+ String "010" "")] !! i = Some line →
      results !! i = Some res →
      reads_as toy_double ["nbpts"; "mean"; "var"]
        (line_values (DiscrepancyReader_init None None) line) res.
Proof.
  apply (discrepancy_read toy_double (DiscrepancyReader_init None None)
           "/tmp/out.dat" discrepancy_text
           ("#Nbpts" +:+ String "009" (String "009" "#Mean") +:+ String "009" "#Var"
            +:+ String "010" "")
           [("1.0" +:+ String "009" (String "009" "0.5") +:+ String "009" "0.0"
             +:+ String "010" "")]
           false discrepancy_world).
  - discriminate.
  - reflexivity.
  - reflexivity.
  - repeat constructor; vm_compute; eauto.
Defined.

Example discrepancy_read_ex :
  fst (DiscrepancyReader_read toy_double (DiscrepancyReader_init None None)
         "/tmp/out.dat" discrepancy_world)
  = Ok [ {[ "nbpts" := bits_1_0; "mean" := bits_0_5; "var" := 0 ]} ].
Proof. vm_compute. reflexivity. Qed.

(** ** Discovery, with [split_i_d] false *)

Lemma is_sampler_run (filepath : string) (w : world) :
  is_sampler filepath w = (Ok (passes_test w filepath), w).
Proof.
  unfold is_sampler, os.access_x, os.isdir, passes_test, executable_file.
  unfold mbind, ST_bind, bind, mret, ST_ret, ret, get_state.
  destruct (fs w !! filepath) as [[x l|x data]|]; try reflexivity.
  all: by destruct x.
Qed.

Lemma split_go_not_nil (sep : string) (skip : nat) (cur s : string) :
  PyStr.split_go sep skip cur s ≠ [].
Proof.
  revert skip cur. induction s as [|c s IH]; intros skip cur; [done|].
  cbn [PyStr.split_go]. destruct skip; [|apply IH].
  destruct (String.prefix sep (String c s)); [done|apply IH].
Qed.

Lemma last_split (sep s : string) : is_Some (last (PyStr.split sep s)).
Proof.
  unfold PyStr.split. pose proof (split_go_not_nil sep 0 "" s) as H.
  destruct (PyStr.split_go sep 0 "" s) as [|t l] using rev_ind; [done|].
  rewrite last_snoc. eauto.
Qed.

Lemma try_body_merged (file : string) (samplers : gmap string dims) :
  snd (try_pass (try_body false (PyStr.split "_" file) (sampler_name file)) samplers)
  = match sampler_dim file with
    | Some z => add_dim (sampler_name file) z samplers
    | None => samplers
    end.
Proof.
  unfold try_pass, try_body, sampler_dim, list_last.
  change (entry false) with dims.
  destruct (last_split "_" file) as [tok ->].
  erewrite run_bind_ok by reflexivity.
  destruct (int_of_str (PyStr.drop_last 2 tok)) as [z|e]; [|reflexivity].
  erewrite run_bind_ok by reflexivity.
  erewrite run_bind_ok by reflexivity.
  unfold add_dim. destruct (samplers !! sampler_name file) as [v|] eqn:Hv.
  - rewrite bool_decide_false by done.
    erewrite run_bind_ok by reflexivity.
    unfold at_item. rewrite Hv. destruct v as [s|l]; cbn.
    + reflexivity.
    + transitivity (<[sampler_name file := DList l]> samplers);
        [reflexivity|by apply insert_id].
  - rewrite bool_decide_true by done.
    erewrite run_bind_ok by reflexivity.
    unfold at_item. rewrite lookup_insert_eq.
    transitivity (<[sampler_name file := DSet ({[z]} ∪ ∅)]>
                    (<[sampler_name file := DSet ∅]> samplers));
      [reflexivity|by apply insert_insert_eq].
Qed.

Lemma get_samplers_dir_run (w : world) :
  get_samplers_dir w = (Ok (os.join (__UTK__DIR__ (cfg w)) "samplers"), w).
Proof. reflexivity. Qed.

Lemma scan_file_merged (file : string) (samplers : gmap string dims) (w : world) :
  scan_file false file samplers w
  = (Ok (scan_step w (os.join (__UTK__DIR__ (cfg w)) "samplers") samplers file), w).
Proof.
  unfold scan_file, scan_step.
  erewrite run_bind_ok by apply get_samplers_dir_run.
  erewrite run_bind_ok by apply is_sampler_run.
  destruct (passes_test w _); [|reflexivity].
  unfold mret, ST_ret, ret. f_equal. f_equal. apply try_body_merged.
Qed.

Lemma scan_merged (files : list string) (samplers : gmap string dims) (w : world) :
  scan false files samplers w
  = (Ok (foldl (scan_step w (os.join (__UTK__DIR__ (cfg w)) "samplers")) samplers files),
     w).
Proof.
  revert samplers. induction files as [|file files IH]; intros samplers; [reflexivity|].
  cbn [scan foldl].
  erewrite run_bind_ok by apply scan_file_merged. apply IH.
Qed.

Lemma has_dim_by_snoc (ok : string → bool) (done : list string) (file name : string)
    (z : Z) :
  has_dim_by ok (done ++ [file]) name z ↔
  has_dim_by ok done name z ∨
  (ok file = true ∧ sampler_name file = name ∧ sampler_dim file = Some z).
Proof.
  unfold has_dim_by. split.
  - intros (f & Hf & Hok & Hn & Hd). apply elem_of_app in Hf as [Hf|Hf].
    + left. eauto.
    + apply list_elem_of_singleton in Hf as ->. by right.
  - intros [(f & Hf & H)|H].
    + exists f. split; [apply elem_of_app; by left|done].
    + exists file. split; [apply elem_of_app; right; by apply list_elem_of_singleton|done].
Qed.

Lemma scanned_skip (ok : string → bool) (done : list string) (file : string)
    (samplers : gmap string dims) :
  (ok file = false ∨ sampler_dim file = None) →
  scanned ok done samplers → scanned ok (done ++ [file]) samplers.
Proof.
  intros Hskip Hinv name. specialize (Hinv name).
  assert (Hsame : ∀ z, has_dim_by ok (done ++ [file]) name z ↔ has_dim_by ok done name z).
  { intros z. rewrite has_dim_by_snoc. split; [|by left].
    intros [H|(Hok & _ & Hd)]; [done|]. destruct Hskip; congruence. }
  destruct (samplers !! name) as [v|].
  - destruct Hinv as (s & -> & Hs & z0 & Hz0). exists s. split; [done|]. split.
    + intros z. by rewrite Hsame.
    + exists z0. by apply Hsame.
  - intros z. by rewrite Hsame.
Qed.

Lemma scanned_add (ok : string → bool) (done : list string) (file : string) (z : Z)
    (samplers : gmap string dims) :
  ok file = true → sampler_dim file = Some z →
  scanned ok done samplers →
  scanned ok (done ++ [file]) (add_dim (sampler_name file) z samplers).
Proof.
  intros Hok Hdim Hinv name. unfold add_dim.
  pose proof (Hinv (sampler_name file)) as Hfile.
  assert (Hnew : has_dim_by ok (done ++ [file]) (sampler_name file) z).
  { apply has_dim_by_snoc. by right. }
  destruct (decide (name = sampler_name file)) as [->|Hne].
  - destruct (samplers !! sampler_name file) as [v|] eqn:Hv.
    + destruct Hfile as (s & -> & Hs & _). rewrite lookup_insert_eq.
      exists ({[z]} ∪ s). split; [done|]. split; [|by exists z].
      intros z'. rewrite has_dim_by_snoc, elem_of_union, elem_of_singleton, Hs.
      split; [intros [->|?]; [right|left]; done|].
      intros [?|(_ & _ & Hd)]; [by right|left; congruence].
    + rewrite lookup_insert_eq.
      exists ({[z]} ∪ ∅). split; [done|]. split; [|by exists z].
      intros z'. rewrite has_dim_by_snoc, elem_of_union, elem_of_singleton.
      split.
      * intros [->|Hin]; [by right|]. by apply not_elem_of_empty in Hin.
      * intros [H|(_ & _ & Hd)]; [by apply Hfile in H|left; congruence].
  - assert (Hsame : ∀ z', has_dim_by ok (done ++ [file]) name z'
                          ↔ has_dim_by ok done name z').
    { intros z'. rewrite has_dim_by_snoc. split; [|by left].
      intros [H|(_ & Hn & _)]; [done|congruence]. }
    assert (Hlook : ∀ v, (<[sampler_name file := v]> samplers) !! name = samplers !! name)
      by (intros v; by apply lookup_insert_ne).
    specialize (Hinv name).
    destruct (samplers !! sampler_name file) as [[s|l]|] eqn:Hv; rewrite ?Hlook.
    all: destruct (samplers !! name) as [v|];
      [destruct Hinv as (s' & -> & Hs' & z0 & Hz0); exists s'; split; [done|];
       split; [intros z'; by rewrite Hsame|exists z0; by apply Hsame]
      |intros z'; by rewrite Hsame].
Qed.

Lemma scanned_foldl (w : world) (dir : string) (files done : list string)
    (samplers : gmap string dims) :
  scanned (λ file, passes_test w (os.join dir file)) done samplers →
  scanned (λ file, passes_test w (os.join dir file)) (done ++ files)
          (foldl (scan_step w dir) samplers files).
Proof.
  revert done samplers. induction files as [|file files IH]; intros done samplers Hinv.
  - by rewrite app_nil_r.
  - cbn [foldl]. replace (done ++ file :: files) with ((done ++ [file]) ++ files)
      by (by rewrite <- app_assoc).
    apply IH. unfold scan_step.
    destruct (passes_test w (os.join dir file)) eqn:Hok;
      [|apply scanned_skip; [by left|done]].
    destruct (sampler_dim file) as [z|] eqn:Hdim;
      [|apply scanned_skip; [by right|done]].
    by apply (scanned_add (λ file, passes_test w (os.join dir file))).
Qed.

Lemma scanned_empty (ok : string → bool) : scanned ok [] ∅.
Proof.
  intros name. rewrite lookup_empty. intros z (f & Hf & _).
  by apply not_elem_of_nil in Hf.
Qed.

(** *** The loop that sorts *)

(** A loop [for name in d: op(d[name])] over the keys of a dictionary
    whose values all satisfy [P], when [op] turns such a value [v] into
    [f v]. *)
Lemma for_each_item {V} (op : ST V unit) (f : V → V) (P : V → Prop)
    (names : list string) (d : gmap string V) :
  (∀ v, P v → op v = (Ok tt, f v)) →
  NoDup names →
  (∀ name, name ∈ names → ∃ v, d !! name = Some v ∧ P v) →
  ∃ d', for_each names (λ name, at_item name op) d = (Ok tt, d') ∧
        ∀ name, d' !! name = if decide (name ∈ names) then f <$> d !! name
                             else d !! name.
Proof.
  intros Hop Hnd. revert d.
  induction Hnd as [|k names Hk Hnd IH]; intros d Hdom.
  - exists d. split; [reflexivity|]. intros name.
    by rewrite decide_False by apply not_elem_of_nil.
  - destruct (Hdom k) as (v & Hv & HP); [by left|].
    destruct (IH (<[k := f v]> d)) as (d' & Hrun & Hlook).
    { intros name Hin. assert (name ≠ k) by (by intros ->).
      rewrite lookup_insert_ne by done. apply Hdom. by right. }
    exists d'. split.
    + cbn [for_each]. erewrite run_bind_ok; [exact Hrun|].
      unfold at_item. by rewrite Hv, (Hop v HP).
    + intros name. rewrite Hlook.
      destruct (decide (name = k)) as [->|Hne].
      * rewrite decide_False by done. rewrite decide_True by left.
        by rewrite lookup_insert_eq, Hv.
      * rewrite lookup_insert_ne by done.
        destruct (decide (name ∈ names)) as [Hin|Hnin].
        -- by rewrite decide_True by (by right).
        -- rewrite decide_False; [done|]. by intros [?|?]%elem_of_cons.
Qed.

Lemma for_each_key {V} (op : ST V unit) (f : V → V) (P : V → Prop)
    (d : gmap string V) :
  (∀ v, P v → op v = (Ok tt, f v)) →
  (∀ name v, d !! name = Some v → P v) →
  for_each (map_to_list d).*1 (λ name, at_item name op) d = (Ok tt, f <$> d).
Proof.
  intros Hop HP.
  destruct (for_each_item op f P (map_to_list d).*1 d Hop) as (d' & Hrun & Hlook).
  - apply NoDup_fst_map_to_list.
  - intros name [[k v] [-> Hin]]%list_elem_of_fmap.
    apply elem_of_map_to_list in Hin. eauto.
  - rewrite Hrun. f_equal. apply map_eq. intros name.
    rewrite Hlook, lookup_fmap. destruct (decide _) as [|Hnin]; [done|].
    destruct (d !! name) as [v|] eqn:Hv; [|done].
    exfalso. apply Hnin. apply list_elem_of_fmap. exists (name, v).
    split; [done|]. by apply elem_of_map_to_list.
Qed.

Lemma sort_all (samplers : gmap string dims) :
  for_each (map_to_list samplers).*1 (λ name, at_item name (sort_entry false)) samplers
  = (Ok tt, sorted <$> samplers).
Proof. by apply (for_each_key (sort_entry false) sorted (λ _, True)). Qed.

Lemma listdir_dir (dir : string) (x : bool) (files : list string) (w : world) :
  fs w !! dir = Some (NDir x files) → os.listdir dir w = (Ok files, w).
Proof.
  intros H. unfold os.listdir. erewrite run_bind_ok by reflexivity.
  cbn [fs]. by rewrite H.
Qed.

(** [get_samplers(False)] scans the listing, then sorts every value. *)
Lemma get_samplers_merged (x : bool) (files : list string) (w : world) :
  fs w !! os.join (__UTK__DIR__ (cfg w)) "samplers" = Some (NDir x files) →
  get_samplers false w
  = (Ok (sorted <$> foldl (scan_step w (os.join (__UTK__DIR__ (cfg w)) "samplers"))
                          ∅ files), w).
Proof.
  intros Hdir. unfold get_samplers.
  erewrite run_bind_ok by apply get_samplers_dir_run.
  erewrite run_bind_ok by (by eapply listdir_dir).
  erewrite run_bind_ok by apply scan_merged.
  change (entry false) with dims. by rewrite sort_all.
Qed.

(** What [sorted] makes of a set. *)
Lemma sorted_set (s : gset Z) :
  ∃ l, sorted (DSet s) = DList l ∧ Sorted Z.le l ∧ NoDup l ∧ ∀ z, z ∈ l ↔ z ∈ s.
Proof.
  exists (merge_sort Z.le (elements s)). split; [reflexivity|].
  split; [apply Sorted_merge_sort, _|]. split.
  - rewrite merge_sort_Permutation. apply NoDup_elements.
  - intros z. by rewrite merge_sort_Permutation, elem_of_elements.
Qed.

(** *** The path of an entry *)

Lemma endswith_slash_samplers (a : string) :
  PyStr.endswith "/" (a +:+ "samplers") = false.
Proof.
  induction a as [|c a IH]; [reflexivity|].
  rewrite app_cons. cbn [PyStr.endswith]. rewrite IH, orb_false_r.
  apply bool_decide_eq_false. intros [= _ H]. by destruct a.
Qed.

Lemma join_samplers (a : string) :
  ∃ pre, os.join a "samplers" = pre +:+ "samplers".
Proof.
  unfold os.join. cbn [String.prefix].
  destruct (ascii_dec "/" "s") as [?|_]; [done|].
  destruct (bool_decide (a = "") || PyStr.endswith "/" a).
  - by exists a.
  - exists (a +:+ "/"). by rewrite app_assoc_str.
Qed.

Lemma prefix_contains (pat s : string) :
  PyStr.contains pat s = false → String.prefix pat s = false.
Proof. destruct s; cbn [PyStr.contains]; by intros [? _]%orb_false_iff. Qed.

Lemma join_plain (a file : string) :
  plain_name file = true →
  os.join (os.join a "samplers") file = os.join a "samplers" +:+ "/" +:+ file.
Proof.
  unfold plain_name. rewrite negb_true_iff. intros Hfile%prefix_contains.
  destruct (join_samplers a) as [pre ->].
  unfold os.join at 1. rewrite Hfile, endswith_slash_samplers, orb_false_r.
  rewrite bool_decide_false; [done|]. by destruct pre.
Qed.

Lemma prefix_empty (s : string) : String.prefix "" s = true.
Proof. by destruct s. Qed.

(** A pattern of two characters, neither a slash, is found in
    [dir/file] when it is found in [dir] or in [file]. *)
Lemma contains_join (a b : ascii) (dir file : string) :
  a ≠ "/"%char → b ≠ "/"%char →
  PyStr.contains (String a (String b "")) (dir +:+ "/" +:+ file)
  = PyStr.contains (String a (String b "")) dir
    || PyStr.contains (String a (String b "")) file.
Proof.
  intros Ha Hb. induction dir as [|c dir IH].
  - rewrite app_empty_l.
    change ("/" +:+ file) with (String "/" file).
    cbn [PyStr.contains String.prefix].
    destruct (ascii_dec a "/") as [?|_]; [done|]. reflexivity.
  - rewrite app_cons. cbn [PyStr.contains]. rewrite IH, orb_assoc. f_equal. f_equal.
    cbn [String.prefix]. destruct (ascii_dec a c) as [_|_]; [|done].
    destruct dir as [|c' dir].
    + rewrite app_empty_l. change ("/" +:+ file) with (String "/" file).
      cbn [String.prefix]. by destruct (ascii_dec b "/").
    + rewrite app_cons. cbn [String.prefix]. destruct (ascii_dec b c'); [|done].
      by rewrite !prefix_empty.
Qed.

Lemma passes_test_qualifies (a file : string) (w : world) :
  plain_name file = true →
  PyStr.contains "dd" (os.join a "samplers") = false →
  PyStr.contains "di" (os.join a "samplers") = false →
  passes_test w (os.join (os.join a "samplers") file)
  = qualifies w (os.join a "samplers") file.
Proof.
  intros Hfile Hdd Hdi. unfold passes_test, qualifies.
  rewrite join_plain by done.
  rewrite (contains_join "d" "d"), (contains_join "d" "i") by done.
  by rewrite Hdd, Hdi.
Qed.

Lemma has_dim_by_ext (ok1 ok2 : string → bool) (files : list string) (name : string)
    (z : Z) :
  Forall (λ file, ok1 file = ok2 file) files →
  has_dim_by ok1 files name z ↔ has_dim_by ok2 files name z.
Proof.
  intros Heq. unfold has_dim_by.
  split; intros (f & Hf & Hok & H); exists f; (split; [done|]); (split; [|done]).
  all: pose proof (proj1 (Forall_forall _ _) Heq f Hf) as E; cbn in E; congruence.
Qed.

(** C1, as the code has it.  When the path of the samplers directory
    holds neither ["dd"] nor ["di"], the keys of [get_samplers(False)]
    are the names of the entries that are executable, are not
    directories, have ["dd"] or ["di"] in their name and whose dimension
    reads as an integer; the value under a name is the list of the
    dimensions of those entries, in increasing order and without
    repetition. *)
Theorem get_samplers_merged_spec (x : bool) (files : list string) (w : world) :
  fs w !! os.join (__UTK__DIR__ (cfg w)) "samplers" = Some (NDir x files) →
  Forall (λ file, plain_name file = true) files →
  PyStr.contains "dd" (os.join (__UTK__DIR__ (cfg w)) "samplers") = false →
  PyStr.contains "di" (os.join (__UTK__DIR__ (cfg w)) "samplers") = false →
  ∃ samplers,
    get_samplers false w = (Ok samplers, w) ∧
    (∀ name,
       name ∈ dom samplers ↔
       ∃ z, has_dim w (os.join (__UTK__DIR__ (cfg w)) "samplers") files name z) ∧
    (∀ name v,
       samplers !! name = Some v →
       ∃ l, v = DList l ∧ Sorted Z.le l ∧ NoDup l ∧
            ∀ z, z ∈ l ↔
                 has_dim w (os.join (__UTK__DIR__ (cfg w)) "samplers") files name z).
Proof.
  intros Hdir Hplain Hdd Hdi.
  set (dir := os.join (__UTK__DIR__ (cfg w)) "samplers") in *.
  pose proof (scanned_foldl w dir files [] ∅ (scanned_empty _)) as Hinv.
  rewrite app_nil_l in Hinv.
  assert (Hext : ∀ name z,
            has_dim_by (λ file, passes_test w (os.join dir file)) files name z
            ↔ has_dim w dir files name z).
  { intros name z. apply has_dim_by_ext.
    eapply Forall_impl; [exact Hplain|]. intros file Hfile. cbn.
    by apply passes_test_qualifies. }
  exists (sorted <$> foldl (scan_step w dir) ∅ files).
  split; [exact (get_samplers_merged x files w Hdir)|]. split.
  - intros name. rewrite elem_of_dom, lookup_fmap. specialize (Hinv name).
    destruct (foldl (scan_step w dir) ∅ files !! name) as [v|].
    + destruct Hinv as (s & -> & _ & z0 & Hz0). split; [|intros _; cbn; eauto].
      intros _. exists z0. by apply Hext.
    + split; [by intros [? ?]|]. intros [z Hz]. by apply Hext, Hinv in Hz.
  - intros name v. rewrite lookup_fmap. specialize (Hinv name).
    destruct (foldl (scan_step w dir) ∅ files !! name) as [v0|]; [|done].
    destruct Hinv as (s & -> & Hs & _). intros [= <-].
    destruct (sorted_set s) as (l & Hl & Hsorted & Hnd & Hin).
    exists l. split; [done|]. split; [done|]. split; [done|].
    intros z. by rewrite Hin, Hs, Hext.
Qed.

Lemma get_samplers_merged_spec_witness :
  ∃ samplers,
    get_samplers false samplers_world = (Ok samplers, samplers_world) ∧
    (∀ name,
       name ∈ dom samplers ↔
       ∃ z, has_dim samplers_world "samplers"
              ["foo_2dd"; "foo_3dd"; "foo_3di"; "list_dir"] name z) ∧
    (∀ name v,
       samplers !! name = Some v →
       ∃ l, v = DList l ∧ Sorted Z.le l ∧ NoDup l ∧
            ∀ z, z ∈ l ↔
                 has_dim samplers_world "samplers"
                   ["foo_2dd"; "foo_3dd"; "foo_3di"; "list_dir"] name z).
Proof.
  apply (get_samplers_merged_spec true ["foo_2dd"; "foo_3dd"; "foo_3di"; "list_dir"]
           samplers_world).
  - reflexivity.
  - repeat constructor.
  - reflexivity.
  - reflexivity.
Defined.

(** The example of the specification: a directory with the executables
    [foo_2dd] and [foo_3dd] gives [{"foo": [2, 3]}]. *)
Example get_samplers_foo :
  get_samplers false foo_world = (Ok {[ "foo" := DList [2; 3] ]}, foo_world).
Proof. vm_compute. reflexivity. Qed.

(** C1 as stated fails on an entry whose dimension does not read as an
    integer: [list_dir] is executable, is not a directory and has ["di"]
    in its name, its name before the last underscore is [list], and
    [list] is not a key of the result. *)
Lemma unparsed_entry_is_skipped :
  "list_dir" ∈ ["foo_2dd"; "foo_3dd"; "foo_3di"; "list_dir"] ∧
  fs samplers_world !! "samplers"
  = Some (NDir true ["foo_2dd"; "foo_3dd"; "foo_3di"; "list_dir"]) ∧
  qualifies samplers_world "samplers" "list_dir" = true ∧
  sampler_name "list_dir" = "list" ∧
  get_samplers false samplers_world
  = (Ok {[ "foo" := DList [2; 3] ]}, samplers_world) ∧
  ({[ "foo" := DList [2; 3] ]} : gmap string dims) !! "list" = None.
Proof.
  split; [set_solver|]. repeat split; vm_compute; reflexivity.
Qed.

(** The test is made on the path, not on the name: under [/opt/dist]
    every executable passes it, whatever its name. *)
Example directory_name_counts :
  PyStr.contains "dd" "tool_3xx" || PyStr.contains "di" "tool_3xx" = false ∧
  get_samplers false dist_world = (Ok {[ "tool" := DList [3] ]}, dist_world).
Proof. split; vm_compute; reflexivity. Qed.

(** A dimension written after the separator character 28 does not read
    as an integer: the entry is skipped, in both modes. *)
Example separator_not_discovered :
  sampler_dim ("foo_" +:+ String "028" "4dd") = None ∧
  get_samplers false separator_world = (Ok ∅, separator_world) ∧
  get_samplers true separator_world = (Ok ∅, separator_world).
Proof. repeat split; vm_compute; reflexivity. Qed.

(** ** Discovery, with [split_i_d] true, on any directory *)

(** Whatever the tokens of the file name, the collections under ["d"] and
    ["i"] are created and stay empty: [append] is not a method of a
    set. *)
Lemma record_split_unfilled (sampler_info : list string) (dim : Z)
    (d : gmap string dims) :
  d = ∅ ∨ d = unfilled →
  snd (record_split sampler_info dim d) = unfilled.
Proof.
  unfold record_split, list_item.
  intros [->| ->]; destruct (sampler_info !! 1%nat) as [tok|];
    try (vm_compute; reflexivity).
  all: unfold mbind, ST_bind, bind, lift, get_state, put_state, mret, ST_ret, ret.
  all: cbn [bool_decide decide_rel]; destruct (PyStr.endswith "dd" tok);
    destruct (PyStr.endswith "di" tok); vm_compute; reflexivity.
Qed.

Lemma at_item_state {V A} (k : string) (op : ST V A) (d : gmap string V) (v : V) :
  d !! k = Some v → snd (at_item k op d) = <[k := snd (op v)]> d.
Proof. intros H. unfold at_item. rewrite H. by destruct (op v). Qed.

Lemma all_are_insert (e : gmap string dims) (name : string)
    (samplers : gmap string (gmap string dims)) :
  all_are e samplers → all_are e (<[name := e]> samplers).
Proof.
  intros Hall k e'. destruct (decide (k = name)) as [->|Hne].
  - rewrite lookup_insert_eq. congruence.
  - rewrite lookup_insert_ne by done. apply Hall.
Qed.

Lemma snd_try_pass {S} (m : ST S unit) (s : S) : snd (try_pass m s) = snd (m s).
Proof. unfold try_pass. by destruct (m s) as [[[]|e] s']. Qed.

Lemma snd_bind {S A B} (m : ST S A) (k : A → ST S B) (s : S) :
  snd ((m ≫= k) s) = match m s with
                     | (Ok a, s') => snd (k a s')
                     | (Raise _, s') => s'
                     end.
Proof. rewrite run_bind. by destruct (m s) as [[a|e] s']. Qed.

Lemma try_body_split (sampler_info : list string) (sampler_name : string)
    (samplers : gmap string (gmap string dims)) :
  all_are unfilled samplers →
  all_are unfilled
    (snd (try_pass (try_body true sampler_info sampler_name) samplers)).
Proof.
  intros Hall. rewrite snd_try_pass. unfold try_body.
  change (entry true) with (gmap string dims).
  rewrite snd_bind. unfold lift at 1.
  destruct (list_last sampler_info) as [tok|e]; [|exact Hall].
  rewrite snd_bind. unfold lift at 1.
  destruct (int_of_str (PyStr.drop_last 2 tok)) as [dim|e]; [|exact Hall].
  rewrite snd_bind. cbn [get_state]. rewrite snd_bind.
  destruct (samplers !! sampler_name) as [e|] eqn:He.
  - rewrite bool_decide_false by congruence. cbn [mret ST_ret ret].
    unfold record_dim.
    rewrite (at_item_state _ _ _ e He), (record_split_unfilled _ _ e)
      by (right; by eapply Hall).
    by apply all_are_insert.
  - rewrite bool_decide_true by done. cbn [put_state new_entry]. unfold record_dim.
    rewrite (at_item_state _ _ _ ∅) by apply lookup_insert_eq.
    rewrite (record_split_unfilled _ _ ∅) by (by left).
    rewrite insert_insert_eq. by apply all_are_insert.
Qed.

Lemma scan_file_split (file : string) (samplers : gmap string (gmap string dims))
    (w : world) :
  all_are unfilled samplers →
  ∃ samplers', scan_file true file samplers w = (Ok samplers', w) ∧
               all_are unfilled samplers'.
Proof.
  intros Hall. unfold scan_file.
  erewrite run_bind_ok by apply get_samplers_dir_run.
  erewrite run_bind_ok by apply is_sampler_run.
  destruct (passes_test w _).
  - eexists. split; [reflexivity|]. by apply try_body_split.
  - by exists samplers.
Qed.

Lemma scan_split (files : list string) (samplers : gmap string (gmap string dims))
    (w : world) :
  all_are unfilled samplers →
  ∃ samplers', scan true files samplers w = (Ok samplers', w) ∧
               all_are unfilled samplers'.
Proof.
  revert samplers. induction files as [|file files IH]; intros samplers Hall.
  - by exists samplers.
  - destruct (scan_file_split file samplers w Hall) as (s1 & Hrun & H1).
    destruct (IH s1 H1) as (s2 & Hrun2 & H2).
    exists s2. split; [|done]. cbn [scan]. by erewrite run_bind_ok by exact Hrun.
Qed.

(** On every directory [get_samplers(True)] returns, for each name it
    found, empty collections: an empty list under ["d"] and an empty set
    under ["i"]. *)
Lemma get_samplers_split_empty (x : bool) (files : list string) (w : world) :
  fs w !! os.join (__UTK__DIR__ (cfg w)) "samplers" = Some (NDir x files) →
  ∃ samplers, get_samplers true w = (Ok samplers, w) ∧ all_are half_sorted samplers.
Proof.
  intros Hdir. unfold get_samplers.
  erewrite run_bind_ok by apply get_samplers_dir_run.
  erewrite run_bind_ok by (by eapply listdir_dir).
  destruct (scan_split files ∅ w) as (s1 & Hrun & H1).
  { intros name e. by rewrite lookup_empty. }
  erewrite run_bind_ok by exact Hrun.
  change (entry true) with (gmap string dims) in *.
  rewrite (for_each_key (sort_entry true) (λ _, half_sorted) (λ e, e = unfilled)).
  - eexists. split; [reflexivity|]. intros name e. rewrite lookup_fmap.
    change (entry true) with (gmap string dims).
    destruct (s1 !! name); [|done]. intros H. by injection H.
  - intros v ->. vm_compute. reflexivity.
  - exact H1.
Qed.

(** * Further properties *)

(** ** Reading point files: sizes that do not match *)

Lemma set_row_stored (d : nat) (done rest : list (list Z)) (old coords : list Z) :
  set_row d (length done) coords (done ++ old :: rest)
  = match stored d coords with
    | Ok r => Ok (done ++ r :: rest)
    | Raise e => Raise e
    end.
Proof.
  unfold set_row, stored.
  rewrite bool_decide_false by (rewrite length_app; cbn; lia).
  assert (Hins : ∀ r, <[length done := r]> (done ++ old :: rest) = done ++ r :: rest).
  { intros r. rewrite insert_app_r_alt by lia. by rewrite Nat.sub_diag. }
  destruct (bool_decide (length coords = d)); [by rewrite Hins|].
  destruct coords as [|c [|c' coords]]; by rewrite ?Hins.
Qed.

Section read_text_sizes.
Variable np_str : Z → string.
Variable np_double : string → option Z.
Variable np_garbage : nat → nat → Z.

(** The loop over lines that parse. *)
Lemma read_text_loop_fill (n d : nat) (rows done points : list (list Z)) :
  Forall (λ row, row ≠ []) rows →
  Forall (Forall (prints_well np_str np_double)) rows →
  read_text_loop np_double (PointReader_init n d None) (length done)
    (line_of np_str <$> rows) (done ++ points)
  = match fill d rows points with
    | Ok l => Ok (done ++ l)
    | Raise e => Raise e
    end.
Proof.
  revert done points.
  induction rows as [|row rows IH]; intros done points Hne Hgood; [reflexivity|].
  apply Forall_cons in Hne as [Hrow Hne].
  apply Forall_cons in Hgood as [Hgrow Hgood].
  cbn [fmap list_fmap read_text_loop PointReader_init pr_sep pr_d default fill].
  unfold py_split. rewrite bool_decide_false by done.
  rewrite (fields_of_line np_str np_double) by done.
  rewrite (map_result_parse np_str np_double) by done.
  destruct points as [|old points].
  - rewrite app_nil_r. unfold set_row. by rewrite bool_decide_true by lia.
  - rewrite set_row_stored. destruct (stored d row) as [r|e]; [|reflexivity].
    replace (S (length done)) with (length (done ++ [r]))
      by (rewrite length_app; cbn; lia).
    replace (done ++ r :: points) with ((done ++ [r]) ++ points)
      by (by rewrite <- app_assoc).
    change (list_fmap (list Z) string (line_of np_str) rows)
      with (line_of np_str <$> rows).
    rewrite (IH (done ++ [r]) points) by done.
    destruct (fill d rows points); [|reflexivity]. by rewrite <- app_assoc.
Qed.

Lemma read_text_fill (p : string) (x : bool) (n d : nat) (rows : list (list Z))
    (w : world) :
  Forall (λ row, row ≠ []) rows →
  Forall (Forall (prints_well np_str np_double)) rows →
  fs w !! p = Some (NFile x (render np_str (String "009" "") rows)) →
  PointReader_read_text np_double np_garbage (PointReader_init n d None) p w
  = (fill d rows (np_empty np_garbage n d), w).
Proof.
  intros Hne Hgood Hp. unfold PointReader_read_text, open_read.
  erewrite run_bind_ok by (by eapply file_data_file).
  rewrite (readlines_render np_str np_double) by done.
  pose proof (read_text_loop_fill n d rows [] (np_empty np_garbage n d) Hne Hgood) as H.
  cbn [length app] in H. cbn [PointReader_init pr_n pr_d]. unfold lift.
  rewrite H. by destruct (fill d rows (np_empty np_garbage n d)).
Qed.

Lemma fill_full_rows (d : nat) (rows points : list (list Z)) :
  Forall (λ row, length row = d) rows →
  fill d rows points
  = if bool_decide (length rows ≤ length points)%nat
    then Ok (rows ++ drop (length rows) points)
    else Raise IndexError.
Proof.
  revert points. induction rows as [|row rows IH]; intros points Hshape.
  - cbn [fill length]. by rewrite bool_decide_true by lia.
  - apply Forall_cons in Hshape as [Hrow Hshape]. cbn [fill].
    destruct points as [|old points].
    + by rewrite bool_decide_false by (cbn; lia).
    + unfold stored. rewrite bool_decide_true by done. rewrite IH by done.
      cbn [length drop].
      destruct (bool_decide (length rows ≤ length points)%nat) eqn:E.
      * apply bool_decide_eq_true in E. by rewrite bool_decide_true by lia.
      * apply bool_decide_eq_false in E. by rewrite bool_decide_false by lia.
Qed.

Lemma rows_not_empty (d : nat) (rows : list (list Z)) :
  (0 < d)%nat → Forall (λ row, length row = d) rows → Forall (λ row, row ≠ []) rows.
Proof.
  intros Hd H. eapply Forall_impl; [exact H|]. intros row Hrow ->. cbn in Hrow. lia.
Qed.

(** A text file with fewer points than [n] is read without error: the
    rows that no line fills keep what [np.empty] left in them. *)
Theorem read_text_fewer_lines (p : string) (x : bool) (n d : nat)
    (rows : list (list Z)) (w : world) :
  (0 < d)%nat → (length rows ≤ n)%nat →
  Forall (λ row, length row = d) rows →
  Forall (Forall (prints_well np_str np_double)) rows →
  fs w !! p = Some (NFile x (render np_str (String "009" "") rows)) →
  PointReader_read_text np_double np_garbage (PointReader_init n d None) p w
  = (Ok (rows ++ drop (length rows) (np_empty np_garbage n d)), w).
Proof.
  intros Hd Hn Hshape Hgood Hp.
  rewrite (read_text_fill p x n d rows) by (done || by eapply rows_not_empty).
  rewrite fill_full_rows, length_np_empty, bool_decide_true by done. reflexivity.
Qed.

(** A text file with more points than [n] is an [IndexError]. *)
Theorem read_text_more_lines (p : string) (x : bool) (n d : nat)
    (rows : list (list Z)) (w : world) :
  (0 < d)%nat → (n < length rows)%nat →
  Forall (λ row, length row = d) rows →
  Forall (Forall (prints_well np_str np_double)) rows →
  fs w !! p = Some (NFile x (render np_str (String "009" "") rows)) →
  PointReader_read_text np_double np_garbage (PointReader_init n d None) p w
  = (Raise IndexError, w).
Proof.
  intros Hd Hn Hshape Hgood Hp.
  rewrite (read_text_fill p x n d rows) by (done || by eapply rows_not_empty).
  rewrite fill_full_rows, length_np_empty, bool_decide_false by (done || lia).
  reflexivity.
Qed.

Lemma fill_single_values (d : nat) (values : list Z) (points : list (list Z)) :
  length points = length values →
  fill d ((λ v, [v]) <$> values) points = Ok (replicate d <$> values).
Proof.
  revert points. induction values as [|v values IH]; intros points Hlen.
  - by destruct points.
  - destruct points as [|old points]; [discriminate|].
    cbn [fmap list_fmap fill].
    change (list_fmap Z (list Z) (λ v, [v]) values) with ((λ v, [v]) <$> values).
    rewrite IH by (cbn in Hlen; lia).
    unfold stored. destruct (bool_decide (length [v] = d)) eqn:E; [|reflexivity].
    apply bool_decide_eq_true in E. by rewrite <- E.
Qed.

(** A line that holds a single value fills its whole row with it,
    whatever the number of columns. *)
Theorem read_text_broadcast (p : string) (x : bool) (d : nat) (values : list Z)
    (w : world) :
  Forall (prints_well np_str np_double) values →
  fs w !! p = Some (NFile x (render np_str (String "009" "") ((λ v, [v]) <$> values))) →
  PointReader_read_text np_double np_garbage
    (PointReader_init (length values) d None) p w
  = (Ok (replicate d <$> values), w).
Proof.
  intros Hgood Hp.
  rewrite (read_text_fill p x (length values) d ((λ v, [v]) <$> values)); [| | |done].
  - by rewrite fill_single_values by apply length_np_empty.
  - apply Forall_fmap. by apply Forall_true.
  - apply Forall_fmap. eapply Forall_impl; [exact Hgood|]. intros v Hv. by constructor.
Qed.

Lemma fill_bad_row (d : nat) (rows rest points : list (list Z)) (bad : list Z) :
  Forall (λ row, length row = d) rows →
  (length rows < length points)%nat →
  length bad ≠ d → length bad ≠ 1%nat →
  fill d (rows ++ bad :: rest) points = Raise ValueError.
Proof.
  intros Hshape. revert points.
  induction Hshape as [|row rows Hrow _ IH]; intros points Hlen Hd H1.
  - destruct points as [|old points]; [cbn in Hlen; lia|].
    cbn [app fill]. unfold stored. rewrite bool_decide_false by done.
    destruct bad as [|b [|b' bad]]; done.
  - destruct points as [|old points]; [cbn in Hlen; lia|].
    cbn [app fill]. unfold stored at 1. rewrite bool_decide_true by done.
    rewrite IH by (done || cbn in Hlen; lia). reflexivity.
Qed.

(** A line whose number of values is neither [d] nor one is a
    [ValueError], when the lines before it are full and a row is left for
    it. *)
Theorem read_text_ragged_line (p : string) (x : bool) (n d : nat)
    (rows rest : list (list Z)) (bad : list Z) (w : world) :
  (0 < d)%nat → (length rows < n)%nat →
  Forall (λ row, length row = d) rows →
  bad ≠ [] → length bad ≠ d → length bad ≠ 1%nat →
  Forall (λ row, row ≠ []) rest →
  Forall (Forall (prints_well np_str np_double)) (rows ++ bad :: rest) →
  fs w !! p = Some (NFile x (render np_str (String "009" "") (rows ++ bad :: rest))) →
  PointReader_read_text np_double np_garbage (PointReader_init n d None) p w
  = (Raise ValueError, w).
Proof.
  intros Hd Hn Hshape Hbad Hbd Hb1 Hrest Hgood Hp.
  rewrite (read_text_fill p x n d (rows ++ bad :: rest)); [| |done..].
  - by rewrite fill_bad_row by (done || by rewrite length_np_empty).
  - apply Forall_app. split; [by eapply rows_not_empty|by constructor].
Qed.
End read_text_sizes.

(** ** A file with two point sets *)

Lemma universal_newlines_app (s t : string) :
  all_chars not_cr s = true →
  universal_newlines (s +:+ t) = s +:+ universal_newlines t.
Proof.
  induction s as [|c s IH]; [reflexivity|]. cbn [all_chars].
  unfold not_cr at 1. rewrite andb_true_iff, negb_true_iff. intros [Hc Hs].
  rewrite !app_cons. cbn [universal_newlines]. by rewrite Hc, IH.
Qed.

Lemma read_text_loop_app (np_double : string → option Z) (self : PointReader)
    (lines1 lines2 : list string) (i : nat) (points : list (list Z)) :
  read_text_loop np_double self i (lines1 ++ lines2) points
  = match read_text_loop np_double self i lines1 points with
    | Ok points' => read_text_loop np_double self (i + length lines1) lines2 points'
    | Raise e => Raise e
    end.
Proof.
  revert i points. induction lines1 as [|line lines1 IH]; intros i points.
  - cbn [app read_text_loop length]. by rewrite Nat.add_0_r.
  - cbn [app read_text_loop length].
    destruct (py_split _ _) as [fields|e]; [|reflexivity].
    destruct (map_result _ fields) as [coords|e]; [|reflexivity].
    destruct (set_row _ i coords points) as [points'|e]; [|reflexivity].
    rewrite IH. by replace (S i + length lines1)%nat with (i + S (length lines1))%nat by lia.
Qed.

Section two_sets.
Variable np_str : Z → string.
Variable np_double : string → option Z.
Variable np_garbage : nat → nat → Z.

Lemma lines_render_app (rows : list (list Z)) (text : string) :
  Forall (Forall (prints_well np_str np_double)) rows →
  lines_go "" (render np_str (String "009" "") rows +:+ text)
  = (line_of np_str <$> rows) ++ lines_go "" text.
Proof.
  induction 1 as [|row rows Hrow _ IH]; [reflexivity|].
  cbn [render fmap list_fmap app]. rewrite !app_assoc_str.
  change (String "010" "" +:+ render np_str (String "009" "") rows +:+ text)
    with (String "010" (render np_str (String "009" "") rows +:+ text)).
  rewrite lines_go_line
    by (apply (line_chars np_str np_double); [apply not_space_not_lf|done..]).
  rewrite app_empty_l. unfold line_of at 1. f_equal. exact IH.
Qed.

(** The sentinel line is not a number. *)
Lemma read_text_sentinel (p : string) (x : bool) (n d : nat)
    (first : list (list Z)) (text : string) (w : world) :
  np_double "#" = None →
  (0 < d)%nat → (length first ≤ n)%nat →
  Forall (λ row, length row = d) first →
  Forall (Forall (prints_well np_str np_double)) first →
  fs w !! p = Some (NFile x (render np_str (String "009" "") first
                             +:+ "#" +:+ String "010" "" +:+ text)) →
  PointReader_read_text np_double np_garbage (PointReader_init n d None) p w
  = (Raise ValueError, w).
Proof.
  intros Hsharp Hd Hn Hshape Hgood Hp. unfold PointReader_read_text, open_read.
  erewrite run_bind_ok by (by eapply file_data_file).
  unfold readlines.
  rewrite universal_newlines_app
    by (apply (render_chars np_str np_double); [apply not_space_not_cr|done..]).
  rewrite lines_render_app by done.
  change (universal_newlines ("#" +:+ String "010" "" +:+ text))
    with (String "#" (String "010" (universal_newlines text))).
  change (lines_go "" (String "#" (String "010" (universal_newlines text))))
    with (String "#" (String "010" "") :: lines_go "" (universal_newlines text)).
  rewrite read_text_loop_app.
  pose proof (read_text_loop_fill np_str np_double n d first [] (np_empty np_garbage n d))
    as H.
  cbn [length app] in H. cbn [PointReader_init pr_n pr_d].
  rewrite H by (done || by eapply rows_not_empty).
  rewrite fill_full_rows, length_np_empty, bool_decide_true by done.
  cbn [read_text_loop pr_sep PointReader_init default].
  unfold py_split. rewrite bool_decide_false by done.
  change (PyStr.split (String "009" "") (PyStr.strip (String "#" (String "010" ""))))
    with ["#"].
  cbn [map_result]. unfold parse_double. by rewrite Hsharp.
Qed.

(** Two point sets written in a row to an empty file, the first with at
    least one point, cannot be read back as one point set once the
    writer is closed: a reader with room for the first set, [n] rows at
    least, fails on the sentinel line between them with a
    [ValueError]. *)
Theorem two_sets_not_read_back (p : string) (x : bool) (n d : nat)
    (first second : list (list Z)) (w : world) :
  np_double "#" = None →
  (0 < d)%nat → first ≠ [] → (length first ≤ n)%nat →
  Forall (λ row, length row = d) first →
  Forall (Forall (prints_well np_str np_double)) first →
  fs w !! p = Some (NFile x "") →
  fst (write_two_then_read np_str np_double np_garbage p n d first second w)
  = Raise ValueError.
Proof.
  intros Hsharp Hd Hne Hn Hshape Hgood Hp. unfold write_two_then_read.
  erewrite run_bind_ok by (by eapply init_on_empty_file).
  erewrite run_bind_ok by (by eapply (write_on_empty np_str p x)).
  destruct (render_ends_with_newline np_str (String "009" "") first Hne) as [body Hbody].
  cbn [pw_sep]. rewrite Hbody.
  erewrite run_bind_ok.
  2:{ apply (write_on_nonempty np_str p x _ second body "010"); [done|done|].
      apply put_data_lookup. }
  erewrite run_bind_ok by reflexivity.
  rewrite put_data_twice. cbn [as_read Ascii.eqb Bool.eqb reopened with_file pw_sep
                                 pw_pointset_sep].
  rewrite <- Hbody.
  match goal with |- context [put_data p x ?data w] => set (text := data) end.
  assert (Hfile : fs (put_data p x text w) !! p
                  = Some (NFile x (render np_str (String "009" "") first +:+ "#"
                                   +:+ String "010" ""
                                   +:+ render np_str (String "009" "") second))).
  { rewrite put_data_lookup. subst text. by rewrite app_empty_l. }
  by rewrite (read_text_sentinel p x n d first _ _ Hsharp Hd Hn Hshape Hgood Hfile).
Qed.
End two_sets.

(** ** Binary point files: sizes that do not match *)

Lemma be_words_tail (values : list Z) (tail : string) :
  Forall (λ v, 0 ≤ v < 2 ^ 64) values →
  be_words (length values) (be_doubles values +:+ tail) = values.
Proof.
  induction 1 as [|v values Hv _ IH]; [reflexivity|].
  cbn [be_doubles length be_words]. rewrite app_assoc_str.
  change (PyStr.take 8) with (PyStr.take (String.length (be_bytes v))).
  change (PyStr.drop 8) with (PyStr.drop (String.length (be_bytes v))).
  rewrite take_app_length, drop_app_length, be_word_be_bytes, IH by exact Hv.
  reflexivity.
Qed.

Lemma fromfile_tail (p header tail : string) (values : list Z) (x : bool) (w : world) :
  String.length header = 4%nat →
  (String.length tail < 8)%nat →
  Forall (λ v, 0 ≤ v < 2 ^ 64) values →
  fs w !! p = Some (NFile x (header +:+ be_doubles values +:+ tail)) →
  fromfile_be_double p 4 w = (Ok values, w).
Proof.
  intros Hh Ht Hv Hp. unfold fromfile_be_double, open_read.
  erewrite run_bind_ok by (by eapply file_data_file). unfold mret, ST_ret, ret.
  rewrite !length_app_str, length_be_doubles, Hh.
  assert ((Z.of_nat (4 + (8 * length values + String.length tail)) - Z.of_nat 4) ÷ 8
          = Z.of_nat (length values)) as ->.
  { replace (Z.of_nat (4 + (8 * length values + String.length tail)) - Z.of_nat 4)
      with (Z.of_nat (String.length tail) + Z.of_nat (length values) * 8) by lia.
    rewrite Z.quot_div_nonneg by lia.
    rewrite Z.div_add by lia. rewrite Z.div_small by lia. lia. }
  rewrite Nat2Z.id. rewrite <- Hh, drop_app_length. by rewrite be_words_tail.
Qed.

(** The bytes that follow the last whole double of a binary file are
    ignored: the file is read as if they were not there. *)
Theorem read_bin_trailing_bytes (self : PointReader) (p header tail : string)
    (values : list Z) (x : bool) (w : world) :
  String.length header = 4%nat →
  (String.length tail < 8)%nat →
  Forall (λ v, 0 ≤ v < 2 ^ 64) values →
  fs w !! p = Some (NFile x (header +:+ be_doubles values +:+ tail)) →
  fst (PointReader_read_bin self p w)
  = fst (PointReader_read_bin self p (put_data p x (header +:+ be_doubles values) w)).
Proof.
  intros Hh Ht Hv Hp. unfold PointReader_read_bin.
  erewrite run_bind_ok by (by eapply fromfile_tail).
  erewrite (run_bind_ok _ _ (put_data p x (header +:+ be_doubles values) w)
              (put_data p x (header +:+ be_doubles values) w)); [reflexivity|].
  apply (fromfile_tail p header "" values x
           (put_data p x (header +:+ be_doubles values) w)); [done|cbn; lia|done|].
  rewrite put_data_lookup. by rewrite app_empty_r.
Qed.

(** A binary file that does not hold [n * d] doubles is a [ValueError]. *)
Theorem read_bin_wrong_count (self : PointReader) (p header tail : string)
    (values : list Z) (x : bool) (w : world) :
  String.length header = 4%nat →
  (String.length tail < 8)%nat →
  Forall (λ v, 0 ≤ v < 2 ^ 64) values →
  length values ≠ (pr_n self * pr_d self)%nat →
  fs w !! p = Some (NFile x (header +:+ be_doubles values +:+ tail)) →
  PointReader_read_bin self p w = (Raise ValueError, w).
Proof.
  intros Hh Ht Hv Hlen Hp. unfold PointReader_read_bin.
  erewrite run_bind_ok by (by eapply fromfile_tail).
  unfold reshape. by rewrite bool_decide_false by done.
Qed.

(** ** Reading a file that is not there *)

Lemma file_data_missing (p : string) (w : world) :
  fs w !! p = None → file_data p w = (Raise (os.missing (fs w) p), w).
Proof. intros H. unfold file_data. rewrite run_bind. cbn. by rewrite H. Qed.

Lemma missing_plain (f : gmap string node) (p : string) :
  os.under_file f p = false → os.missing f p = FileNotFoundError.
Proof. unfold os.missing. by intros ->. Qed.

Lemma missing_under_file (f : gmap string node) (p : string) :
  os.under_file f p = true → os.missing f p = NotADirectoryError.
Proof. unfold os.missing. by intros ->. Qed.

Lemma read_missing (np_double : string → option Z) (np_garbage : nat → nat → Z)
    (self : PointReader) (p : string) (w : world) :
  fs w !! p = None →
  PointReader_read np_double np_garbage self p w = (Raise (os.missing (fs w) p), w).
Proof.
  intros H. unfold PointReader_read. destruct (bool_decide _);
    unfold PointReader_read_text, PointReader_read_bin, fromfile_be_double, open_read.
  - by erewrite run_bind_raise by (by apply file_data_missing).
  - erewrite run_bind_raise; [reflexivity|].
    by erewrite run_bind_raise by (by apply file_data_missing).
Qed.

Lemma file_data_dir (p : string) (x : bool) (l : list string) (w : world) :
  fs w !! p = Some (NDir x l) → file_data p w = (Raise IsADirectoryError, w).
Proof. intros H. unfold file_data. rewrite run_bind. cbn. by rewrite H. Qed.

(** Whatever the extension of the path, reading points from a path that
    names nothing is a [FileNotFoundError], or a [NotADirectoryError]
    when the path lies below a regular file, and reading from a
    directory is an [IsADirectoryError]; nothing is changed. *)
Theorem read_points_no_file (np_double : string → option Z) (np_garbage : nat → nat → Z)
    (self : PointReader) (p : string) (w : world) :
  (fs w !! p = None → os.under_file (fs w) p = false →
   PointReader_read np_double np_garbage self p w = (Raise FileNotFoundError, w)) ∧
  (fs w !! p = None → os.under_file (fs w) p = true →
   PointReader_read np_double np_garbage self p w = (Raise NotADirectoryError, w)) ∧
  (∀ x l, fs w !! p = Some (NDir x l) →
   PointReader_read np_double np_garbage self p w = (Raise IsADirectoryError, w)).
Proof.
  split; [|split].
  - intros H Hu. by rewrite read_missing, missing_plain.
  - intros H Hu. by rewrite read_missing, missing_under_file.
  - intros x l H. unfold PointReader_read. destruct (bool_decide _);
      unfold PointReader_read_text, PointReader_read_bin, fromfile_be_double, open_read.
    + by erewrite run_bind_raise by (by eapply file_data_dir).
    + erewrite run_bind_raise; [reflexivity|].
      by erewrite run_bind_raise by (by eapply file_data_dir).
Qed.

(** ** Writing without appending *)

Lemma drop_all (s : string) (k : nat) :
  (String.length s ≤ k)%nat → PyStr.drop k s = "".
Proof.
  revert k. induction s as [|c s IH]; intros k Hk; [by destruct k|].
  destruct k as [|k]; [cbn in Hk; lia|]. cbn [PyStr.drop]. apply IH. cbn in Hk. lia.
Qed.

Lemma file_write_overwrite (p s data : string) (x : bool) (w : world) :
  fs w !! p = Some (NFile x data) →
  file_write (overwriting p (String.length data)) s w
  = (Ok (overwriting p (String.length (data +:+ s))), put_data p x (data +:+ s) w).
Proof.
  intros H. unfold file_write.
  erewrite run_bind_ok by (by eapply file_data_file).
  cbn [f_append f_path f_pos overwriting].
  rewrite take_length, Nat.sub_diag, drop_all by lia. cbn [zeros].
  rewrite app_empty_l, app_empty_r.
  erewrite run_bind_ok by (by eapply set_file_data_file).
  unfold mret, ST_ret, ret, file_seek, overwriting. cbn [f_path f_append].
  by rewrite length_app_str.
Qed.

Lemma write_to_overwrite (p s data : string) (x : bool) (w : world) :
  fs w !! p = Some (NFile x data) →
  write_to (Some (overwriting p (String.length data))) s w
  = (Ok (Some (overwriting p (String.length (data +:+ s)))), put_data p x (data +:+ s) w).
Proof.
  intros H. unfold write_to, not_none.
  erewrite run_bind_ok by reflexivity.
  erewrite run_bind_ok by (by eapply file_write_overwrite).
  reflexivity.
Qed.

Section overwrite.
Variable np_str : Z → string.

Lemma write_points_overwrite (self : PointWriter) (rows : list (list Z))
    (p data : string) (x : bool) (w : world) :
  fs w !! p = Some (NFile x data) →
  write_points np_str self (Some (overwriting p (String.length data))) rows w
  = (Ok (Some (overwriting p (String.length (data +:+ render np_str (pw_sep self) rows)))),
     put_data p x (data +:+ render np_str (pw_sep self) rows) w).
Proof.
  revert data w. induction rows as [|row rows IH]; intros data w H.
  - cbn [write_points render]. rewrite app_empty_r, put_data_same by exact H. reflexivity.
  - cbn [write_points render].
    erewrite run_bind_ok by (by eapply write_to_overwrite).
    erewrite run_bind_ok by (eapply write_to_overwrite, put_data_lookup).
    rewrite put_data_twice, IH by apply put_data_lookup.
    by rewrite put_data_twice, !app_assoc_str.
Qed.

Lemma write_overwrite (self : PointWriter) (rows : list (list Z)) (p data : string)
    (x : bool) (w : world) :
  pw_append self = false →
  pw_file self = Some (overwriting p (String.length data)) →
  fs w !! p = Some (NFile x data) →
  PointWriter_write np_str self (Arr2 rows) w
  = (Ok (with_file (Some (overwriting p
                            (String.length (data +:+ render np_str (pw_sep self) rows))))
                   self),
     put_data p x (data +:+ render np_str (pw_sep self) rows) w).
Proof.
  intros Ha Hf H. cbn [PointWriter_write]. unfold process_header. rewrite Ha.
  erewrite run_bind_ok by reflexivity. rewrite Hf.
  erewrite run_bind_ok by (by apply write_points_overwrite).
  reflexivity.
Qed.

Lemma open_write_truncate (p data : string) (x : bool) (w : world) :
  fs w !! p = Some (NFile x data) →
  open_write p false w = (Ok (overwriting p 0), put_data p x "" w).
Proof.
  intros H. unfold open_write.
  erewrite run_bind_ok by reflexivity. cbn [fs]. rewrite H.
  erewrite run_bind_ok by (by eapply set_file_data_file).
  erewrite run_bind_ok by (eapply file_data_file, put_data_lookup).
  reflexivity.
Qed.

Lemma init_overwrite (p data : string) (x : bool) (w : world) :
  fs w !! p = Some (NFile x data) →
  PointWriter_init (Some p) None None (Some false) w
  = (Ok {| pw_sep := String "009" ""; pw_pointset_sep := "#";
           pw_append := false; pw_file := Some (overwriting p 0) |},
     put_data p x "" w).
Proof.
  intros Hp. unfold PointWriter_init, PointWriter_open. cbn [default pw_file pw_append].
  rewrite bool_decide_true by done.
  erewrite run_bind_ok by reflexivity.
  erewrite run_bind_ok by (by eapply open_write_truncate).
  reflexivity.
Qed.

(** With [append=False] what the file held is dropped when the writer is
    opened, and point sets written in a row follow one another with no
    sentinel line between them. *)
Theorem overwrite_no_sentinel (p data : string) (x : bool)
    (first second : list (list Z)) (w : world) :
  fs w !! p = Some (NFile x data) →
  fst (overwrite_twice np_str p first second w)
  = Ok (render np_str (String "009" "") first +:+ render np_str (String "009" "") second).
Proof.
  intros Hp. unfold overwrite_twice.
  erewrite run_bind_ok by (by eapply init_overwrite).
  erewrite run_bind_ok
    by (by apply (write_overwrite _ first p "" x); [..|apply put_data_lookup]).
  rewrite put_data_twice, app_empty_l. cbn [pw_sep].
  erewrite run_bind_ok
    by (by apply (write_overwrite _ second p (render np_str (String "009" "") first) x);
        [..|apply put_data_lookup]).
  rewrite put_data_twice. cbn [pw_sep with_file].
  by erewrite file_data_file by apply put_data_lookup.
Qed.

(** With [append=False] the round trip through a text file, the writer
    closed before the file is read, holds whatever the file held
    before. *)
Theorem overwrite_round_trip (np_double : string → option Z)
    (np_garbage : nat → nat → Z) (p data : string) (x : bool) (n d : nat)
    (rows : list (list Z)) (w : world) :
  (0 < d)%nat → length rows = n →
  Forall (λ row, length row = d) rows →
  Forall (Forall (prints_well np_str np_double)) rows →
  fs w !! p = Some (NFile x data) →
  overwrite_then_read np_str np_double np_garbage p n d rows w
  = (Ok rows, put_data p x (render np_str (String "009" "") rows) w).
Proof.
  intros Hd Hn Hshape Hgood Hp. unfold overwrite_then_read.
  erewrite run_bind_ok by (by eapply init_overwrite).
  erewrite run_bind_ok
    by (by apply (write_overwrite _ rows p "" x); [..|apply put_data_lookup]).
  erewrite run_bind_ok by reflexivity.
  rewrite put_data_twice, app_empty_l. cbn [pw_sep].
  by erewrite (read_text_rendered np_str) by (done || apply put_data_lookup).
Qed.
End overwrite.

(** ** Writing a sequence of point sets *)

Section write_sets.
Variable np_str : Z → string.

Lemma write_sets_append (self : PointWriter) (sets : list (list (list Z)))
    (p data : string) (x : bool) (w : world) :
  pw_file self = Some (appending p (String.length data)) →
  fs w !! p = Some (NFile x data) →
  write_sets np_str self sets w
  = (Ok (reopened p self
           (data +:+ render_sets np_str (pw_sep self) (pw_pointset_sep self) sets)),
     put_data p x
       (data +:+ render_sets np_str (pw_sep self) (pw_pointset_sep self) sets) w).
Proof.
  revert self data w. induction sets as [|rows sets IH]; intros self data w Hf H.
  - cbn [write_sets render_sets]. rewrite app_empty_r, put_data_same by exact H.
    unfold reopened. destruct self; cbn in *. by rewrite Hf.
  - cbn [write_sets render_sets]. rewrite Hf.
    erewrite run_bind_ok by (by apply write_points_append).
    erewrite run_bind_ok by (eapply write_to_append, put_data_lookup).
    erewrite run_bind_ok by (eapply write_to_append, put_data_lookup).
    rewrite !put_data_twice.
    match goal with
    | |- context [write_sets np_str
                    (with_file (Some (appending p (String.length ?D))) self) sets] =>
        rewrite (IH (with_file (Some (appending p (String.length D))) self) D
                   (put_data p x D w) eq_refl (put_data_lookup p x D w))
    end.
    rewrite put_data_twice. unfold reopened.
    cbn [with_file pw_sep pw_pointset_sep]. by rewrite !app_assoc_str.
Qed.

(** A three-dimensional array is written as its point sets, each followed
    by a sentinel line; in append mode they go after what the file holds,
    with nothing written ahead of the first: no line end is added and no
    sentinel separates them from the data already there. *)
Theorem write_sequence_of_sets (self : PointWriter) (sets : list (list (list Z)))
    (p data : string) (x : bool) (w : world) :
  pw_file self = Some (appending p (String.length data)) →
  fs w !! p = Some (NFile x data) →
  ∃ self',
    PointWriter_write np_str self (Arr3 sets) w
    = (Ok self',
       put_data p x
         (data +:+ render_sets np_str (pw_sep self) (pw_pointset_sep self) sets) w).
Proof. intros Hf H. eexists. cbn [PointWriter_write]. by apply write_sets_append. Qed.

(** ** A writer with no file *)

(** A writer that was built without a file, or has been closed, cannot be
    closed, and writing through it is an [AttributeError] as soon as
    something has to be looked at or written: always in append mode,
    otherwise when there is at least one point, or one point set.  The
    files are left as they were. *)
Theorem no_file_writer (self : PointWriter) (w : world) :
  pw_file self = None →
  PointWriter_close self w = (Raise AttributeError, w) ∧
  (∀ rows, pw_append self = true ∨ rows ≠ [] →
     PointWriter_write np_str self (Arr2 rows) w = (Raise AttributeError, w)) ∧
  (∀ sets, sets ≠ [] →
     PointWriter_write np_str self (Arr3 sets) w = (Raise AttributeError, w)) ∧
  (pw_append self = false → PointWriter_write np_str self (Arr2 []) w = (Ok self, w)).
Proof.
  intros Hf. split; [|split; [|split]].
  - unfold PointWriter_close. by rewrite Hf.
  - intros rows Hor. cbn [PointWriter_write]. unfold process_header.
    destruct (pw_append self) eqn:Ha.
    + rewrite Hf. reflexivity.
    + destruct Hor as [?|Hne]; [done|]. destruct rows as [|row rows]; [done|].
      erewrite run_bind_ok by reflexivity. rewrite Hf. reflexivity.
  - intros [|rows sets] Hne; [done|]. cbn [PointWriter_write write_sets]. rewrite Hf.
    destruct rows as [|row rows]; reflexivity.
  - intros Ha. cbn [PointWriter_write]. unfold process_header. rewrite Ha.
    erewrite run_bind_ok by reflexivity. rewrite Hf.
    destruct self; cbn in *. by rewrite Hf.
Qed.
End write_sets.

(** ** Discrepancy results: lines that are not aligned *)

Lemma zip_take {A B} (l : list A) (k : list B) :
  zip l k = zip (take (length k) l) (take (length l) k).
Proof.
  revert k. induction l as [|a l IH]; intros [|b k]; try reflexivity.
  cbn [zip zip_with length take]. f_equal. apply IH.
Qed.

Section discrepancy_lines.
Variable np_double : string → option Z.

Lemma fill_result_zip_take (names values : list string) :
  Forall (λ v, is_Some (np_double v)) (take (length names) values) →
  ∃ res, fill_result np_double (zip names values) ∅ = Ok res ∧
         reads_as np_double (take (length values) names)
                  (take (length names) values) res.
Proof.
  intros Hvals. rewrite zip_take. apply fill_result_zip. split; [|done].
  rewrite !length_take. lia.
Qed.

Lemma read_results_take (self : DiscrepancyReader) (names lines : list string) :
  dr_sep self ≠ "" →
  Forall (λ line, Forall (λ v, is_Some (np_double v))
                    (take (length names) (line_values self line))) lines →
  ∃ results,
    read_results np_double self names lines = Ok results ∧
    Forall2 (λ line res,
               reads_as np_double (take (length (line_values self line)) names)
                        (take (length names) (line_values self line)) res)
            lines results.
Proof.
  intros Hsep. induction 1 as [|line lines Hline _ (results & Hrun & Hres)].
  - exists []. split; [reflexivity|constructor].
  - destruct (fill_result_zip_take names (line_values self line) Hline)
      as (res & Hfill & Hreads).
    exists (res :: results). split; [|by constructor].
    cbn [read_results]. unfold py_split. rewrite bool_decide_false by exact Hsep.
    unfold line_values in Hfill. by rewrite Hfill, Hrun.
Qed.

Lemma read_with_header (self : DiscrepancyReader) (p data header : string)
    (lines : list string) (x : bool) (w : world) :
  dr_sep self ≠ "" →
  fs w !! p = Some (NFile x data) →
  readlines data = header :: lines →
  DiscrepancyReader_read np_double self p w
  = (read_results np_double self (header_names self header) lines, w).
Proof.
  intros Hsep Hp Hlines. unfold DiscrepancyReader_read, open_read.
  erewrite run_bind_ok by (by eapply file_data_file).
  rewrite Hlines. cbn [head tail default].
  unfold py_split. rewrite bool_decide_false by exact Hsep.
  erewrite run_bind_ok by reflexivity. reflexivity.
Qed.

(** A line of values need not have as many values as there are names:
    values beyond the last name are left out, names beyond the last value
    are not keys of the mapping, and a line with no value gives the empty
    mapping. *)
Theorem discrepancy_read_unaligned (self : DiscrepancyReader) (p data header : string)
    (lines : list string) (x : bool) (w : world) :
  dr_sep self ≠ "" →
  fs w !! p = Some (NFile x data) →
  readlines data = header :: lines →
  Forall (λ line, Forall (λ v, is_Some (np_double v))
                    (take (length (header_names self header))
                          (line_values self line))) lines →
  ∃ results,
    DiscrepancyReader_read np_double self p w = (Ok results, w) ∧
    length results = length lines ∧
    ∀ i line res,
      lines !! i = Some line → results !! i = Some res →
      reads_as np_double
        (take (length (line_values self line)) (header_names self header))
        (take (length (header_names self header)) (line_values self line)) res.
Proof.
  intros Hsep Hp Hlines Hal.
  destruct (read_results_take self (header_names self header) lines Hsep Hal)
    as (results & Hrun & Hres).
  exists results. split; [|split].
  - rewrite (read_with_header self p data header lines x) by done. by rewrite Hrun.
  - symmetry. by eapply Forall2_length.
  - intros i line res Hl Hr.
    exact (Forall2_lookup_lr _ lines results i line res Hres Hl Hr).
Qed.

Lemma fill_result_bad (pairs : list (string * string)) (res : gmap string Z) :
  Exists (λ nv, np_double nv.2 = None) pairs →
  fill_result np_double pairs res = Raise ValueError.
Proof.
  intros Hex. revert res. induction Hex as [[n v] pairs Hv|[n v] pairs _ IH]; intros res.
  - cbn [fill_result]. unfold parse_double. cbn [snd] in Hv. by rewrite Hv.
  - cbn [fill_result]. unfold parse_double.
    destruct (np_double v); [apply IH|reflexivity].
Qed.

Lemma read_results_bad (self : DiscrepancyReader) (names good rest : list string)
    (bad : string) :
  dr_sep self ≠ "" →
  Forall (λ line, Forall (λ v, is_Some (np_double v))
                    (take (length names) (line_values self line))) good →
  Exists (λ v, np_double v = None) (take (length names) (line_values self bad)) →
  read_results np_double self names (good ++ bad :: rest) = Raise ValueError.
Proof.
  intros Hsep Hgood Hbad. induction Hgood as [|line good Hline _ IH].
  - cbn [app read_results]. unfold py_split. rewrite bool_decide_false by exact Hsep.
    fold (line_values self bad). rewrite fill_result_bad; [done|].
    rewrite zip_take. apply Exists_exists in Hbad as (v & Hin & Hv).
    apply list_elem_of_lookup in Hin as [j Hj].
    assert (Hn : is_Some (take (length (line_values self bad)) names !! j)).
    { apply lookup_lt_is_Some. apply lookup_lt_Some in Hj.
      rewrite length_take in *. lia. }
    destruct Hn as [name Hname]. apply Exists_exists. exists (name, v).
    split; [|done]. apply list_elem_of_lookup. exists j.
    apply lookup_zip_with_Some. eauto.
  - destruct (fill_result_zip_take names (line_values self line) Hline)
      as (res & Hfill & _).
    cbn [app read_results]. unfold py_split. rewrite bool_decide_false by exact Hsep.
    unfold line_values in Hfill. by rewrite Hfill, IH.
Qed.

(** One value that is not a number makes the whole reading fail with a
    [ValueError]: the mappings of the lines before it are lost. *)
Theorem discrepancy_read_bad_value (self : DiscrepancyReader) (p data header bad : string)
    (good rest : list string) (x : bool) (w : world) :
  dr_sep self ≠ "" →
  fs w !! p = Some (NFile x data) →
  readlines data = header :: good ++ bad :: rest →
  Forall (λ line, Forall (λ v, is_Some (np_double v))
                    (take (length (header_names self header))
                          (line_values self line))) good →
  Exists (λ v, np_double v = None)
         (take (length (header_names self header)) (line_values self bad)) →
  DiscrepancyReader_read np_double self p w = (Raise ValueError, w).
Proof.
  intros Hsep Hp Hlines Hgood Hbad.
  rewrite (read_with_header self p data header (good ++ bad :: rest) x) by done.
  by rewrite read_results_bad.
Qed.

(** A file with no line of values, empty or with its header alone, gives
    the empty list; with an empty separator even that is a
    [ValueError]. *)
Theorem discrepancy_read_no_values (self : DiscrepancyReader) (p data : string)
    (x : bool) (w : world) :
  fs w !! p = Some (NFile x data) →
  (readlines data = [] ∨ ∃ header, readlines data = [header]) →
  DiscrepancyReader_read np_double self p w
  = (if bool_decide (dr_sep self = "") then Raise ValueError else Ok [], w).
Proof.
  intros Hp Hlines. unfold DiscrepancyReader_read, open_read.
  erewrite run_bind_ok by (by eapply file_data_file).
  unfold py_split. destruct (bool_decide (dr_sep self = "")) eqn:Hsep.
  - reflexivity.
  - erewrite run_bind_ok by reflexivity.
    destruct Hlines as [->|[header ->]]; reflexivity.
Qed.
End discrepancy_lines.

(** ** The temporary files of the facades *)

Lemma rfind_absent (c : ascii) (s : string) :
  all_chars (not_char c) s = true → PyStr.rfind c s = -1.
Proof.
  induction s as [|a s IH]; [reflexivity|]. cbn [all_chars PyStr.rfind].
  unfold not_char at 1. rewrite andb_true_iff, negb_true_iff. intros [Ha Hs].
  rewrite IH by done. cbn. by rewrite Ha.
Qed.

Lemma rfind_app_absent (c : ascii) (s t : string) :
  all_chars (not_char c) t = true → PyStr.rfind c (s +:+ t) = PyStr.rfind c s.
Proof.
  intros Ht. induction s as [|a s IH].
  - rewrite app_empty_l. by apply rfind_absent.
  - rewrite app_cons. cbn [PyStr.rfind]. by rewrite IH.
Qed.

Lemma rfind_last (c : ascii) (s t : string) :
  all_chars (not_char c) t = true →
  PyStr.rfind c (s +:+ String c t) = Z.of_nat (String.length s).
Proof.
  intros Ht. induction s as [|a s IH].
  - rewrite app_empty_l. cbn [PyStr.rfind]. rewrite rfind_absent by done.
    cbn. by rewrite Ascii.eqb_refl.
  - rewrite app_cons. cbn [PyStr.rfind String.length]. rewrite IH.
    destruct (0 <=? Z.of_nat (String.length s)) eqn:E; [lia|].
    apply Z.leb_gt in E. lia.
Qed.

Lemma endswith_snoc (c : ascii) (s : string) :
  PyStr.endswith (String c "") s = true → ∃ u, s = u +:+ String c "".
Proof.
  induction s as [|a s IH]; cbn [PyStr.endswith].
  - rewrite orb_false_r. by intros ?%bool_decide_eq_true.
  - intros [H|H]%orb_true_iff.
    + apply bool_decide_eq_true in H. exists "". by rewrite app_empty_l.
    + destruct (IH H) as [u ->]. exists (String a u). by rewrite app_cons.
Qed.

Lemma temp_stem_chars (s : string) :
  temp_stem s = true →
  ∃ a t, s = String a t ∧ Ascii.eqb a "/" = false ∧ Ascii.eqb a "." = false ∧
         all_chars (not_char "/") s = true ∧ all_chars (not_char ".") s = true.
Proof.
  unfold temp_stem, nonempty. rewrite andb_true_iff, negb_true_iff.
  intros [Hne Hall]. apply bool_decide_eq_false in Hne.
  destruct s as [|a t]; [done|]. exists a, t. split; [done|].
  assert (H1 : all_chars (not_char "/") (String a t) = true).
  { eapply all_chars_impl; [|exact Hall]. intros c. unfold stem_char, not_char.
    by intros [? _]%andb_true_iff. }
  assert (H2 : all_chars (not_char ".") (String a t) = true).
  { eapply all_chars_impl; [|exact Hall]. intros c. unfold stem_char, not_char.
    by intros [_ ?]%andb_true_iff. }
  cbn [all_chars] in Hall. apply andb_true_iff in Hall as [Ha _].
  unfold stem_char in Ha. apply andb_true_iff in Ha as [Ha1 Ha2].
  by rewrite negb_true_iff in Ha1, Ha2.
Qed.

(** The path of a temporary file: a prefix that is empty or ends with a
    slash, then the stem, then [.dat]. *)
Lemma temp_path_shape (wdir hex : string) :
  temp_stem hex = true →
  ∃ pre, os.join wdir (hex +:+ ".dat") = pre +:+ hex +:+ ".dat" ∧
         (pre = "" ∨ ∃ u, pre = u +:+ "/").
Proof.
  intros (a & t & -> & Ha & _)%temp_stem_chars. unfold os.join.
  rewrite app_cons. cbn [String.prefix].
  destruct (ascii_dec "/" a) as [<-|_]; [done|].
  destruct (bool_decide (wdir = "")) eqn:E1.
  - apply bool_decide_eq_true in E1 as ->. cbn [orb]. exists "". split; [done|by left].
  - cbn [orb]. destruct (PyStr.endswith "/" wdir) eqn:E2.
    + exists wdir. split; [done|]. right. by apply endswith_snoc.
    + exists (wdir +:+ "/"). split; [by rewrite !app_assoc_str|]. right. by exists wdir.
Qed.

Lemma splitext_temp (wdir hex : string) :
  temp_stem hex = true →
  snd (os.splitext (os.join wdir (hex +:+ ".dat"))) = ".dat".
Proof.
  intros Hhex. destruct (temp_path_shape wdir hex Hhex) as (pre & -> & Hpre).
  destruct (temp_stem_chars hex Hhex) as (a & t & Hat & Ha1 & Ha2 & Hslash & Hdot).
  assert (Hsep : PyStr.rfind "/" (pre +:+ hex +:+ ".dat") + 1
                 = Z.of_nat (String.length pre)).
  { rewrite (rfind_app_absent "/" pre (hex +:+ ".dat"))
      by (rewrite all_chars_app, Hslash; reflexivity).
    destruct Hpre as [->|[u ->]]; [reflexivity|].
    rewrite (rfind_last "/" u "") by reflexivity.
    rewrite length_app_str. cbn. lia. }
  assert (Hdoti : PyStr.rfind "." (pre +:+ hex +:+ ".dat")
                  = Z.of_nat (String.length (pre +:+ hex))).
  { rewrite <- app_assoc_str. change ".dat" with (String "." "dat").
    by rewrite (rfind_last "." (pre +:+ hex) "dat"). }
  unfold os.splitext.
  replace (PyStr.rfind "/" (pre +:+ hex +:+ ".dat"))
    with (Z.of_nat (String.length pre) - 1) by lia.
  rewrite Hdoti.
  replace (Z.of_nat (String.length pre) - 1 + 1) with (Z.of_nat (String.length pre)) by lia.
  rewrite length_app_str.
  replace (Z.of_nat (String.length pre + String.length hex) - Z.of_nat (String.length pre))
    with (Z.of_nat (String.length hex)) by lia.
  rewrite !Nat2Z.id.
  rewrite drop_app_length, take_app_length.
  assert (os.only_dots hex = false) as ->.
  { rewrite Hat. cbn [os.only_dots]. by rewrite Ha2. }
  assert ((Z.of_nat (String.length pre) - 1
           <? Z.of_nat (String.length pre + String.length hex)) = true) as ->
    by (apply Z.ltb_lt; lia).
  cbn [andb negb snd]. rewrite <- app_assoc_str.
  rewrite <- length_app_str. apply drop_app_length.
Qed.

(** The temporary files of the facades are named [<uuid>.dat] in the
    working directory, whatever it is, so [read] takes them for text
    files. *)
Theorem temp_file_read_as_text (np_double : string → option Z)
    (np_garbage : nat → nat → Z) (self : PointReader) (wdir hex : string) :
  temp_stem hex = true →
  PointReader_read np_double np_garbage self (os.join wdir (hex +:+ ".dat"))
  = PointReader_read_text np_double np_garbage self (os.join wdir (hex +:+ ".dat")).
Proof.
  intros Hhex. unfold PointReader_read.
  by rewrite bool_decide_true by (by apply splitext_temp).
Qed.

(** ** The facades from end to end *)

Lemma remove_file (p data : string) (x : bool) (w : world) :
  fs w !! p = Some (NFile x data) →
  ∃ w', os.remove p w = (Ok tt, w') ∧ fs w' !! p = None ∧ cfg w' = cfg w ∧
        uuids w' = uuids w ∧
        ∀ q, q ≠ p → q ≠ os.dirname p → fs w' !! q = fs w !! q.
Proof.
  intros Hp. unfold os.remove, os.unlink.
  eexists. split.
  - erewrite run_bind_ok by reflexivity. cbn [fs]. rewrite Hp.
    erewrite run_bind_ok by reflexivity. reflexivity.
  - cbn [fs cfg uuids with_fs].
    destruct (delete p (fs w) !! os.dirname p) as [[y l|y d]|] eqn:Hd.
    + assert (os.dirname p ≠ p) by (intros E; rewrite E, lookup_delete_eq in Hd; done).
      split; [by rewrite lookup_insert_ne, lookup_delete_eq by done|].
      split; [done|]. split; [done|]. intros q H1 H2.
      by rewrite lookup_insert_ne, lookup_delete_ne by done.
    + split; [by rewrite lookup_delete_eq|]. split; [done|]. split; [done|].
      intros q H1 H2. by rewrite lookup_delete_ne by done.
    + split; [by rewrite lookup_delete_eq|]. split; [done|]. split; [done|].
      intros q H1 H2. by rewrite lookup_delete_ne by done.
Qed.

Lemma file_data_world (p : string) (w : world) : snd (file_data p w) = w.
Proof.
  unfold file_data. rewrite run_bind. cbn.
  by destruct (fs w !! p) as [[]|].
Qed.

Lemma bind_lift_world {A B} (m : M A) (f : A → result B) (w : world) :
  snd (m w) = w → snd ((m ≫= λ a, lift (f a)) w) = w.
Proof. rewrite run_bind. by destruct (m w) as [[a|e] w']. Qed.

(** Reading points changes nothing. *)
Lemma PointReader_read_world (np_double : string → option Z)
    (np_garbage : nat → nat → Z) (self : PointReader) (p : string) (w : world) :
  snd (PointReader_read np_double np_garbage self p w) = w.
Proof.
  unfold PointReader_read, PointReader_read_text, PointReader_read_bin,
    fromfile_be_double, open_read.
  destruct (bool_decide _).
  - apply bind_lift_world, file_data_world.
  - apply bind_lift_world. rewrite run_bind.
    pose proof (file_data_world p w) as H. by destruct (file_data p w) as [[a|e] w'].
Qed.

Lemma DiscrepancyReader_read_world (np_double : string → option Z)
    (self : DiscrepancyReader) (p : string) (w : world) :
  snd (DiscrepancyReader_read np_double self p w) = w.
Proof.
  unfold DiscrepancyReader_read, open_read. rewrite run_bind.
  pose proof (file_data_world p w) as H. destruct (file_data p w) as [[data|e] w'];
    cbn [snd] in H; subst w'; [|done].
  rewrite run_bind. unfold lift at 1. by destruct (py_split _ _).
Qed.

Section facades_end_to_end.
Variable np_str : Z → string.
Variable np_double : string → option Z.
Variable np_garbage : nat → nat → Z.
Variable uuid4_hex : nat → string.
Variable subprocess_run : list string → ST (gmap string node) unit.

Lemma run_child (args : list string) (r : result unit) (f : gmap string node)
    (w : world) :
  subprocess_run args (fs w) = (r, f) →
  run subprocess_run args w = (r, with_fs f w).
Proof.
  intros H. unfold run. erewrite run_bind_ok by reflexivity. rewrite H.
  erewrite run_bind_ok by reflexivity. reflexivity.
Qed.

(** [sample] up to the reading of the file the child process was asked to
    write. *)
Lemma sample_until_read (self : Sampler) (n : nat) (clean : bool) (w : world)
    (r : result unit) (f : gmap string node) :
  subprocess_run (sampler_args self (temp_file uuid4_hex w) n w) (fs w) = (r, f) →
  Sampler_sample np_double np_garbage uuid4_hex subprocess_run self n clean w
  = match r with
    | Ok _ =>
        match PointReader_read np_double np_garbage
                (PointReader_init n (s_d self) None) (temp_file uuid4_hex w)
                (after_child f w) with
        | (Ok points, w') =>
            ((if clean then os.remove (temp_file uuid4_hex w) else ret tt)
               ≫= λ _, ret points) w'
        | (Raise e, w') => (Raise e, w')
        end
    | Raise e => (Raise e, after_child f w)
    end.
Proof.
  intros Hrun. unfold Sampler_sample.
  erewrite run_bind_ok by reflexivity.
  erewrite run_bind_ok by reflexivity.
  fold (temp_file uuid4_hex w).
  unfold Sampler_sample_to.
  rewrite (run_bind (_ ≫= _)). rewrite (run_bind get_samplers_dir).
  rewrite get_samplers_dir_run. cbn [cfg].
  rewrite (run_bind get_silence_args).
  assert (Hsil : ∀ w0 : world,
            get_silence_args w0
            = (Ok (if __UTK__SILENCE__ (cfg w0) then ["--silent"] else []), w0)).
  { intros w0. unfold get_silence_args. erewrite run_bind_ok by reflexivity.
    by destruct (__UTK__SILENCE__ (cfg w0)). }
  rewrite Hsil. cbn [cfg].
  rewrite (run_bind (run _ _)).
  erewrite (run_child _ r f) by exact Hrun.
  destruct r as [[]|e]; [|reflexivity].
  change (with_fs f {| cfg := cfg w; fs := fs w; uuids := S (uuids w) |})
    with (after_child f w).
  by destruct (PointReader_read _ _ _ _ _) as [[points|e] w'].
Qed.

(** When the child process writes the [n] points asked for, [sample]
    returns them; the temporary file is then removed if [clean] holds and
    kept otherwise, and the configuration is not touched. *)
Theorem sample_returns_points (self : Sampler) (n : nat) (rows : list (list Z))
    (x : bool) (f : gmap string node) (w : world) :
  temp_stem (uuid4_hex (uuids w)) = true →
  subprocess_run (sampler_args self (temp_file uuid4_hex w) n w) (fs w) = (Ok tt, f) →
  f !! temp_file uuid4_hex w = Some (NFile x (render np_str (String "009" "") rows)) →
  (0 < s_d self)%nat → length rows = n →
  Forall (λ row, length row = s_d self) rows →
  Forall (Forall (prints_well np_str np_double)) rows →
  Sampler_sample np_double np_garbage uuid4_hex subprocess_run self n false w
  = (Ok rows, after_child f w) ∧
  ∃ w', Sampler_sample np_double np_garbage uuid4_hex subprocess_run self n true w
        = (Ok rows, w') ∧
        fs w' !! temp_file uuid4_hex w = None ∧ cfg w' = cfg w.
Proof.
  intros Hhex Hrun Hfile Hd Hn Hshape Hgood.
  assert (Hread : PointReader_read np_double np_garbage
                    (PointReader_init n (s_d self) None) (temp_file uuid4_hex w)
                    (after_child f w)
                  = (Ok rows, after_child f w)).
  { unfold temp_file, PointReader_read.
    rewrite bool_decide_true by (by apply splitext_temp).
    by apply (read_text_rendered np_str np_double np_garbage _ x). }
  split.
  - rewrite (sample_until_read self n false w (Ok tt) f Hrun), Hread. reflexivity.
  - destruct (remove_file (temp_file uuid4_hex w) _ x (after_child f w) Hfile)
      as (w' & Hrm & Hgone & Hcfg & _).
    exists w'. split; [|by split].
    rewrite (sample_until_read self n true w (Ok tt) f Hrun), Hread.
    by erewrite run_bind_ok by exact Hrm.
Qed.

(** The failures of the child process and of the reading come out of
    [sample] as they are, and nothing is cleaned then: the temporary file
    stays if the child process wrote one.  A child process that writes no
    file gives a [FileNotFoundError], or a [NotADirectoryError] when the
    working directory is not a directory but lies at or below a regular
    file. *)
Theorem sample_propagates_errors (self : Sampler) (n : nat) (clean : bool)
    (f : gmap string node) (w : world) :
  (∀ e, subprocess_run (sampler_args self (temp_file uuid4_hex w) n w) (fs w)
        = (Raise e, f) →
        Sampler_sample np_double np_garbage uuid4_hex subprocess_run self n clean w
        = (Raise e, after_child f w)) ∧
  (∀ e, subprocess_run (sampler_args self (temp_file uuid4_hex w) n w) (fs w)
        = (Ok tt, f) →
        fst (PointReader_read np_double np_garbage (PointReader_init n (s_d self) None)
               (temp_file uuid4_hex w) (after_child f w)) = Raise e →
        Sampler_sample np_double np_garbage uuid4_hex subprocess_run self n clean w
        = (Raise e, after_child f w)) ∧
  (subprocess_run (sampler_args self (temp_file uuid4_hex w) n w) (fs w) = (Ok tt, f) →
   f !! temp_file uuid4_hex w = None →
   os.under_file f (temp_file uuid4_hex w) = false →
   Sampler_sample np_double np_garbage uuid4_hex subprocess_run self n clean w
   = (Raise FileNotFoundError, after_child f w)) ∧
  (subprocess_run (sampler_args self (temp_file uuid4_hex w) n w) (fs w) = (Ok tt, f) →
   f !! temp_file uuid4_hex w = None →
   os.under_file f (temp_file uuid4_hex w) = true →
   Sampler_sample np_double np_garbage uuid4_hex subprocess_run self n clean w
   = (Raise NotADirectoryError, after_child f w)).
Proof.
  assert (Hfail : ∀ e,
            subprocess_run (sampler_args self (temp_file uuid4_hex w) n w) (fs w)
            = (Ok tt, f) →
            fst (PointReader_read np_double np_garbage
                   (PointReader_init n (s_d self) None)
                   (temp_file uuid4_hex w) (after_child f w)) = Raise e →
            Sampler_sample np_double np_garbage uuid4_hex subprocess_run self n clean w
            = (Raise e, after_child f w)).
  { intros e Hrun Hread. rewrite (sample_until_read self n clean w (Ok tt) f Hrun).
    pose proof (PointReader_read_world np_double np_garbage
                  (PointReader_init n (s_d self) None) (temp_file uuid4_hex w)
                  (after_child f w)) as Hw.
    destruct (PointReader_read _ _ _ _ _) as [[points|e'] w'];
      cbn [fst snd] in *; [done|]. by injection Hread as ->; subst. }
  split; [|split; [|split]].
  - intros e Hrun. by rewrite (sample_until_read self n clean w (Raise e) f Hrun).
  - exact Hfail.
  - intros Hrun Hnone Hu. apply Hfail; [done|].
    rewrite (read_missing np_double np_garbage) by done. cbn [fst fs after_child].
    by rewrite missing_plain.
  - intros Hrun Hnone Hu. apply Hfail; [done|].
    rewrite (read_missing np_double np_garbage) by done. cbn [fst fs after_child].
    by rewrite missing_under_file.
Qed.

Lemma compute_until_read (self : Discrepancy) (input : string) (s : Z) (clean : bool)
    (w : world) (r : result unit) (f : gmap string node) :
  subprocess_run (discrepancy_args self (temp_file uuid4_hex w) input s w) (fs w)
  = (r, f) →
  Discrepancy_compute_from_file np_double uuid4_hex subprocess_run self input s clean w
  = match r with
    | Ok _ =>
        match DiscrepancyReader_read np_double (DiscrepancyReader_init None None)
                (temp_file uuid4_hex w) (after_child f w) with
        | (Ok results, w') =>
            ((if clean then os.remove (temp_file uuid4_hex w) else ret tt)
               ≫= λ _, ret results) w'
        | (Raise e, w') => (Raise e, w')
        end
    | Raise e => (Raise e, after_child f w)
    end.
Proof.
  intros Hrun. unfold Discrepancy_compute_from_file.
  erewrite run_bind_ok by reflexivity.
  erewrite run_bind_ok by reflexivity.
  fold (temp_file uuid4_hex w).
  unfold Discrepancy_compute_to.
  rewrite (run_bind (_ ≫= _)). rewrite (run_bind get_discrepancy_dir).
  change (get_discrepancy_dir {| cfg := cfg w; fs := fs w; uuids := S (uuids w) |})
    with (Ok (os.join (__UTK__DIR__ (cfg w)) "discrepancy"),
          {| cfg := cfg w; fs := fs w; uuids := S (uuids w) |}).
  cbn [cfg]. rewrite (run_bind get_silence_args).
  assert (Hsil : ∀ w0 : world,
            get_silence_args w0
            = (Ok (if __UTK__SILENCE__ (cfg w0) then ["--silent"] else []), w0)).
  { intros w0. unfold get_silence_args. erewrite run_bind_ok by reflexivity.
    by destruct (__UTK__SILENCE__ (cfg w0)). }
  rewrite Hsil. cbn [cfg].
  rewrite (run_bind (run _ _)).
  erewrite (run_child _ r f).
  2:{ cbn [fs]. rewrite <- Hrun. f_equal. unfold discrepancy_args.
      destruct (bool_decide (-1 < s)); by rewrite <- ?app_assoc. }
  destruct r as [[]|e]; [|reflexivity].
  change (with_fs f {| cfg := cfg w; fs := fs w; uuids := S (uuids w) |})
    with (after_child f w).
  by destruct (DiscrepancyReader_read _ _ _ _) as [[results|e] w'].
Qed.

(** When the child process writes a table of results, [compute_from_file]
    returns one mapping per line of values; the temporary file is then
    removed if [clean] holds and kept otherwise, and the file of the
    points is left to the child process: the facade itself does not touch
    it. *)
Theorem compute_from_file_returns_results (self : Discrepancy) (input : string) (s : Z)
    (data header : string) (lines : list string) (x : bool)
    (f : gmap string node) (w : world) :
  subprocess_run (discrepancy_args self (temp_file uuid4_hex w) input s w) (fs w)
  = (Ok tt, f) →
  f !! temp_file uuid4_hex w = Some (NFile x data) →
  readlines data = header :: lines →
  Forall (λ line, aligned np_double
                    (header_names (DiscrepancyReader_init None None) header)
                    (line_values (DiscrepancyReader_init None None) line)) lines →
  ∃ results,
    length results = length lines ∧
    (∀ i line res,
       lines !! i = Some line → results !! i = Some res →
       reads_as np_double (header_names (DiscrepancyReader_init None None) header)
         (line_values (DiscrepancyReader_init None None) line) res) ∧
    Discrepancy_compute_from_file np_double uuid4_hex subprocess_run self input s false w
    = (Ok results, after_child f w) ∧
    ∃ w', Discrepancy_compute_from_file np_double uuid4_hex subprocess_run
            self input s true w = (Ok results, w') ∧
          fs w' !! temp_file uuid4_hex w = None ∧
          (input ≠ temp_file uuid4_hex w → input ≠ os.dirname (temp_file uuid4_hex w) →
           fs w' !! input = f !! input).
Proof.
  intros Hrun Hfile Hlines Hal.
  destruct (read_results_spec np_double (DiscrepancyReader_init None None)
              (header_names (DiscrepancyReader_init None None) header) lines)
    as (results & Hres & Hall); [done|done|].
  assert (Hread : DiscrepancyReader_read np_double (DiscrepancyReader_init None None)
                    (temp_file uuid4_hex w) (after_child f w)
                  = (Ok results, after_child f w)).
  { rewrite (read_with_header np_double _ _ data header lines x) by done.
    by rewrite Hres. }
  exists results. split; [symmetry; by eapply Forall2_length|]. split.
  { intros i line res Hl Hr.
    exact (Forall2_lookup_lr _ lines results i line res Hall Hl Hr). }
  split.
  - rewrite (compute_until_read self input s false w (Ok tt) f Hrun), Hread. reflexivity.
  - destruct (remove_file (temp_file uuid4_hex w) _ x (after_child f w) Hfile)
      as (w' & Hrm & Hgone & _ & _ & Hother).
    exists w'. split; [|split; [done|]].
    + rewrite (compute_until_read self input s true w (Ok tt) f Hrun), Hread.
      by erewrite run_bind_ok by exact Hrm.
    + intros H1 H2. by rewrite Hother.
Qed.

(** The failures of the child process and of the reading come out of
    [compute_from_file] as they are; a child process that writes no table
    gives a [FileNotFoundError], or a [NotADirectoryError] when the path
    of the table lies below a regular file. *)
Theorem compute_from_file_propagates_errors (self : Discrepancy) (input : string) (s : Z)
    (clean : bool) (f : gmap string node) (w : world) :
  (∀ e, subprocess_run (discrepancy_args self (temp_file uuid4_hex w) input s w) (fs w)
        = (Raise e, f) →
        Discrepancy_compute_from_file np_double uuid4_hex subprocess_run
          self input s clean w = (Raise e, after_child f w)) ∧
  (∀ e, subprocess_run (discrepancy_args self (temp_file uuid4_hex w) input s w) (fs w)
        = (Ok tt, f) →
        fst (DiscrepancyReader_read np_double (DiscrepancyReader_init None None)
               (temp_file uuid4_hex w) (after_child f w)) = Raise e →
        Discrepancy_compute_from_file np_double uuid4_hex subprocess_run
          self input s clean w = (Raise e, after_child f w)) ∧
  (subprocess_run (discrepancy_args self (temp_file uuid4_hex w) input s w) (fs w)
   = (Ok tt, f) →
   f !! temp_file uuid4_hex w = None →
   os.under_file f (temp_file uuid4_hex w) = false →
   Discrepancy_compute_from_file np_double uuid4_hex subprocess_run
     self input s clean w = (Raise FileNotFoundError, after_child f w)) ∧
  (subprocess_run (discrepancy_args self (temp_file uuid4_hex w) input s w) (fs w)
   = (Ok tt, f) →
   f !! temp_file uuid4_hex w = None →
   os.under_file f (temp_file uuid4_hex w) = true →
   Discrepancy_compute_from_file np_double uuid4_hex subprocess_run
     self input s clean w = (Raise NotADirectoryError, after_child f w)).
Proof.
  assert (Hfail : ∀ e,
            subprocess_run (discrepancy_args self (temp_file uuid4_hex w) input s w)
              (fs w) = (Ok tt, f) →
            fst (DiscrepancyReader_read np_double (DiscrepancyReader_init None None)
                   (temp_file uuid4_hex w) (after_child f w)) = Raise e →
            Discrepancy_compute_from_file np_double uuid4_hex subprocess_run
              self input s clean w = (Raise e, after_child f w)).
  { intros e Hrun Hread.
    rewrite (compute_until_read self input s clean w (Ok tt) f Hrun).
    pose proof (DiscrepancyReader_read_world np_double (DiscrepancyReader_init None None)
                  (temp_file uuid4_hex w) (after_child f w)) as Hw.
    destruct (DiscrepancyReader_read _ _ _ _) as [[results|e'] w'];
      cbn [fst snd] in *; [done|]. by injection Hread as ->; subst. }
  split; [|split; [|split]].
  - intros e Hrun. by rewrite (compute_until_read self input s clean w (Raise e) f Hrun).
  - exact Hfail.
  - intros Hrun Hnone Hu. apply Hfail; [done|].
    unfold DiscrepancyReader_read, open_read.
    erewrite run_bind_raise by (by apply file_data_missing).
    cbn [fst fs after_child]. by rewrite missing_plain.
  - intros Hrun Hnone Hu. apply Hfail; [done|].
    unfold DiscrepancyReader_read, open_read.
    erewrite run_bind_raise by (by apply file_data_missing).
    cbn [fst fs after_child]. by rewrite missing_under_file.
Qed.
End facades_end_to_end.

(** ** Discovery: what it leaves alone, and when it fails *)

Lemma is_sampler_world (filepath : string) (w : world) :
  snd (is_sampler filepath w) = w.
Proof. by rewrite is_sampler_run. Qed.

Lemma scan_file_total (b : bool) (file : string) (samplers : gmap string (entry b))
    (w : world) :
  ∃ samplers', scan_file b file samplers w = (Ok samplers', w).
Proof.
  unfold scan_file.
  erewrite run_bind_ok by apply get_samplers_dir_run.
  erewrite run_bind_ok by apply is_sampler_run.
  destruct (passes_test w _); eexists; reflexivity.
Qed.

Lemma scan_total (b : bool) (files : list string) (samplers : gmap string (entry b))
    (w : world) :
  ∃ samplers', scan b files samplers w = (Ok samplers', w).
Proof.
  revert samplers. induction files as [|file files IH]; intros samplers.
  - by exists samplers.
  - destruct (scan_file_total b file samplers w) as [s1 H1].
    destruct (IH s1) as [s2 H2]. exists s2. cbn [scan].
    by erewrite run_bind_ok by exact H1.
Qed.

(** Discovery only reads: whether it returns or fails, the configuration
    and the files are as they were. *)
Theorem get_samplers_reads_only (split_i_d : bool) (w : world) :
  snd (get_samplers split_i_d w) = w.
Proof.
  unfold get_samplers.
  erewrite run_bind_ok by apply get_samplers_dir_run.
  rewrite run_bind. unfold os.listdir at 1. rewrite run_bind. cbn [get_state].
  destruct (fs w !! os.join (__UTK__DIR__ (cfg w)) "samplers") as [[x files|x data]|];
    [|reflexivity..].
  cbn [mret ST_ret ret].
  destruct (scan_total split_i_d files ∅ w) as [s1 H1].
  erewrite run_bind_ok by exact H1.
  destruct (for_each _ _ s1) as [[[]|e] s2]; reflexivity.
Qed.

Lemma listdir_missing (p : string) (w : world) :
  fs w !! p = None → os.listdir p w = (Raise (os.missing (fs w) p), w).
Proof.
  intros H. unfold os.listdir. erewrite run_bind_ok by reflexivity.
  cbn [fs]. by rewrite H.
Qed.

Lemma get_samplers_missing (split_i_d : bool) (w : world) :
  fs w !! os.join (__UTK__DIR__ (cfg w)) "samplers" = None →
  get_samplers split_i_d w
  = (Raise (os.missing (fs w) (os.join (__UTK__DIR__ (cfg w)) "samplers")), w).
Proof.
  intros H. unfold get_samplers.
  erewrite run_bind_ok by apply get_samplers_dir_run.
  erewrite run_bind_raise; [reflexivity|]. by apply listdir_missing.
Qed.

(** When the path of the samplers directory names nothing, discovery is
    a [FileNotFoundError], or a [NotADirectoryError] if that path lies
    below a regular file; it is a [NotADirectoryError] too when a file
    stands in the place of the directory. *)
Theorem get_samplers_no_directory (split_i_d : bool) (w : world) :
  (fs w !! os.join (__UTK__DIR__ (cfg w)) "samplers" = None →
   os.under_file (fs w) (os.join (__UTK__DIR__ (cfg w)) "samplers") = false →
   get_samplers split_i_d w = (Raise FileNotFoundError, w)) ∧
  (fs w !! os.join (__UTK__DIR__ (cfg w)) "samplers" = None →
   os.under_file (fs w) (os.join (__UTK__DIR__ (cfg w)) "samplers") = true →
   get_samplers split_i_d w = (Raise NotADirectoryError, w)) ∧
  (∀ x data,
     fs w !! os.join (__UTK__DIR__ (cfg w)) "samplers" = Some (NFile x data) →
     get_samplers split_i_d w = (Raise NotADirectoryError, w)).
Proof.
  split; [|split].
  - intros H Hu. by rewrite get_samplers_missing, missing_plain.
  - intros H Hu. by rewrite get_samplers_missing, missing_under_file.
  - intros x data H. unfold get_samplers.
    erewrite run_bind_ok by apply get_samplers_dir_run.
    erewrite run_bind_raise; [reflexivity|].
    unfold os.listdir. erewrite run_bind_ok by reflexivity. cbn [fs]. by rewrite H.
Qed.

(** ** Discovery: the names it returns *)

Lemma at_item_dom {V A} (k : string) (op : ST V A) (d : gmap string V) :
  dom (snd (at_item k op d)) = dom d.
Proof.
  unfold at_item. destruct (d !! k) as [v|] eqn:Hv; [|reflexivity].
  destruct (op v) as [r v']. cbn [snd]. rewrite dom_insert_L.
  apply elem_of_dom_2 in Hv. set_solver.
Qed.

Lemma try_body_dom (b : bool) (file : string) (samplers : gmap string (entry b)) :
  dom (snd (try_pass (try_body b (PyStr.split "_" file) (sampler_name file)) samplers))
  = (match sampler_dim file with Some _ => {[sampler_name file]} | None => ∅ end) ∪ dom samplers.
Proof.
  rewrite snd_try_pass. unfold try_body, sampler_dim, list_last.
  destruct (last_split "_" file) as [tok ->].
  rewrite snd_bind. unfold lift at 1.
  destruct (int_of_str (PyStr.drop_last 2 tok)) as [z|e]; [|set_solver].
  rewrite snd_bind. unfold lift at 1.
  rewrite snd_bind. cbn [get_state]. rewrite snd_bind.
  destruct (samplers !! sampler_name file) as [v|] eqn:Hv.
  - rewrite bool_decide_false by congruence. cbn [mret ST_ret ret].
    rewrite at_item_dom. apply elem_of_dom_2 in Hv. set_solver.
  - rewrite bool_decide_true by done. cbn [put_state].
    rewrite at_item_dom, dom_insert_L. reflexivity.
Qed.

Lemma found_names_cons (w : world) (dir file : string) (files : list string) :
  found_names w dir (file :: files)
  = (if passes_test w (os.join dir file)
     then match sampler_dim file with Some _ => {[sampler_name file]} | None => ∅ end
     else ∅) ∪ found_names w dir files.
Proof.
  unfold found_names. rewrite filter_cons.
  destruct (passes_test w (os.join dir file)).
  - destruct (sampler_dim file) as [z|].
    + rewrite decide_True by (split; [done|by eexists]). reflexivity.
    + rewrite decide_False by (intros [_ [? ?]]; done). set_solver.
  - rewrite decide_False by (intros [? _]; done). set_solver.
Qed.

Lemma scan_file_dom (b : bool) (file : string) (samplers : gmap string (entry b))
    (w : world) :
  ∃ samplers',
    scan_file b file samplers w = (Ok samplers', w) ∧
    dom samplers'
    = found_names w (os.join (__UTK__DIR__ (cfg w)) "samplers") [file] ∪ dom samplers.
Proof.
  unfold scan_file. rewrite found_names_cons.
  erewrite run_bind_ok by apply get_samplers_dir_run.
  erewrite run_bind_ok by apply is_sampler_run.
  destruct (passes_test w _).
  - eexists. split; [reflexivity|].
    change (dom (snd (try_pass (try_body b (PyStr.split "_" file) (sampler_name file))
                               samplers))
            = (match sampler_dim file with Some _ => {[sampler_name file]} | None => ∅ end)
                ∪ found_names w (os.join (__UTK__DIR__ (cfg w)) "samplers") []
                ∪ dom samplers).
    rewrite try_body_dom. unfold found_names. cbn. set_solver.
  - exists samplers. split; [reflexivity|]. unfold found_names. cbn. set_solver.
Qed.

Lemma scan_dom (b : bool) (files : list string) (samplers : gmap string (entry b))
    (w : world) :
  ∃ samplers',
    scan b files samplers w = (Ok samplers', w) ∧
    dom samplers'
    = found_names w (os.join (__UTK__DIR__ (cfg w)) "samplers") files ∪ dom samplers.
Proof.
  revert samplers. induction files as [|file files IH]; intros samplers.
  - exists samplers. split; [reflexivity|]. unfold found_names. cbn. set_solver.
  - destruct (scan_file_dom b file samplers w) as (s1 & Hrun1 & Hdom1).
    destruct (IH s1) as (s2 & Hrun2 & Hdom2).
    exists s2. split.
    + cbn [scan]. by erewrite run_bind_ok by exact Hrun1.
    + rewrite Hdom2, Hdom1, (found_names_cons w _ file files), (found_names_cons w _ file []).
      set_solver.
Qed.

(** What the split mode returns, from what its scan collected. *)
Lemma get_samplers_split (x : bool) (files : list string) (w : world) :
  fs w !! os.join (__UTK__DIR__ (cfg w)) "samplers" = Some (NDir x files) →
  ∃ s1 : gmap string (gmap string dims),
    get_samplers true w = (Ok ((λ _, half_sorted) <$> s1), w) ∧
    dom s1 = found_names w (os.join (__UTK__DIR__ (cfg w)) "samplers") files.
Proof.
  intros Hdir. unfold get_samplers.
  erewrite run_bind_ok by apply get_samplers_dir_run.
  erewrite run_bind_ok by (by eapply listdir_dir).
  destruct (scan_split files ∅ w) as (s1 & Hrun & H1).
  { intros name e. by rewrite lookup_empty. }
  destruct (scan_dom true files ∅ w) as (s1' & Hrun' & Hdom).
  change (entry true) with (gmap string dims) in *.
  assert (s1' = s1) as -> by congruence.
  exists s1. split; [|rewrite Hdom, dom_empty_L; set_solver].
  erewrite run_bind_ok by exact Hrun.
  rewrite (for_each_key (sort_entry true) (λ _, half_sorted) (λ e, e = unfilled)).
  - reflexivity.
  - intros v ->. vm_compute. reflexivity.
  - exact H1.
Qed.

(** Whether [split_i_d] is set or not, discovery returns the same names:
    those of the entries of the samplers directory that pass the test
    and whose dimension reads as an integer. *)
Theorem get_samplers_same_names (x : bool) (files : list string) (w : world) :
  fs w !! os.join (__UTK__DIR__ (cfg w)) "samplers" = Some (NDir x files) →
  ∃ (merged : gmap string dims) (split : gmap string (gmap string dims)),
    get_samplers false w = (Ok merged, w) ∧
    get_samplers true w = (Ok split, w) ∧
    dom merged = found_names w (os.join (__UTK__DIR__ (cfg w)) "samplers") files ∧
    dom split = dom merged.
Proof.
  intros Hdir.
  destruct (get_samplers_split x files w Hdir) as (s1 & Hsplit & Hdom1).
  destruct (scan_dom false files ∅ w) as (s0 & Hrun0 & Hdom0).
  rewrite scan_merged in Hrun0. injection Hrun0 as <-.
  eexists _, _. split; [by eapply get_samplers_merged|].
  split; [exact Hsplit|].
  rewrite !dom_fmap_L. change (entry false) with dims in *.
  rewrite Hdom0, Hdom1, dom_empty_L. set_solver.
Qed.

(** ** Discovery: the order of the listing *)

Lemma passes_test_relisted (dir : string) (x : bool) (files files' : list string)
    (w : world) (path : string) :
  fs w !! dir = Some (NDir x files) →
  passes_test (relisted dir x files' w) path = passes_test w path.
Proof.
  intros Hdir. unfold passes_test, executable_file, relisted. cbn [fs with_fs].
  destruct (decide (path = dir)) as [->|Hne].
  - by rewrite lookup_insert_eq, Hdir.
  - by rewrite lookup_insert_ne by done.
Qed.

Lemma scanned_unique (ok1 ok2 : string → bool) (files1 files2 : list string)
    (m1 m2 : gmap string dims) :
  (∀ name z, has_dim_by ok1 files1 name z ↔ has_dim_by ok2 files2 name z) →
  scanned ok1 files1 m1 → scanned ok2 files2 m2 → m1 = m2.
Proof.
  intros Hsame H1 H2. apply map_eq. intros name.
  specialize (H1 name). specialize (H2 name).
  destruct (m1 !! name) as [v1|], (m2 !! name) as [v2|].
  - destruct H1 as (s1 & -> & Hs1 & _), H2 as (s2 & -> & Hs2 & _).
    do 2 f_equal. apply set_eq. intros z. by rewrite Hs1, Hs2.
  - destruct H1 as (_ & _ & _ & z & Hz). by apply Hsame, H2 in Hz.
  - destruct H2 as (_ & _ & _ & z & Hz). by apply Hsame, H1 in Hz.
  - done.
Qed.

Lemma found_names_perm (w w' : world) (dir : string) (files files' : list string) :
  (∀ path, passes_test w' path = passes_test w path) →
  files ≡ₚ files' →
  found_names w' dir files' = found_names w dir files.
Proof.
  intros Hok Hperm. apply set_eq. intros name. unfold found_names.
  rewrite !elem_of_list_to_set, !list_elem_of_fmap.
  split; intros (file & -> & Hin); exists file; (split; [done|]).
  all: apply list_elem_of_filter in Hin as [[Hp Hd] Hin]; apply list_elem_of_filter.
  all: split; [split; [|done]|].
  - by rewrite <- Hok.
  - by rewrite Hperm.
  - by rewrite Hok.
  - by rewrite <- Hperm.
Qed.

(** The result of discovery does not depend on the order in which the
    directory lists its entries, in either mode. *)
Theorem get_samplers_any_order (split_i_d x : bool) (files files' : list string)
    (w : world) :
  fs w !! os.join (__UTK__DIR__ (cfg w)) "samplers" = Some (NDir x files) →
  files ≡ₚ files' →
  fst (get_samplers split_i_d
         (relisted (os.join (__UTK__DIR__ (cfg w)) "samplers") x files' w))
  = fst (get_samplers split_i_d w).
Proof.
  intros Hdir Hperm.
  set (dir := os.join (__UTK__DIR__ (cfg w)) "samplers") in *.
  set (w' := relisted dir x files' w).
  assert (Hdir' : fs w' !! os.join (__UTK__DIR__ (cfg w')) "samplers"
                  = Some (NDir x files')) by apply lookup_insert_eq.
  assert (Hok : ∀ path, passes_test w' path = passes_test w path)
    by (intros path; by eapply passes_test_relisted).
  destruct split_i_d.
  - destruct (get_samplers_split x files w Hdir) as (s1 & -> & Hdom1).
    destruct (get_samplers_split x files' w' Hdir') as (s2 & -> & Hdom2).
    cbn [fst]. f_equal. apply map_eq. intros name. rewrite !lookup_fmap.
    change (os.join (__UTK__DIR__ (cfg w')) "samplers") with dir in Hdom2.
    fold dir in Hdom1.
    rewrite (found_names_perm w w' dir files files' Hok Hperm), <- Hdom1 in Hdom2.
    assert (H : name ∈ dom s2 ↔ name ∈ dom s1) by (by rewrite Hdom2).
    rewrite !elem_of_dom in H.
    destruct (s1 !! name) as [v1|], (s2 !! name) as [v2|]; try done.
    + destruct (proj2 H) as [? [=]]. by eexists.
    + destruct (proj1 H) as [? [=]]. by eexists.
  - rewrite (get_samplers_merged x files w Hdir), (get_samplers_merged x files' w' Hdir').
    cbn [fst]. do 2 f_equal.
    change (os.join (__UTK__DIR__ (cfg w')) "samplers") with dir. fold dir.
    eapply (scanned_unique (λ file, passes_test w' (os.join dir file))
                           (λ file, passes_test w (os.join dir file))
                           ([] ++ files') ([] ++ files)).
    + intros name z. cbn [app]. unfold has_dim_by.
      split; intros (file & Hin & Hp & H); exists file.
      * rewrite Hperm, <- Hok. done.
      * rewrite <- Hperm, Hok. done.
    + apply scanned_foldl, scanned_empty.
    + apply scanned_foldl, scanned_empty.
Qed.

(** ** The file of a sampler is one that discovery finds *)

(** *** Splitting at a character, and joining again *)

Lemma split_go_char_token (c : ascii) (cur tok rest : string) :
  all_chars (not_char c) tok = true →
  PyStr.split_go (String c "") 0 cur (tok +:+ rest)
  = PyStr.split_go (String c "") 0 (cur +:+ tok) rest.
Proof.
  revert cur. induction tok as [|a tok IH]; intros cur.
  - intros _. by rewrite app_empty_r.
  - cbn [all_chars]. unfold not_char at 1. rewrite andb_true_iff, negb_true_iff.
    intros [Ha Ht]. rewrite app_cons. cbn [PyStr.split_go String.prefix].
    destruct (ascii_dec c a) as [<-|_]; [by rewrite Ascii.eqb_refl in Ha|].
    rewrite IH by exact Ht. by rewrite app_assoc_str.
Qed.

Lemma split_go_char_sep (c : ascii) (cur rest : string) :
  PyStr.split_go (String c "") 0 cur (String c rest)
  = cur :: PyStr.split_go (String c "") 0 "" rest.
Proof.
  cbn [PyStr.split_go String.prefix].
  destruct (ascii_dec c c) as [_|?]; [|done].
  by destruct rest.
Qed.

Lemma split_go_last_field (c : ascii) (cur s tail : string) :
  all_chars (not_char c) tail = true →
  PyStr.split_go (String c "") 0 cur (s +:+ String c tail)
  = PyStr.split_go (String c "") 0 cur s ++ [tail].
Proof.
  intros Htail. revert cur. induction s as [|a s IH]; intros cur.
  - rewrite app_empty_l, split_go_char_sep.
    rewrite <- (app_empty_r tail) at 1.
    by rewrite split_go_char_token, app_empty_l.
  - rewrite app_cons. destruct (ascii_dec c a) as [<-|Hne].
    + rewrite !split_go_char_sep. cbn [app]. by rewrite IH.
    + cbn [PyStr.split_go String.prefix].
      destruct (ascii_dec c a) as [?|_]; [done|]. apply IH.
Qed.

Lemma join_split_go (c : ascii) (cur s : string) :
  PyStr.join (String c "") (PyStr.split_go (String c "") 0 cur s) = cur +:+ s.
Proof.
  unfold PyStr.join. revert cur. induction s as [|a s IH]; intros cur.
  - by rewrite app_empty_r.
  - destruct (ascii_dec c a) as [<-|Hne].
    + rewrite split_go_char_sep.
      pose proof (split_go_not_nil (String c "") 0 "" s) as Hnil.
      specialize (IH "").
      destruct (PyStr.split_go (String c "") 0 "" s) as [|t l]; [done|].
      change (String.concat (String c "") (cur :: t :: l))
        with (cur +:+ String c "" +:+ String.concat (String c "") (t :: l)).
      by rewrite IH, app_empty_l.
    + cbn [PyStr.split_go String.prefix].
      destruct (ascii_dec c a) as [?|_]; [done|].
      by rewrite IH, app_assoc_str.
Qed.

(** A file name is its name, an underscore and a last field without
    underscore. *)
Lemma sampler_name_last_field (name tail : string) :
  all_chars (not_char "_") tail = true →
  sampler_name (name +:+ String "_" tail) = name ∧
  last (PyStr.split "_" (name +:+ String "_" tail)) = Some tail.
Proof.
  intros Htail. unfold sampler_name, PyStr.split.
  rewrite (split_go_last_field "_" "" name tail Htail).
  rewrite removelast_last, last_snoc. split; [|done].
  by rewrite join_split_go, app_empty_l.
Qed.

(** *** The decimal form of a number reads as that number *)

Lemma digit_char (k : N) :
  (k < 10)%N →
  digit_of (pretty_N_char k) = Some (Z.of_N k) ∧
  Ascii.eqb (pretty_N_char k) "_" = false.
Proof.
  intros Hk.
  assert (k = 0 ∨ k = 1 ∨ k = 2 ∨ k = 3 ∨ k = 4 ∨ k = 5 ∨ k = 6 ∨ k = 7 ∨ k = 8 ∨ k = 9)%N
    as H by lia.
  repeat (destruct H as [->|H]; [by vm_compute|]). subst k. by vm_compute.
Qed.

Lemma is_digit_range (c : ascii) :
  is_digit c = true → (48 ≤ nat_of_ascii c ≤ 57)%nat.
Proof.
  unfold is_digit, digit_of.
  destruct (48 <=? nat_of_ascii c)%nat eqn:H1; [|done].
  destruct (nat_of_ascii c <=? 57)%nat eqn:H2; [|done].
  intros _. apply Nat.leb_le in H1, H2. lia.
Qed.

Lemma is_digit_not_char (c a : ascii) :
  is_digit c = false → is_digit a = true → not_char c a = true.
Proof.
  intros Hc Ha. unfold not_char. apply negb_true_iff.
  destruct (Ascii.eqb a c) eqn:E; [|done].
  apply Ascii.eqb_eq in E as ->. congruence.
Qed.

Lemma pretty_N_go_digits (x : N) (s : string) :
  (0 < x)%N →
  ∃ t, pretty_N_go x s = t +:+ s ∧ t ≠ "" ∧ all_chars is_digit t = true ∧
       ∀ acc b rest,
         int_digits acc b (t +:+ rest)
         = int_digits (acc * 10 ^ Z.of_nat (String.length t) + Z.of_N x) true rest.
Proof.
  revert s. induction (N.lt_wf_0 x) as [x _ IH]; intros s Hx.
  rewrite pretty_N_go_step by done.
  destruct (digit_char (x `mod` 10)%N) as [Hd Hu]; [by apply N.mod_lt|].
  assert (Hdig : is_digit (pretty_N_char (x `mod` 10)) = true)
    by (unfold is_digit; by rewrite Hd).
  assert (Hx10 : (x = 10 * (x `div` 10) + x `mod` 10)%N) by (by apply N.div_mod).
  destruct (decide (x `div` 10 = 0)%N) as [H0|Hpos].
  - rewrite H0, pretty_N_go_0. exists (String (pretty_N_char (x `mod` 10)) "").
    split; [done|]. split; [done|]. split; [cbn [all_chars]; by rewrite Hdig|].
    intros acc b rest. rewrite app_cons, app_empty_l. cbn [int_digits String.length].
    rewrite Hu, Hd. f_equal. change (Z.of_nat 1) with 1. rewrite Z.pow_1_r. lia.
  - destruct (IH (x `div` 10)%N) with (s := String (pretty_N_char (x `mod` 10)) s)
      as (t & Ht & Hne & Hall & Hval).
    { apply N.div_lt; lia. }
    { by apply N.neq_0_lt_0. }
    exists (t +:+ String (pretty_N_char (x `mod` 10)) "").
    split; [by rewrite Ht, app_assoc_str, app_cons, app_empty_l|].
    split; [by destruct t|].
    split; [rewrite all_chars_app; cbn [all_chars]; by rewrite Hall, Hdig|].
    intros acc b rest.
    rewrite app_assoc_str, app_cons, app_empty_l, Hval. cbn [int_digits].
    rewrite Hu, Hd. f_equal. rewrite length_app_str. cbn [String.length].
    rewrite Nat2Z.inj_add, Z.pow_add_r by lia. lia.
Qed.

Lemma is_digit_not_int_space (c : ascii) : is_digit c = true → int_space c = false.
Proof.
  intros H%is_digit_range. unfold int_space.
  apply orb_false_iff. split.
  - apply andb_false_iff. right. apply Nat.leb_gt. lia.
  - apply Nat.eqb_neq. lia.
Qed.

Lemma int_rstrip_digit (s : string) (c : ascii) :
  int_space c = false → int_rstrip (s +:+ String c "") = s +:+ String c "".
Proof.
  intros H. induction s as [|a s IH].
  - rewrite app_empty_l. cbn [int_rstrip]. by rewrite H.
  - rewrite app_cons. cbn [int_rstrip]. rewrite IH.
    destruct s; reflexivity.
Qed.

Lemma int_strip_digits (s : string) :
  s ≠ "" → all_chars is_digit s = true → int_rstrip (int_lstrip s) = s.
Proof.
  intros Hne Hall.
  destruct (string_snoc s Hne) as (t & c & Ht).
  assert (Hc : is_digit c = true).
  { rewrite Ht, all_chars_app in Hall. cbn [all_chars] in Hall.
    apply andb_true_iff in Hall as [_ Hall]. by apply andb_true_iff in Hall as [? _]. }
  destruct s as [|a s']; [done|].
  cbn [all_chars] in Hall. apply andb_true_iff in Hall as [Ha _].
  cbn [int_lstrip]. rewrite (is_digit_not_int_space a Ha), Ht.
  by apply int_rstrip_digit, is_digit_not_int_space.
Qed.

Lemma int_of_digits (t : string) (z : Z) :
  t ≠ "" → all_chars is_digit t = true →
  int_digits 0 false t = Some z → int_of_str t = Ok z.
Proof.
  intros Hne Hall Hval. unfold int_of_str.
  rewrite int_strip_digits by done.
  destruct t as [|c t']; [done|].
  cbn [all_chars] in Hall. apply andb_true_iff in Hall as [Hc _].
  assert (c ≠ "+"%char) by (intros ->; done).
  assert (c ≠ "-"%char) by (intros ->; done).
  destruct c as [[] [] [] [] [] [] [] []]; try done; cbv beta iota; by rewrite Hval.
Qed.

Lemma int_of_pretty (d : nat) :
  int_of_str (pretty d) = Ok (Z.of_nat d) ∧
  all_chars is_digit (pretty d) = true.
Proof.
  unfold pretty, pretty_nat, pretty, pretty_N.
  destruct (decide (N.of_nat d = 0)%N) as [H0|Hpos].
  - assert (d = 0%nat) as -> by lia. by vm_compute.
  - destruct (pretty_N_go_digits (N.of_nat d) "") as (t & Ht & Hne & Hall & Hval); [lia|].
    rewrite Ht, app_empty_r. split; [|done].
    apply int_of_digits; [done..|].
    specialize (Hval 0 false ""). rewrite app_empty_r in Hval. rewrite Hval.
    cbn [int_digits]. f_equal. lia.
Qed.

(** *** The name of the executable *)

Lemma contains_app_r (pat s t : string) :
  PyStr.contains pat t = true → PyStr.contains pat (s +:+ t) = true.
Proof.
  intros H. induction s as [|c s IH]; [by rewrite app_empty_l|].
  rewrite app_cons. cbn [PyStr.contains]. rewrite IH. apply orb_true_r.
Qed.

Lemma contains_join_r (pat a b : string) :
  PyStr.contains pat b = true → PyStr.contains pat (os.join a b) = true.
Proof.
  intros H. unfold os.join. destruct (String.prefix "/" b); [done|].
  destruct (_ || _); repeat apply contains_app_r; done.
Qed.

Section sampler_file.
Context (name : string) (d : nat) (index : option string)
  (kwargs : list (string * kwval)).

(** The file a sampler runs carries the name and the dimension given to
    the constructor, and has ["dd"] or ["di"] in its name. *)
Lemma sampler_file_parts :
  index ∈ [None; Some "d"; Some "i"] →
  sampler_name (s_exename (Sampler_init name d index kwargs)) = name ∧
  sampler_dim (s_exename (Sampler_init name d index kwargs)) = Some (Z.of_nat d) ∧
  PyStr.contains "dd" (s_exename (Sampler_init name d index kwargs))
  || PyStr.contains "di" (s_exename (Sampler_init name d index kwargs)) = true.
Proof.
  intros Hindex. cbn [Sampler_init s_exename].
  destruct (int_of_pretty d) as [Hint Hdig].
  assert (∃ i, default "d" index = String i "" ∧ is_digit i = false ∧
               PyStr.contains "dd" (String "d" (String i ""))
               || PyStr.contains "di" (String "d" (String i "")) = true)
    as (i & -> & Hi & Hdd).
  { apply elem_of_cons in Hindex as [->|Hindex]; [by exists "d"%char|].
    apply elem_of_cons in Hindex as [->|Hindex]; [by exists "d"%char|].
    apply list_elem_of_singleton in Hindex as ->. by exists "i"%char. }
  change ("_" +:+ pretty d +:+ "d" +:+ String i "")
    with (String "_" (pretty d +:+ String "d" (String i ""))).
  destruct (sampler_name_last_field name (pretty d +:+ String "d" (String i "")))
    as [Hname Hlast].
  { rewrite all_chars_app. apply andb_true_iff. split.
    - eapply all_chars_impl; [|exact Hdig]. intros a. by apply is_digit_not_char.
    - cbn [all_chars]. rewrite andb_true_r. apply andb_true_iff. split; [done|].
      unfold not_char. apply negb_true_iff.
      destruct (Ascii.eqb i "_") eqn:E; [|done].
      apply Ascii.eqb_eq in E as ->.
      apply orb_true_iff in Hdd as [?|?]; done. }
  split; [exact Hname|]. split.
  - unfold sampler_dim. rewrite Hlast. unfold PyStr.drop_last.
    rewrite length_app_str. cbn [String.length].
    replace (String.length (pretty d) + 2 - 2)%nat with (String.length (pretty d)) by lia.
    by rewrite take_app_length, Hint.
  - apply orb_true_iff in Hdd as [H|H]; apply orb_true_iff; [left|right].
    all: apply contains_app_r; change (String "_" ?s) with ("_" +:+ s).
    all: by do 2 apply contains_app_r.
Qed.

(** An executable file named as [Sampler(name, d, index)] names its
    program is found by discovery: [get_samplers()] has the key [name],
    and [d] is among its dimensions. *)
Theorem sampler_is_discovered (x : bool) (files : list string) (w : world) :
  index ∈ [None; Some "d"; Some "i"] →
  fs w !! os.join (__UTK__DIR__ (cfg w)) "samplers" = Some (NDir x files) →
  s_exename (Sampler_init name d index kwargs) ∈ files →
  executable_file w (os.join (os.join (__UTK__DIR__ (cfg w)) "samplers")
                             (s_exename (Sampler_init name d index kwargs))) = true →
  ∃ (samplers : gmap string dims) (l : list Z),
    get_samplers false w = (Ok samplers, w) ∧
    samplers !! name = Some (DList l) ∧ Z.of_nat d ∈ l.
Proof.
  intros Hindex Hdir Hin Hexe.
  destruct (sampler_file_parts Hindex) as (Hname & Hdim & Hdd).
  set (dir := os.join (__UTK__DIR__ (cfg w)) "samplers") in *.
  set (file := s_exename (Sampler_init name d index kwargs)) in *.
  rewrite (get_samplers_merged x files w Hdir). fold dir.
  pose proof (scanned_foldl w dir files [] ∅ (scanned_empty _) name) as Hscan.
  cbn [app] in Hscan.
  assert (Hhas : has_dim_by (λ file, passes_test w (os.join dir file)) files name
                            (Z.of_nat d)).
  { exists file. split; [done|]. split; [|done].
    unfold passes_test. rewrite Hexe. cbn [andb].
    apply orb_true_iff in Hdd as [H|H]; apply orb_true_iff; [left|right].
    all: by apply contains_join_r. }
  destruct (foldl (scan_step w dir) ∅ files !! name) as [v|] eqn:Hv;
    [|by apply Hscan in Hhas].
  destruct Hscan as (s & -> & Hs & _).
  eexists _, (merge_sort Z.le (elements s)). split; [reflexivity|]. split.
  - by rewrite lookup_fmap, Hv.
  - rewrite merge_sort_Permutation, elem_of_elements. by apply Hs.
Qed.

End sampler_file.

(** ** Setting the directory, then discovering *)

(** [set_dir] accepts a regular file; discovery then looks below that
    file, which is a [NotADirectoryError]. *)
Example set_dir_regular_file :
  set_dir "/tmp/pts.dat" files_world
  = (Ok tt, with_cfg {| __UTK__DIR__ := "/tmp/pts.dat"; __UTK__WDIR__ := "/tmp";
                        __UTK__SILENCE__ := true |} files_world) ∧
  fst (get_samplers false (snd (set_dir "/tmp/pts.dat" files_world)))
  = Raise NotADirectoryError.
Proof. split; vm_compute; reflexivity. Qed.

(** An entry of a directory that the tree holds does not lie below a
    regular file, however the path of the directory is written. *)
Lemma not_under_file_child (f : gmap string node) (dir name : string) (x : bool)
    (l : list string) :
  all_chars (not_char "/") name = true →
  f !! dir = Some (NDir x l) →
  os.under_file f (os.join dir name) = false.
Proof.
  intros Hname Hdir. unfold os.under_file, os.join.
  assert (String.prefix "/" name = false) as ->.
  { destruct name as [|a name]; [done|]. cbn [String.prefix all_chars] in *.
    destruct (ascii_dec "/" a) as [<-|_]; done. }
  assert (Hparent : ∀ u : string,
            f !! u = Some (NDir x l) ∨ f !! (u +:+ "/") = Some (NDir x l) →
            os.below_file (String.length (u +:+ String "/" name)) f
                          (u +:+ String "/" name) = false).
  { intros u Hu. rewrite length_app_str. cbn [String.length].
    rewrite Nat.add_succ_r. cbn [os.below_file].
    rewrite (rfind_last "/" u name Hname).
    destruct (Z.of_nat (String.length u) <? 0) eqn:E; [done|].
    replace (Z.to_nat (Z.of_nat (String.length u) + 1))
      with (String.length (u +:+ "/"))
      by (rewrite length_app_str; cbn [String.length]; lia).
    rewrite Nat2Z.id.
    change (u +:+ String "/" name) with (u +:+ "/" +:+ name).
    rewrite <- (app_assoc_str u "/" name) at 1.
    rewrite take_app_length, take_app_length.
    unfold os.holds_dir. destruct Hu as [-> | ->]; [|done].
    by rewrite orb_true_r. }
  destruct (bool_decide (dir = "")) eqn:E1.
  - apply bool_decide_eq_true in E1 as ->. cbn [orb]. rewrite app_empty_l.
    destruct name as [|a name]; [done|]. cbn [String.length os.below_file].
    by rewrite (rfind_absent "/" (String a name) Hname).
  - cbn [orb]. destruct (PyStr.endswith "/" dir) eqn:E2.
    + destruct (endswith_snoc "/" dir E2) as [u ->].
      rewrite app_assoc_str, app_cons, app_empty_l. apply Hparent. by right.
    + change (dir +:+ "/" +:+ name) with (dir +:+ String "/" name).
      apply Hparent. by left.
Qed.

(** [set_dir] only asks that the path exists.  For a directory that has
    no [samplers] entry it succeeds, touches no file, and the lookups go
    to that directory: discovery then fails with [FileNotFoundError]. *)
Theorem set_dir_unchecked (split_i_d : bool) (dir : string) (x : bool)
    (l : list string) (w : world) :
  fs w !! dir = Some (NDir x l) →
  fs w !! os.join dir "samplers" = None →
  ∃ w', set_dir dir w = (Ok tt, w') ∧ fs w' = fs w ∧
        get_samplers_dir w' = (Ok (os.join dir "samplers"), w') ∧
        get_samplers split_i_d w' = (Raise FileNotFoundError, w').
Proof.
  intros Hdir Hnone. eexists.
  split; [apply set_dir_existing; by rewrite Hdir|].
  split; [reflexivity|]. split; [reflexivity|].
  rewrite get_samplers_missing by done. cbn [fs with_cfg cfg __UTK__DIR__].
  by erewrite missing_plain by (by eapply not_under_file_child).
Qed.

(** ** The further properties on concrete files *)

Lemma read_text_fewer_lines_witness :
  PointReader_read_text toy_double toy_garbage (PointReader_init 3 2 None)
    "/tmp/pts.dat" (holding one_row)
  = (Ok (one_row ++ drop (length one_row) (np_empty toy_garbage 3 2)), holding one_row).
Proof.
  apply read_text_fewer_lines with (np_str := toy_str) (x := false).
  - lia.
  - cbn. lia.
  - repeat constructor.
  - repeat constructor.
  - reflexivity.
Defined.

Lemma read_text_more_lines_witness :
  PointReader_read_text toy_double toy_garbage (PointReader_init 1 2 None)
    "/tmp/pts.dat" (holding two_rows)
  = (Raise IndexError, holding two_rows).
Proof.
  apply read_text_more_lines with (np_str := toy_str) (x := false) (rows := two_rows).
  - lia.
  - cbn. lia.
  - repeat constructor.
  - repeat constructor.
  - reflexivity.
Defined.

Lemma read_text_broadcast_witness :
  PointReader_read_text toy_double toy_garbage
    (PointReader_init (length [bits_1_0; bits_0_5]) 3 None)
    "/tmp/pts.dat" (holding [[bits_1_0]; [bits_0_5]])
  = (Ok (replicate 3 <$> [bits_1_0; bits_0_5]), holding [[bits_1_0]; [bits_0_5]]).
Proof.
  apply read_text_broadcast with (np_str := toy_str) (x := false).
  - repeat constructor.
  - reflexivity.
Defined.

Lemma read_text_ragged_line_witness :
  PointReader_read_text toy_double toy_garbage (PointReader_init 2 2 None)
    "/tmp/pts.dat" (holding [[bits_1_0; 0]; [bits_1_0; 0; bits_0_5]])
  = (Raise ValueError, holding [[bits_1_0; 0]; [bits_1_0; 0; bits_0_5]]).
Proof.
  apply read_text_ragged_line
    with (np_str := toy_str) (x := false) (rows := one_row)
         (bad := [bits_1_0; 0; bits_0_5]) (rest := []).
  - lia.
  - cbn. lia.
  - repeat constructor.
  - discriminate.
  - cbn. lia.
  - cbn. lia.
  - constructor.
  - repeat constructor.
  - reflexivity.
Defined.

Lemma two_sets_not_read_back_witness :
  fst (write_two_then_read toy_str toy_double toy_garbage "/tmp/pts.dat" 1 2
         one_row two_rows files_world)
  = Raise ValueError.
Proof.
  apply two_sets_not_read_back with (x := false).
  - reflexivity.
  - lia.
  - discriminate.
  - cbn. lia.
  - repeat constructor.
  - repeat constructor.
  - reflexivity.
Defined.

Lemma read_bin_trailing_bytes_witness :
  fst (PointReader_read_bin (PointReader_init 2 2 None) "/tmp/pts.bin"
         (put_data "/tmp/pts.bin" false
            (String "000" (String "000" (String "000" (String "002" "")))
             +:+ be_doubles [bits_1_0; 0; bits_0_5; bits_1_0] +:+ "abc") files_world))
  = fst (PointReader_read_bin (PointReader_init 2 2 None) "/tmp/pts.bin"
           (put_data "/tmp/pts.bin" false
              (String "000" (String "000" (String "000" (String "002" "")))
               +:+ be_doubles [bits_1_0; 0; bits_0_5; bits_1_0])
              (put_data "/tmp/pts.bin" false
                 (String "000" (String "000" (String "000" (String "002" "")))
                  +:+ be_doubles [bits_1_0; 0; bits_0_5; bits_1_0] +:+ "abc")
                 files_world))).
Proof.
  apply read_bin_trailing_bytes
    with (header := String "000" (String "000" (String "000" (String "002" ""))))
         (tail := "abc") (values := [bits_1_0; 0; bits_0_5; bits_1_0]).
  - reflexivity.
  - cbn. lia.
  - repeat constructor; vm_compute; congruence.
  - reflexivity.
Defined.

Lemma read_bin_wrong_count_witness :
  PointReader_read_bin (PointReader_init 3 2 None) "/tmp/pts.bin" files_world
  = (Raise ValueError, files_world).
Proof.
  apply read_bin_wrong_count
    with (header := String "000" (String "000" (String "000" (String "002" ""))))
         (tail := "") (values := [bits_1_0; 0; bits_0_5; bits_1_0]) (x := false).
  - reflexivity.
  - cbn. lia.
  - repeat constructor; vm_compute; congruence.
  - cbn. lia.
  - vm_compute. reflexivity.
Defined.

Lemma read_points_no_file_witness :
  PointReader_read toy_double toy_garbage (PointReader_init 2 2 None)
    "/tmp/none.dat" files_world
  = (Raise FileNotFoundError, files_world) ∧
  PointReader_read toy_double toy_garbage (PointReader_init 2 2 None)
    "/tmp/pts.dat/none.dat" files_world
  = (Raise NotADirectoryError, files_world) ∧
  PointReader_read toy_double toy_garbage (PointReader_init 2 2 None) "/tmp" files_world
  = (Raise IsADirectoryError, files_world).
Proof.
  split; [|split].
  - apply (proj1 (read_points_no_file toy_double toy_garbage (PointReader_init 2 2 None)
                    "/tmp/none.dat" files_world)); reflexivity.
  - apply (proj1 (proj2 (read_points_no_file toy_double toy_garbage
                           (PointReader_init 2 2 None)
                           "/tmp/pts.dat/none.dat" files_world))); reflexivity.
  - apply (proj2 (proj2 (read_points_no_file toy_double toy_garbage
                           (PointReader_init 2 2 None) "/tmp" files_world))
             true ["pts.dat"; "pts.bin"]). reflexivity.
Defined.

Lemma overwrite_no_sentinel_witness :
  fst (overwrite_twice toy_str "/tmp/pts.dat" one_row two_rows files_world)
  = Ok (render toy_str (String "009" "") one_row
        +:+ render toy_str (String "009" "") two_rows).
Proof. apply overwrite_no_sentinel with (data := "") (x := false). reflexivity. Defined.

Lemma overwrite_round_trip_witness :
  overwrite_then_read toy_str toy_double toy_garbage "/tmp/pts.dat" 2 2 two_rows
    (holding one_row)
  = (Ok two_rows,
     put_data "/tmp/pts.dat" false (render toy_str (String "009" "") two_rows)
       (holding one_row)).
Proof.
  apply overwrite_round_trip with (data := render toy_str (String "009" "") one_row).
  - lia.
  - reflexivity.
  - repeat constructor.
  - repeat constructor.
  - reflexivity.
Defined.

Lemma write_sequence_of_sets_witness :
  ∃ self',
    PointWriter_write toy_str pts_writer (Arr3 [one_row; two_rows]) files_world
    = (Ok self',
       put_data "/tmp/pts.dat" false
         ("" +:+ render_sets toy_str (pw_sep pts_writer) (pw_pointset_sep pts_writer)
                   [one_row; two_rows]) files_world).
Proof. apply write_sequence_of_sets; reflexivity. Defined.

Lemma no_file_writer_witness :
  PointWriter_close (with_file None pts_writer) files_world
  = (Raise AttributeError, files_world) ∧
  PointWriter_write toy_str (with_file None pts_writer) (Arr2 one_row) files_world
  = (Raise AttributeError, files_world) ∧
  PointWriter_write toy_str (with_file None pts_writer) (Arr3 [one_row]) files_world
  = (Raise AttributeError, files_world).
Proof.
  destruct (no_file_writer toy_str (with_file None pts_writer) files_world eq_refl)
    as (Hclose & Hrows & Hsets & _).
  split; [exact Hclose|]. split.
  - apply Hrows. left. reflexivity.
  - apply Hsets. discriminate.
Defined.

Lemma discrepancy_read_unaligned_witness :
  ∃ results,
    DiscrepancyReader_read toy_double (DiscrepancyReader_init None None) "/tmp/out.dat"
      (put_data "/tmp/out.dat" false (short_header +:+ short_line) files_world)
    = (Ok results,
       put_data "/tmp/out.dat" false (short_header +:+ short_line) files_world) ∧
    length results = length [short_line] ∧
    ∀ i line res,
      [short_line] !! i = Some line → results !! i = Some res →
      reads_as toy_double
        (take (length (line_values (DiscrepancyReader_init None None) line))
              (header_names (DiscrepancyReader_init None None) short_header))
        (take (length (header_names (DiscrepancyReader_init None None) short_header))
              (line_values (DiscrepancyReader_init None None) line)) res.
Proof.
  apply discrepancy_read_unaligned with (data := short_header +:+ short_line) (x := false).
  - discriminate.
  - reflexivity.
  - reflexivity.
  - repeat constructor; vm_compute; eauto.
Defined.

Lemma discrepancy_read_bad_value_witness :
  DiscrepancyReader_read toy_double (DiscrepancyReader_init None None) "/tmp/out.dat"
    (put_data "/tmp/out.dat" false (short_header +:+ bad_line) files_world)
  = (Raise ValueError,
     put_data "/tmp/out.dat" false (short_header +:+ bad_line) files_world).
Proof.
  apply discrepancy_read_bad_value
    with (data := short_header +:+ bad_line) (header := short_header)
         (bad := bad_line) (good := []) (rest := []) (x := false).
  - discriminate.
  - reflexivity.
  - reflexivity.
  - constructor.
  - apply Exists_cons_tl, Exists_cons_hd. reflexivity.
Defined.

Lemma discrepancy_read_no_values_witness :
  DiscrepancyReader_read toy_double (DiscrepancyReader_init None None) "/tmp/pts.dat"
    files_world
  = (if bool_decide (dr_sep (DiscrepancyReader_init None None) = "")
     then Raise ValueError else Ok [], files_world).
Proof.
  apply discrepancy_read_no_values with (data := "") (x := false).
  - reflexivity.
  - left. reflexivity.
Defined.

Lemma temp_file_read_as_text_witness :
  PointReader_read toy_double toy_garbage (PointReader_init 2 2 None)
    (os.join "/tmp" (toy_hex 0 +:+ ".dat"))
  = PointReader_read_text toy_double toy_garbage (PointReader_init 2 2 None)
      (os.join "/tmp" (toy_hex 0 +:+ ".dat")).
Proof. apply temp_file_read_as_text. reflexivity. Defined.

Lemma sample_returns_points_witness :
  Sampler_sample toy_double toy_garbage toy_hex toy_sampler
    (Sampler_init "foo" 2 None []) 1 false files_world
  = (Ok one_row,
     after_child (<[temp_file toy_hex files_world :=
                      NFile false (render toy_str (String "009" "") one_row)]>
                    (fs files_world)) files_world) ∧
  ∃ w', Sampler_sample toy_double toy_garbage toy_hex toy_sampler
          (Sampler_init "foo" 2 None []) 1 true files_world
        = (Ok one_row, w') ∧
        fs w' !! temp_file toy_hex files_world = None ∧ cfg w' = cfg files_world.
Proof.
  apply sample_returns_points with (np_str := toy_str) (x := false).
  - reflexivity.
  - reflexivity.
  - apply lookup_insert_eq.
  - cbn. lia.
  - reflexivity.
  - repeat constructor.
  - repeat constructor.
Defined.

Lemma sample_propagates_errors_witness :
  Sampler_sample toy_double toy_garbage toy_hex toy_absent
    (Sampler_init "foo" 2 None []) 1 true files_world
  = (Raise FileNotFoundError, after_child (fs files_world) files_world) ∧
  Sampler_sample toy_double toy_garbage toy_hex toy_idle
    (Sampler_init "foo" 2 None []) 1 true files_world
  = (Raise FileNotFoundError, after_child (fs files_world) files_world) ∧
  Sampler_sample toy_double toy_garbage toy_hex toy_idle
    (Sampler_init "foo" 2 None []) 1 true misdirected_world
  = (Raise NotADirectoryError, after_child (fs misdirected_world) misdirected_world).
Proof.
  split; [|split].
  - apply (proj1 (sample_propagates_errors toy_double toy_garbage toy_hex toy_absent
                    (Sampler_init "foo" 2 None []) 1 true (fs files_world) files_world)).
    reflexivity.
  - apply (proj1 (proj2 (proj2
             (sample_propagates_errors toy_double toy_garbage toy_hex toy_idle
                (Sampler_init "foo" 2 None []) 1 true (fs files_world) files_world))));
      reflexivity.
  - apply (proj2 (proj2 (proj2
             (sample_propagates_errors toy_double toy_garbage toy_hex toy_idle
                (Sampler_init "foo" 2 None []) 1 true
                (fs misdirected_world) misdirected_world))));
      reflexivity.
Defined.

Lemma compute_from_file_returns_results_witness :
  ∃ results,
    length results = length [("1.0" +:+ String "009" (String "009" "0.5")
                              +:+ String "009" "0.0" +:+ String "010" "")] ∧
    (∀ i line res,
       [("1.0" +:+ String "009" (String "009" "0.5") +:+ String "009" "0.0"
         +:+ String "010" "")] !! i = Some line →
       results !! i = Some res →
       reads_as toy_double
         (header_names (DiscrepancyReader_init None None)
            ("#Nbpts" +:+ String "009" (String "009" "#Mean") +:+ String "009" "#Var"
             +:+ String "010" ""))
         (line_values (DiscrepancyReader_init None None) line) res) ∧
    Discrepancy_compute_from_file toy_double toy_hex toy_discrepancy
      (Discrepancy_init "l2" 2 None []) "/tmp/pts.dat" (-1) false files_world
    = (Ok results,
       after_child (<[temp_file toy_hex files_world := NFile false discrepancy_text]>
                      (fs files_world)) files_world) ∧
    ∃ w', Discrepancy_compute_from_file toy_double toy_hex toy_discrepancy
            (Discrepancy_init "l2" 2 None []) "/tmp/pts.dat" (-1) true files_world
          = (Ok results, w') ∧
          fs w' !! temp_file toy_hex files_world = None ∧
          ("/tmp/pts.dat" ≠ temp_file toy_hex files_world →
           "/tmp/pts.dat" ≠ os.dirname (temp_file toy_hex files_world) →
           fs w' !! "/tmp/pts.dat"
           = <[temp_file toy_hex files_world := NFile false discrepancy_text]>
               (fs files_world) !! "/tmp/pts.dat").
Proof.
  apply compute_from_file_returns_results with (data := discrepancy_text) (x := false).
  - reflexivity.
  - apply lookup_insert_eq.
  - reflexivity.
  - repeat constructor; vm_compute; eauto.
Defined.

Lemma compute_from_file_propagates_errors_witness :
  Discrepancy_compute_from_file toy_double toy_hex toy_absent
    (Discrepancy_init "l2" 2 None []) "/tmp/pts.dat" (-1) true files_world
  = (Raise FileNotFoundError, after_child (fs files_world) files_world) ∧
  Discrepancy_compute_from_file toy_double toy_hex toy_idle
    (Discrepancy_init "l2" 2 None []) "/tmp/pts.dat" (-1) true files_world
  = (Raise FileNotFoundError, after_child (fs files_world) files_world) ∧
  Discrepancy_compute_from_file toy_double toy_hex toy_idle
    (Discrepancy_init "l2" 2 None []) "/tmp/pts.dat" (-1) true misdirected_world
  = (Raise NotADirectoryError, after_child (fs misdirected_world) misdirected_world).
Proof.
  split; [|split].
  - apply (proj1 (compute_from_file_propagates_errors toy_double toy_hex toy_absent
                    (Discrepancy_init "l2" 2 None []) "/tmp/pts.dat" (-1) true
                    (fs files_world) files_world)).
    reflexivity.
  - apply (proj1 (proj2 (proj2
             (compute_from_file_propagates_errors toy_double toy_hex toy_idle
                (Discrepancy_init "l2" 2 None []) "/tmp/pts.dat" (-1) true
                (fs files_world) files_world))));
      reflexivity.
  - apply (proj2 (proj2 (proj2
             (compute_from_file_propagates_errors toy_double toy_hex toy_idle
                (Discrepancy_init "l2" 2 None []) "/tmp/pts.dat" (-1) true
                (fs misdirected_world) misdirected_world))));
      reflexivity.
Defined.

Lemma get_samplers_no_directory_witness :
  get_samplers false tmp_world = (Raise FileNotFoundError, tmp_world) ∧
  get_samplers false misdirected_world = (Raise NotADirectoryError, misdirected_world) ∧
  get_samplers false (put_data "samplers" false "" tmp_world)
  = (Raise NotADirectoryError, put_data "samplers" false "" tmp_world).
Proof.
  split; [|split].
  - apply (proj1 (get_samplers_no_directory false tmp_world)); reflexivity.
  - apply (proj1 (proj2 (get_samplers_no_directory false misdirected_world)));
      reflexivity.
  - apply (proj2 (proj2 (get_samplers_no_directory false
                           (put_data "samplers" false "" tmp_world)))
             false ""). reflexivity.
Defined.

Lemma get_samplers_same_names_witness :
  ∃ (merged : gmap string dims) (split : gmap string (gmap string dims)),
    get_samplers false samplers_world = (Ok merged, samplers_world) ∧
    get_samplers true samplers_world = (Ok split, samplers_world) ∧
    dom merged
    = found_names samplers_world
        (os.join (__UTK__DIR__ (cfg samplers_world)) "samplers")
        ["foo_2dd"; "foo_3dd"; "foo_3di"; "list_dir"] ∧
    dom split = dom merged.
Proof. apply get_samplers_same_names with (x := true). reflexivity. Defined.

Lemma get_samplers_any_order_witness :
  fst (get_samplers false oof_world) = fst (get_samplers false foo_world).
Proof.
  apply (get_samplers_any_order false true ["foo_2dd"; "foo_3dd"]
           ["foo_3dd"; "foo_2dd"] foo_world).
  - reflexivity.
  - apply perm_swap.
Defined.

Lemma sampler_is_discovered_witness :
  ∃ (samplers : gmap string dims) (l : list Z),
    get_samplers false samplers_world = (Ok samplers, samplers_world) ∧
    samplers !! "foo" = Some (DList l) ∧ Z.of_nat 3 ∈ l.
Proof.
  apply sampler_is_discovered
    with (index := Some "i") (kwargs := []) (x := true)
         (files := ["foo_2dd"; "foo_3dd"; "foo_3di"; "list_dir"]).
  - apply list_elem_of_further, list_elem_of_further, list_elem_of_here.
  - reflexivity.
  - apply list_elem_of_further, list_elem_of_further, list_elem_of_here.
  - reflexivity.
Defined.

Lemma set_dir_unchecked_witness :
  ∃ w', set_dir "/data" tmp_world = (Ok tt, w') ∧ fs w' = fs tmp_world ∧
        get_samplers_dir w' = (Ok (os.join "/data" "samplers"), w') ∧
        get_samplers false w' = (Raise FileNotFoundError, w').
Proof.
  apply set_dir_unchecked with (x := true) (l := []).
  - reflexivity.
  - reflexivity.
Defined.
